(** * YOLOv3 head post-processing rewriters (mmdeploy): a shallow embedding

    Source: mmdeploy/codebase/mmdet/models/dense_heads/yolo_head.py

    The file embeds the two rewriters of [YOLOV3Head.predict_by_feat]:
    - [yolov3_head__predict_by_feat], the generic decode-and-filter pipeline;
    - [yolov3_head__predict_by_feat__ncnn], the fused single-operator path.

    Representation choices.
    - A tensor of shape (d1, ..., dn) is a list nested n deep, outermost
      dimension first.  Reshapes go through the row-major flattening, as
      torch does.
    - Tensor entries are floats in the source.  They are kept abstract here,
      as a type [R] with the comparisons and the product the code uses; the
      comparisons are those of a total order (no NaN).
    - Python exceptions are values of [error]; a computation that may raise
      has type [result A].
    - Collaborators that are not part of the file (torch.sigmoid, the prior
      generator, the box coder, multiclass_nms, the random generator behind
      torch.rand) are section variables. *)

From Stdlib Require Import QArith Qabs.
From stdpp Require Import prelude gmap strings.
Close Scope Q_scope.

Set Default Proof Using "Type".
Open Scope Z_scope.
Open Scope nat_scope.

(** ** Scalars

    The entries of float tensors, with the operations the pipeline applies
    to them.  [ltb] and [leb] are the comparisons [<] and [<=] of floats:
    both are false when an operand is NaN, so no law relates the one to the
    other. *)

Class Scalar (R : Type) := {
  zero : R;
  of_int : Z → R;
  ltb : R → R → bool;
  leb : R → R → bool;
  mul : R → R → R
}.

(** ** Exceptions *)

Inductive error :=
  | LevelCountAssertion   (* assert len(pred_maps_list) == self.num_levels *)
  | IndexError
  | AttributeError
  | TypeError
  | ValueError
  | RuntimeError.

Definition result (A : Type) : Type := error + A.
Definition Ok {A} (x : A) : result A := inr x.
Definition Err {A} (e : error) : result A := inl e.

Definition rbind {A B} (m : result A) (f : A → result B) : result B :=
  match m with
  | inl e => inl e
  | inr x => f x
  end.

Notation "'let*' x ':=' m 'in' k" := (rbind m (λ x, k))
  (at level 10, x pattern, m at level 100, k at level 200).

Fixpoint rmap {A B} (f : A → result B) (l : list A) : result (list B) :=
  match l with
  | [] => Ok []
  | x :: l' => let* y := f x in let* ys := rmap f l' in Ok (y :: ys)
  end.

(** [l[i]] for a non-negative index. *)
Definition index {A} (l : list A) (i : nat) : result A :=
  match l !! i with
  | Some x => Ok x
  | None => Err IndexError
  end.

(** ** Python values held by configuration objects *)

Inductive pyval (R : Type) :=
  | PInt (z : Z)
  | PFloat (x : R).
Arguments PInt {R} _.
Arguments PFloat {R} _.

(** A test configuration: [cfg.get(key, default)] reads [cfg_top], the
    attribute access [cfg.nms] reads [cfg_nms] (absent: AttributeError). *)
Record Cfg (R : Type) := {
  cfg_top : gmap string (pyval R);
  cfg_nms : option (gmap string (pyval R))
}.
Arguments cfg_top {R} _.
Arguments cfg_nms {R} _.

(** The object returned by [get_post_processing_params(deploy_cfg)]. *)
Record PostParams (R : Type) := {
  score_threshold : pyval R;
  confidence_threshold : pyval R;
  iou_threshold : pyval R;
  max_output_boxes_per_class : pyval R;
  pre_top_k : pyval R;
  keep_top_k : pyval R
}.
Arguments score_threshold {R} _.
Arguments confidence_threshold {R} _.
Arguments iou_threshold {R} _.
Arguments max_output_boxes_per_class {R} _.
Arguments pre_top_k {R} _.
Arguments keep_top_k {R} _.

(** The attributes of [self] the rewriters read. *)
Record YOLOV3Head (R : Type) := {
  num_levels : nat;
  num_classes : nat;
  num_attrib : nat;
  featmap_strides : list Z;
  base_sizes : list (list (Z * Z));      (* self.prior_generator.base_sizes *)
  test_cfg : option (Cfg R)
}.
Arguments num_levels {R} _.
Arguments num_classes {R} _.
Arguments num_attrib {R} _.
Arguments featmap_strides {R} _.
Arguments base_sizes {R} _.
Arguments test_cfg {R} _.

(** Keyword arguments of the call to [multiclass_nms]. *)
Record NmsCall (R : Type) := {
  nms_boxes : list (list (list R));
  nms_scores : list (list (list R));
  nms_max_output_boxes_per_class : pyval R;
  nms_iou_threshold : pyval R;
  nms_score_threshold : pyval R;
  nms_pre_top_k : pyval R;
  nms_keep_top_k : pyval R
}.
Arguments nms_boxes {R} _.
Arguments nms_scores {R} _.
Arguments nms_max_output_boxes_per_class {R} _.
Arguments nms_iou_threshold {R} _.
Arguments nms_score_threshold {R} _.
Arguments nms_pre_top_k {R} _.
Arguments nms_keep_top_k {R} _.

(** What the generic pipeline does last: return the pair, or hand over to
    [multiclass_nms]. *)
Inductive Tail (R : Type) :=
  | ReturnPair (boxes scores : list (list (list R)))
  | CallNms (call : NmsCall R).
Arguments ReturnPair {R} boxes scores.
Arguments CallNms {R} _.

(** ** Row-major reshaping *)

(** [regroup n k l]: [n] consecutive groups of [k] elements of [l]. *)
Definition regroup {A} (n k : nat) (l : list A) : list (list A) :=
  (λ i, take k (drop (i * k) l)) <$> seq 0 n.

(** [x.reshape(-1, w)] on the flattened data: rows of width [w]. *)
Definition reshape_rows {A} (w : nat) (flat : list A) : result (list (list A)) :=
  if w =? 0 then Err RuntimeError
  else if length flat mod w =? 0 then Ok (regroup (length flat / w) w flat)
  else Err RuntimeError.

(** [x.reshape(b, -1, w)] on the flattened data. *)
Definition reshape3 {A} (b w : nat) (flat : list A) : result (list (list (list A))) :=
  if b * w =? 0 then Err RuntimeError
  else if length flat mod (b * w) =? 0 then
    let n := length flat / (b * w) in
    Ok (regroup b n (regroup (b * n) w flat))
  else Err RuntimeError.

(** [rows.reshape(b, -1, w)] for a tensor given as its list of rows of
    width [w]. *)
Definition regroup_batch {A} (b : nat) (rows : list A) : result (list (list A)) :=
  if b =? 0 then Err RuntimeError
  else if length rows mod b =? 0 then Ok (regroup b (length rows / b) rows)
  else Err RuntimeError.

(** ** torch.topk along the last dimension

    Indices of the [k] largest entries, largest first; among equal entries
    the lower index comes first.  [k] larger than the dimension raises. *)

Section TopK.
Context {R : Type} `{Scalar R}.

Fixpoint insert_desc (x : nat * R) (l : list (nat * R)) : list (nat * R) :=
  match l with
  | [] => [x]
  | y :: l' => if ltb (snd x) (snd y) then y :: insert_desc x l' else x :: l
  end.

Definition sort_desc (l : list (nat * R)) : list (nat * R) :=
  foldr insert_desc [] l.

Definition topk (k : nat) (xs : list R) : result (list nat) :=
  if k <=? length xs then Ok (take k (fst <$> sort_desc (imap pair xs)))
  else Err RuntimeError.
End TopK.

(** ** Tensor helpers of the generic pipeline *)

Abbreviation T2 R := (list (list R)).
Abbreviation T3 R := (list (list (list R))).
Abbreviation T4 R := (list (list (list (list R)))).

Section Helpers.
Context {R : Type} `{Scalar R}.

(** Python comparison [v > 0] of a configuration value. *)
Definition py_gt0 (v : pyval R) : bool :=
  match v with
  | PInt z => (0 <? z)%Z
  | PFloat x => ltb zero x
  end.

(** A configuration value broadcast against a float tensor. *)
Definition to_scalar (v : pyval R) : R :=
  match v with
  | PInt z => of_int z
  | PFloat x => x
  end.

(** A configuration value used as a size (pad size, k of topk). *)
Definition as_size (v : pyval R) : result nat :=
  match v with
  | PInt z => Ok (Z.to_nat z)
  | PFloat _ => Err TypeError
  end.

(** [cfg.get(key, default)]. *)
Definition cfg_get (m : gmap string (pyval R)) (key : string) (dflt : pyval R)
    : pyval R :=
  default dflt (m !! key).

(** [x.where(mask, x.new_zeros(1))], mask of the shape of [x]. *)
Definition where_ (mask : list bool) (x : list R) : list R :=
  zip_with (λ (m : bool) v, if m then v else zero) mask x.

(** [x.where(mask.unsqueeze(-1), x.new_zeros(1))]: one mask bit per row. *)
Definition where_rows (mask : list bool) (x : list (list R)) : list (list R) :=
  zip_with (λ (m : bool) row, (λ v, if m then v else zero) <$> row) mask x.

(** Modelled from the spec: [pad_with_value_if_necessary(x, 1, pad_size,
    pad_value)] is imported from mmdeploy.codebase.mmdet and is not part
    of the file.  The spec has it pad a tensor along the anchor dimension
    up to at least the top-k size; [fill] is the padding entry (a scalar
    for objectness, a row of zeros for boxes and scores). *)
Definition pad_with_value_if_necessary {A} (x : list (list A)) (pad_size : nat)
    (fill : A) : list (list A) :=
  (λ item, item ++ replicate (pad_size - length item) fill) <$> x.
End Helpers.

(** ** The generic pipeline: [yolov3_head__predict_by_feat] *)

Section Generic.
Context {R : Type} `{Scalar R}.

(** Collaborators. *)
Variable sigmoid : R → R.                                  (* torch.sigmoid *)
Variable DeployCfg : Type.                                 (* ctx.cfg *)
Variable get_post_processing_params : DeployCfg → PostParams R.
Variable is_dynamic_shape : DeployCfg → bool.
Variable grid_anchors : YOLOV3Head R → list (nat * nat) → list (T2 R).
Variable bbox_decode : T3 R → T3 R → Z → T3 R.      (* self.bbox_coder.decode *)

(** *** Lines 79-113: per-level decoding *)

(** [t.shape[-2:]] of a (b, c, h, w) map. *)
Definition featmap_size (t : T4 R) : nat * nat :=
  let plane := hd [] (hd [] t) in (length plane, length (hd [] plane)).

(** [t.permute(0, 2, 3, 1)]: (b, c, h, w) to (b, h, w, c). *)
Definition permute_0231 (t : T4 R) : T4 R :=
  let '(h, w) := featmap_size t in
  (λ item : T3 R,
     (λ i, (λ j, (λ chan : T2 R, default zero (chan !! i ≫= (.!! j))) <$> item)
           <$> seq 0 w) <$> seq 0 h) <$> t.

Definition flatten4 (t : T4 R) : list R := concat (concat (concat t)).
Definition flatten3 (t : T3 R) : list R := concat (concat t).

(** [torch.cat(ts, dim=1)] of tensors with a common batch dimension. *)
Definition cat_dim1 {A} (ts : list (list (list A))) : result (list (list A)) :=
  match ts with
  | [] => Err RuntimeError
  | t0 :: _ =>
      if forallb (λ t, length t =? length t0) ts
      then Ok ((λ b, concat ((λ t : list (list A), default [] (t !! b)) <$> ts))
                 <$> seq 0 (length t0))
      else Err RuntimeError
  end.

(** The body of the loop over levels. *)
Definition decode_level (self : YOLOV3Head R) (is_dynamic_flag : bool)
    (batch_size : nat) (multi_lvl_anchors : list (T2 R))
    (pred_maps_list : list (T4 R)) (i : nat)
    : result (T3 R * T3 R * T2 R) :=
  let* pred_map := index pred_maps_list i in
  let* stride := index (featmap_strides self) i in
  let* pred_map :=
    reshape3 batch_size (num_attrib self) (flatten4 (permute_0231 pred_map)) in
  let pred_map_conf := (λ item : T2 R, (λ r, sigmoid <$> take 2 r) <$> item) <$> pred_map in
  let pred_map_rest := (λ item : T2 R, drop 2 <$> item) <$> pred_map in
  let pred_map := zip_with (zip_with app) pred_map_conf pred_map_rest in
  let pred_map_boxes := (λ item : T2 R, take 4 <$> item) <$> pred_map in
  let* multi_lvl_anchor := index multi_lvl_anchors i in
  let multi_lvl_anchor :=
    if negb is_dynamic_flag then multi_lvl_anchor (* .data *) else multi_lvl_anchor in
  let bbox_pred := bbox_decode [multi_lvl_anchor] pred_map_boxes stride in
  if num_attrib self <=? 4 then Err IndexError else
  let conf_pred :=
    (λ item : T2 R, (λ r : list R, sigmoid (default zero (r !! 4))) <$> item) <$> pred_map in
  let* cls_pred :=
    reshape3 batch_size (num_classes self)
      (flatten3 ((λ item : T2 R, (λ r, sigmoid <$> drop 5 r) <$> item) <$> pred_map)) in
  Ok (bbox_pred, cls_pred, conf_pred).

(** *** Lines 121-128: confidence thresholding *)

Definition conf_threshold_stage (confidence_threshold : pyval R)
    (boxes scores : T3 R) (conf : T2 R) : T3 R * T3 R * T2 R :=
  if py_gt0 confidence_threshold then
    let mask :=
      (λ item : list R, (λ c, leb (to_scalar confidence_threshold) c) <$> item) <$> conf in
    let conf' := zip_with where_ mask conf in
    let scores' := zip_with where_rows mask scores in
    let boxes' := zip_with where_rows mask boxes in
    (boxes', scores', conf')
  else (boxes, scores, conf).

(** *** Lines 130-133: score thresholding *)

Definition score_threshold_stage (score_threshold : pyval R) (scores : T3 R)
    : T3 R :=
  if py_gt0 score_threshold then
    let mask :=
      (λ item : T2 R,
         (λ r : list R, (λ s, ltb (to_scalar score_threshold) s) <$> r) <$> item)
        <$> scores in
    zip_with (zip_with where_) mask scores
  else scores.

(** *** Lines 135-157: pre-NMS top-k and gather *)

(** [x[inds]] along dimension 0, for the flattened index tensor. *)
Definition gather {A} (rows : list A) (inds : list nat) : result (list A) :=
  rmap (index rows) inds.

Definition topk_stage (self : YOLOV3Head R) (batch_size : nat) (pre_topk : pyval R)
    (boxes scores : T3 R) (conf : T2 R) : result (T3 R * T3 R * T2 R) :=
  let* k := as_size pre_topk in
  let boxes := pad_with_value_if_necessary boxes k (replicate 4 zero) in
  let conf := pad_with_value_if_necessary conf k zero in
  let scores :=
    pad_with_value_if_necessary scores k (replicate (num_classes self) zero) in
  let* flat_scores := regroup_batch batch_size (flatten3 scores) in
  let* topk_inds := rmap (topk k) flat_scores in
  let topk_inds : list (list (list nat)) :=
    [ (λ row : list nat, (λ i, i / num_classes self) <$> row) <$> topk_inds;
      (λ row : list nat, (λ i, i mod num_classes self) <$> row) <$> topk_inds ] in
  let batch_inds := seq 0 batch_size in
  let shape1 := length (hd [] boxes) in
  let transformed_inds : list (list (list nat)) :=
    (λ half : list (list nat),
       zip_with (λ b (row : list nat), (λ i, shape1 * b + i) <$> row) batch_inds half)
      <$> topk_inds in
  let inds := concat (concat transformed_inds) in
  let* box_rows := reshape_rows 4 (flatten3 boxes) in
  let* box_sel := gather box_rows inds in
  let* boxes' := regroup_batch batch_size box_sel in
  let* score_rows := reshape_rows (num_classes self) (flatten3 scores) in
  let* score_sel := gather score_rows inds in
  let* scores' := regroup_batch batch_size score_sel in
  let* conf_sel := gather (concat conf) inds in
  let* conf' := regroup_batch batch_size conf_sel in
  Ok (boxes', scores', conf').

(** *** Lines 159-160: score fusion *)

Definition fuse_scores (scores : T3 R) (conf : T2 R) : T3 R :=
  zip_with (zip_with (λ (row : list R) c, (λ s, mul s c) <$> row)) scores conf.

(** *** Lines 115-178: everything after the levels are merged *)

Definition post_process (post_params : PostParams R) (self : YOLOV3Head R)
    (cfg : Cfg R) (batch_size : nat) (pre_topk : pyval R)
    (batch_mlvl_bboxes batch_mlvl_scores : T3 R) (batch_mlvl_conf_scores : T2 R)
    (with_nms : bool) : result (Tail R) :=
  let score_threshold_ :=
    cfg_get (cfg_top cfg) "score_thr" (score_threshold post_params) in
  let confidence_threshold_ :=
    cfg_get (cfg_top cfg) "conf_thr" (confidence_threshold post_params) in
  let masked :=
    conf_threshold_stage confidence_threshold_
      batch_mlvl_bboxes batch_mlvl_scores batch_mlvl_conf_scores in
  let boxes := masked.1.1 in
  let conf := masked.2 in
  let scores := score_threshold_stage score_threshold_ masked.1.2 in
  let* selected :=
    if py_gt0 pre_topk then topk_stage self batch_size pre_topk boxes scores conf
    else Ok (boxes, scores, conf) in
  let boxes := selected.1.1 in
  let conf := selected.2 in
  let scores := fuse_scores selected.1.2 conf in
  if with_nms then
    let max_output_boxes_per_class_ := max_output_boxes_per_class post_params in
    let* nms := match cfg_nms cfg with
                | Some m => Ok m
                | None => Err AttributeError
                end in
    let iou_threshold_ := cfg_get nms "iou_threshold" (iou_threshold post_params) in
    let pre_top_k_ := pre_top_k post_params in
    let keep_top_k_ := cfg_get (cfg_top cfg) "max_per_img" (keep_top_k post_params) in
    let score_threshold_ := PInt 0 in
    Ok (CallNms {| nms_boxes := boxes;
                   nms_scores := scores;
                   nms_max_output_boxes_per_class := max_output_boxes_per_class_;
                   nms_iou_threshold := iou_threshold_;
                   nms_score_threshold := score_threshold_;
                   nms_pre_top_k := pre_top_k_;
                   nms_keep_top_k := keep_top_k_ |})
  else Ok (ReturnPair boxes scores).

(** *** The rewriter, up to its last action *)

Definition yolov3_head__predict_by_feat_tail (ctx : DeployCfg)
    (self : YOLOV3Head R) (pred_maps : list (T4 R)) (cfg : option (Cfg R))
    (rescale with_nms : bool) : result (Tail R) :=
  let deploy_cfg := ctx in
  let is_dynamic_flag := is_dynamic_shape ctx in
  let num_levels_ := length pred_maps in
  let pred_maps_list := take num_levels_ pred_maps in
  let cfg := match cfg with None => test_cfg self | Some c => Some c end in
  if negb (length pred_maps_list =? num_levels self) then Err LevelCountAssertion
  else
  let* first := index pred_maps_list 0 in
  let batch_size := length first in
  let featmap_sizes := featmap_size <$> take (num_levels self) pred_maps_list in
  let multi_lvl_anchors := grid_anchors self featmap_sizes in
  let* cfg := match cfg with Some c => Ok c | None => Err AttributeError end in
  let pre_topk := cfg_get (cfg_top cfg) "nms_pre" (PInt (-1)) in
  let* levels :=
    rmap (decode_level self is_dynamic_flag batch_size multi_lvl_anchors pred_maps_list)
         (seq 0 (num_levels self)) in
  let multi_lvl_bboxes := (λ l : T3 R * T3 R * T2 R, l.1.1) <$> levels in
  let multi_lvl_cls_scores := (λ l : T3 R * T3 R * T2 R, l.1.2) <$> levels in
  let multi_lvl_conf_scores := (λ l : T3 R * T3 R * T2 R, l.2) <$> levels in
  let* batch_mlvl_bboxes := cat_dim1 multi_lvl_bboxes in
  let* batch_mlvl_scores := cat_dim1 multi_lvl_cls_scores in
  let* batch_mlvl_conf_scores := cat_dim1 multi_lvl_conf_scores in
  let post_params := get_post_processing_params deploy_cfg in
  post_process post_params self cfg batch_size pre_topk
    batch_mlvl_bboxes batch_mlvl_scores batch_mlvl_conf_scores with_nms.

(** *** The rewriter *)

Variable NmsOut : Type.
Variable multiclass_nms : NmsCall R → NmsOut.

Inductive Output :=
  | Filtered (boxes scores : T3 R)
  | Detections (dets_labels : NmsOut).

Definition yolov3_head__predict_by_feat (ctx : DeployCfg)
    (self : YOLOV3Head R) (pred_maps : list (T4 R)) (cfg : option (Cfg R))
    (rescale with_nms : bool) : result Output :=
  let* tail := yolov3_head__predict_by_feat_tail ctx self pred_maps cfg rescale with_nms in
  match tail with
  | ReturnPair boxes scores => Ok (Filtered boxes scores)
  | CallNms call => Ok (Detections (multiclass_nms call))
  end.
End Generic.
Arguments Output : clear implicits.
Arguments Filtered {R NmsOut} boxes scores.
Arguments Detections {R NmsOut} dets_labels.

(** ** The fused path: [yolov3_head__predict_by_feat__ncnn] *)

Section Ncnn.
Context {R : Type} `{Scalar R}.

Variable DeployCfg : Type.
Variable get_post_processing_params : DeployCfg → PostParams R.
(** torch's default random generator: its state, and one draw from it. *)
Variable Gen : Type.
Variable rand : Gen → R * Gen.

(** Arguments of [Yolov3DetectionOutputOp.apply]. *)
Record OpCall := {
  op_inputs : list (T4 R);
  op_num_class : nat;
  op_num_box : nat;
  op_confidence_threshold : pyval R;
  op_nms_threshold : pyval R;
  op_biases : list Z;
  op_mask : list nat;
  op_anchors_scale : list Z
}.

(** [np.array(base_sizes).reshape(-1).tolist()]: levels of (w, h) pairs;
    np.array rejects levels of different lengths (ValueError, inhomogeneous
    shape). *)
Definition flatten_base_sizes (bs : list (list (Z * Z))) : result (list Z) :=
  match bs with
  | [] => Ok []
  | l0 :: _ =>
      if forallb (λ l, length l =? length l0) bs
      then Ok (concat ((λ l : list (Z * Z),
                          concat ((λ wh : Z * Z, [wh.1; wh.2]) <$> l)) <$> bs))
      else Err ValueError
  end.

Definition ncnn_op_call (ctx : DeployCfg) (self : YOLOV3Head R)
    (pred_maps : list (T4 R)) (with_nms : bool) (cfg : option (Cfg R))
    : result OpCall :=
  let num_levels_ := length pred_maps in
  let cfg := match cfg with None => test_cfg self | Some c => Some c end in
  let post_params := get_post_processing_params ctx in
  let* cfg := match cfg with Some c => Ok c | None => Err AttributeError end in
  let confidence_threshold_ :=
    cfg_get (cfg_top cfg) "conf_thr" (confidence_threshold post_params) in
  let* nms := match cfg_nms cfg with
              | Some m => Ok m
              | None => Err AttributeError
              end in
  let iou_threshold_ := cfg_get nms "iou_threshold" (iou_threshold post_params) in
  let* anchor_biases := flatten_base_sizes (base_sizes self) in
  let* level0 := index (base_sizes self) 0 in
  let num_box := length level0 in
  let bias_masks := seq 0 (num_levels_ * num_box) in
  Ok {| op_inputs := pred_maps;
        op_num_class := num_classes self;
        op_num_box := num_box;
        op_confidence_threshold := confidence_threshold_;
        op_nms_threshold := iou_threshold_;
        op_biases := anchor_biases;
        op_mask := bias_masks;
        op_anchors_scale := featmap_strides self |}.

(** [n] successive draws. *)
Fixpoint rand_list (n : nat) (g : Gen) : list R * Gen :=
  match n with
  | 0 => ([], g)
  | S n' =>
      let (x, g1) := rand g in
      let (xs, g2) := rand_list n' g1 in
      (x :: xs, g2)
  end.

(** [torch.rand(rows, cols)]. *)
Definition torch_rand (rows cols : nat) (g : Gen) : T2 R * Gen :=
  let (flat, g') := rand_list (rows * cols) g in
  (regroup rows cols flat, g').

(** [Yolov3DetectionOutputOp.forward]: the dummy output. *)
Definition Yolov3DetectionOutputOp_forward (call : OpCall) (g : Gen) : T2 R * Gen :=
  torch_rand 100 6 g.

Definition yolov3_head__predict_by_feat__ncnn (ctx : DeployCfg)
    (self : YOLOV3Head R) (pred_maps : list (T4 R)) (with_nms : bool)
    (cfg : option (Cfg R)) (g : Gen) : result (T2 R) * Gen :=
  match ncnn_op_call ctx self pred_maps with_nms cfg with
  | inl e => (Err e, g)
  | inr call =>
      let (output, g') := Yolov3DetectionOutputOp_forward call g in
      (Ok output, g')
  end.
End Ncnn.

(** ** The generic rewriter in a process with a random generator

    The collaborators of the generic rewriter are code of other modules, and
    a call to one of them may draw from torch's default random generator as
    [torch.rand] does.  Here every call takes the state of the generator and
    returns the state it leaves; the tensor operations of the rewriter
    itself are those of the sections above, and an exception leaves the
    generator where the last call left it. *)

Section GenericCalls.
Context {R : Type} `{Scalar R}.
Variable sigmoid : R → R.
Variable DeployCfg : Type.
Variable Gen : Type.
Variable NmsOut : Type.

(** A computation that may raise and may advance the generator. *)
Definition Call (A : Type) : Type := Gen → result A * Gen.

(** A step of the rewriter itself. *)
Definition call_pure {A} (m : result A) : Call A := λ g, (m, g).

(** A call to a collaborator. *)
Definition call_ext {A} (c : Gen → A * Gen) : Call A := λ g, (Ok (c g).1, (c g).2).

Definition call_bind {A B} (m : Call A) (k : A → Call B) : Call B :=
  λ g, match (m g).1 with
       | inl e => (inl e, (m g).2)
       | inr x => k x (m g).2
       end.

Notation "'do*' x ':=' m 'in' k" := (call_bind m (λ x, k))
  (at level 10, x name, m at level 100, k at level 200).

Fixpoint call_map {A B} (f : A → Call B) (l : list A) : Call (list B) :=
  match l with
  | [] => call_pure (Ok [])
  | x :: l' =>
      do* y := f x in do* ys := call_map f l' in call_pure (Ok (y :: ys))
  end.

(** Collaborators. *)
Variable get_post_processing_params : DeployCfg → Gen → PostParams R * Gen.
Variable is_dynamic_shape : DeployCfg → Gen → bool * Gen.
Variable grid_anchors :
  YOLOV3Head R → list (nat * nat) → Gen → list (T2 R) * Gen.
Variable bbox_decode : T3 R → T3 R → Z → Gen → T3 R * Gen.
Variable multiclass_nms : NmsCall R → Gen → NmsOut * Gen.

(** Lines 79-109: the body of the loop over levels. *)
Definition decode_level_calls (self : YOLOV3Head R) (is_dynamic_flag : bool)
    (batch_size : nat) (multi_lvl_anchors : list (T2 R))
    (pred_maps_list : list (T4 R)) (i : nat)
    : Call (T3 R * T3 R * T2 R) :=
  do* pred_map := call_pure (index pred_maps_list i) in
  do* stride := call_pure (index (featmap_strides self) i) in
  do* pred_map :=
    call_pure (reshape3 batch_size (num_attrib self)
                 (flatten4 (permute_0231 pred_map))) in
  let pred_map_conf := (λ item : T2 R, (λ r, sigmoid <$> take 2 r) <$> item) <$> pred_map in
  let pred_map_rest := (λ item : T2 R, drop 2 <$> item) <$> pred_map in
  let pred_map := zip_with (zip_with app) pred_map_conf pred_map_rest in
  let pred_map_boxes := (λ item : T2 R, take 4 <$> item) <$> pred_map in
  do* multi_lvl_anchor := call_pure (index multi_lvl_anchors i) in
  let multi_lvl_anchor :=
    if negb is_dynamic_flag then multi_lvl_anchor (* .data *) else multi_lvl_anchor in
  do* bbox_pred := call_ext (bbox_decode [multi_lvl_anchor] pred_map_boxes stride) in
  if num_attrib self <=? 4 then call_pure (Err IndexError) else
  let conf_pred :=
    (λ item : T2 R, (λ r : list R, sigmoid (default zero (r !! 4))) <$> item) <$> pred_map in
  do* cls_pred :=
    call_pure (reshape3 batch_size (num_classes self)
                 (flatten3 ((λ item : T2 R, (λ r, sigmoid <$> drop 5 r) <$> item)
                              <$> pred_map))) in
  call_pure (Ok (bbox_pred, cls_pred, conf_pred)).

(** Lines 51-178: the rewriter. *)
Definition yolov3_head__predict_by_feat_calls (ctx : DeployCfg)
    (self : YOLOV3Head R) (pred_maps : list (T4 R)) (cfg : option (Cfg R))
    (rescale with_nms : bool) : Call (Output R NmsOut) :=
  let deploy_cfg := ctx in
  do* is_dynamic_flag := call_ext (is_dynamic_shape ctx) in
  let num_levels_ := length pred_maps in
  let pred_maps_list := take num_levels_ pred_maps in
  let cfg := match cfg with None => test_cfg self | Some c => Some c end in
  if negb (length pred_maps_list =? num_levels self)
  then call_pure (Err LevelCountAssertion)
  else
  do* first := call_pure (index pred_maps_list 0) in
  let batch_size := length first in
  let featmap_sizes := featmap_size <$> take (num_levels self) pred_maps_list in
  do* multi_lvl_anchors := call_ext (grid_anchors self featmap_sizes) in
  do* cfg := call_pure (match cfg with Some c => Ok c | None => Err AttributeError end) in
  let pre_topk := cfg_get (cfg_top cfg) "nms_pre" (PInt (-1)) in
  do* levels :=
    call_map (decode_level_calls self is_dynamic_flag batch_size multi_lvl_anchors
                pred_maps_list)
             (seq 0 (num_levels self)) in
  let multi_lvl_bboxes := (λ l : T3 R * T3 R * T2 R, l.1.1) <$> levels in
  let multi_lvl_cls_scores := (λ l : T3 R * T3 R * T2 R, l.1.2) <$> levels in
  let multi_lvl_conf_scores := (λ l : T3 R * T3 R * T2 R, l.2) <$> levels in
  do* batch_mlvl_bboxes := call_pure (cat_dim1 multi_lvl_bboxes) in
  do* batch_mlvl_scores := call_pure (cat_dim1 multi_lvl_cls_scores) in
  do* batch_mlvl_conf_scores := call_pure (cat_dim1 multi_lvl_conf_scores) in
  do* post_params := call_ext (get_post_processing_params deploy_cfg) in
  do* tail :=
    call_pure (post_process post_params self cfg batch_size pre_topk
                 batch_mlvl_bboxes batch_mlvl_scores batch_mlvl_conf_scores
                 with_nms) in
  match tail with
  | ReturnPair boxes scores => call_pure (Ok (Filtered boxes scores))
  | CallNms call =>
      do* dets_labels := call_ext (multiclass_nms call) in
      call_pure (Ok (Detections dets_labels))
  end.
End GenericCalls.

(** ** [Yolov3DetectionOutputOp.symbolic]: the node written at export

    [apply] is called with the prediction maps followed by seven parameters;
    at export [symbolic] receives the same arguments and splits them again. *)

Section Symbolic.
Context {R : Type}.

(** A positional argument: a feature map, a number, or a list of numbers. *)
Inductive Arg :=
  | ATensor (t : T4 R)
  | ANum (v : pyval R)
  | AList (l : list (pyval R)).

(** What [symbolic] can raise: its own assertion, or an ordinary exception. *)
Inductive export_error :=
  | ArgCountAssertion          (* assert len(args) == (len(anchors_scale) + 7) *)
  | Raised (e : error).

(** The node [g.op('mmdeploy::Yolov3DetectionOutput', *inputs, ...)]. *)
Record OnnxNode := {
  node_kind : string;
  node_inputs : list Arg;
  num_class_i : Arg;
  num_box_i : Arg;
  confidence_threshold_f : Arg;
  nms_threshold_f : Arg;
  biases_f : Arg;
  mask_f : Arg;
  anchors_scale_f : Arg;
  node_outputs : nat
}.

(** [args[-i]] for [i >= 1]. *)
Definition neg_index (args : list Arg) (i : nat) : export_error + Arg :=
  if i <=? length args then
    match args !! (length args - i) with
    | Some a => inr a
    | None => inl (Raised IndexError)
    end
  else inl (Raised IndexError).

(** [len(x)]. *)
Definition py_len (x : Arg) : export_error + nat :=
  match x with
  | ATensor t => inr (length t)
  | ANum _ => inl (Raised TypeError)
  | AList l => inr (length l)
  end.

Definition ebind {A B} (m : export_error + A) (f : A → export_error + B)
    : export_error + B :=
  match m with
  | inl e => inl e
  | inr x => f x
  end.

Definition symbolic (args : list Arg) : export_error + OnnxNode :=
  ebind (neg_index args 1) (λ anchors_scale,
  ebind (py_len anchors_scale) (λ n,
  let inputs := take n args in
  if negb (length args =? n + 7) then inl ArgCountAssertion else
  ebind (neg_index args 7) (λ a7,
  ebind (neg_index args 6) (λ a6,
  ebind (neg_index args 5) (λ a5,
  ebind (neg_index args 4) (λ a4,
  ebind (neg_index args 3) (λ a3,
  ebind (neg_index args 2) (λ a2,
  inr {| node_kind := "mmdeploy::Yolov3DetectionOutput";
         node_inputs := inputs;
         num_class_i := a7;
         num_box_i := a6;
         confidence_threshold_f := a5;
         nms_threshold_f := a4;
         biases_f := a3;
         mask_f := a2;
         anchors_scale_f := anchors_scale;
         node_outputs := 1 |})))))))).

Definition int_arg (n : nat) : Arg := ANum (PInt (Z.of_nat n)).
Definition ints_arg (l : list Z) : Arg := AList (PInt <$> l).

(** The positional arguments of
    [Yolov3DetectionOutputOp.apply( *pred_maps, self.num_classes, num_box,
    confidence_threshold, iou_threshold, anchor_biases, bias_masks,
    self.featmap_strides)]. *)
Definition apply_args (call : OpCall (R := R)) : list Arg :=
  (ATensor <$> op_inputs call) ++
  [ int_arg (op_num_class call);
    int_arg (op_num_box call);
    ANum (op_confidence_threshold call);
    ANum (op_nms_threshold call);
    ints_arg (op_biases call);
    ints_arg (Z.of_nat <$> op_mask call);
    ints_arg (op_anchors_scale call) ].
End Symbolic.
Arguments Arg : clear implicits.
Arguments OnnxNode : clear implicits.


(** * Vocabulary of the properties *)

(** ** Reading tensors *)

Definition at2 {A} (t : list (list A)) (b n : nat) : option A :=
  t !! b ≫= (.!! n).

Definition at3 {A} (t : list (list (list A))) (b n c : nat) : option A :=
  at2 t b n ≫= (.!! c).

(** The sizes of a tensor below its batch dimension. *)
Definition dims2 {A} (t : list (list A)) : list nat := length <$> t.
Definition dims3 {A} (t : list (list (list A))) : list (list nat) :=
  dims2 <$> t.

(** The row left by masking: zeros of the same length, or the row itself. *)
Definition masked_row {R} `{Scalar R} (below : bool) (row : list R) : list R :=
  if below then replicate (length row) zero else row.

(** [x] and [y] are comparable when exactly one of [x <= y] and [y < x]
    holds, as for any two floats of which none is NaN. *)
Definition comparable {R} `{Scalar R} (x y : R) : Prop :=
  leb x y = negb (ltb y x).

(** ** The level-count assertion *)

Definition asserts {A} (m : result A) : Prop := m = Err LevelCountAssertion.

(** ** Configuration keys and updates *)







(** ** Invocations and the random generator *)



(** ** The selection read from the spec

    Top-k selection with direct indexing: each batch item on its own takes
    its top-k flat (anchor x class) indices, splits each by the class count
    and keeps the candidate at that anchor of the same item. *)

Section Direct.
Context {R : Type} `{Scalar R}.

Definition select_direct (self : YOLOV3Head R) (k : nat)
    (boxes scores : T3 R) (conf : T2 R) : result (T3 R * T3 R * T2 R) :=
  let* items :=
    rmap (λ b,
            let* item_boxes := index boxes b in
            let* item_scores := index scores b in
            let* item_conf := index conf b in
            let* flat_inds := topk k (concat item_scores) in
            let anchors := (λ i, i / num_classes self) <$> flat_inds in
            let* bs := rmap (index item_boxes) anchors in
            let* ss := rmap (index item_scores) anchors in
            let* cs := rmap (index item_conf) anchors in
            Ok (bs, ss, cs))
         (seq 0 (length scores)) in
  Ok ((λ it : T2 R * T2 R * list R, it.1.1) <$> items,
      (λ it : T2 R * T2 R * list R, it.1.2) <$> items,
      (λ it : T2 R * T2 R * list R, it.2) <$> items).
End Direct.

(** ** Shapes, rows and candidates *)

(** Every item of [t] has [n] entries. *)
Definition uniform {A} (n : nat) (t : list (list A)) : Prop :=
  Forall (λ item, length item = n) t.

(** Entry [(b, c, y, x)] of a prediction map. *)
Definition at4 {A} (t : list (list (list (list A)))) (b c y x : nat) : option A :=
  at2 t b c ≫= λ plane, at2 plane y x.

(** The candidates of one level: one per cell and anchor. *)
Definition level_candidates {R} `{Scalar R} (num_anchors : nat) (pred_map : T4 R) : nat :=
  (featmap_size pred_map).1 * (featmap_size pred_map).2 * num_anchors.

Section DecodedRow.
Context {R : Type} `{Scalar R}.
Variable sigmoid : R → R.

(** The box attributes handed to the coder, the objectness and the class
    scores read from one row of the reshaped map. *)
Definition box_attributes (r : list R) : list R :=
  (sigmoid <$> take 2 r) ++ take 2 (drop 2 r).
Definition objectness (r : list R) : R := sigmoid (default zero (r !! 4)).
Definition class_scores (r : list R) : list R := sigmoid <$> drop 5 r.
End DecodedRow.

(** The configuration a run works with: the per-call one, else the head's. *)
Definition resolved_cfg {R} (self : YOLOV3Head R) (cfg : option (Cfg R))
    : option (Cfg R) :=
  match cfg with None => test_cfg self | Some c => Some c end.

(** What the pipeline does last, seen as the candidates it returns or hands
    to multiclass_nms. *)
Definition tail_boxes {R} (t : Tail R) : T3 R :=
  match t with ReturnPair boxes _ => boxes | CallNms call => nms_boxes call end.
Definition tail_scores {R} (t : Tail R) : T3 R :=
  match t with ReturnPair _ scores => scores | CallNms call => nms_scores call end.

Section Masks.
Context {R : Type} `{Scalar R}.

(** A candidate is masked by the confidence stage when the threshold is
    positive and its objectness is not at or above it: strictly below it,
    or NaN. *)
Definition conf_masked (thr : pyval R) (obj : R) : bool :=
  py_gt0 thr && negb (leb (to_scalar thr) obj).

(** A score is masked by the score stage when the threshold is positive and
    the score is not strictly above it: at or below it, or NaN. *)
Definition score_masked (thr : pyval R) (score : R) : bool :=
  py_gt0 thr && negb (ltb (to_scalar thr) score).

(** The fused score of one class of one candidate, from its objectness and
    its class score. *)
Definition final_score (conf_thr score_thr : pyval R) (obj score : R) : R :=
  let score1 := if conf_masked conf_thr obj then zero else score in
  let score2 := if score_masked score_thr score1 then zero else score1 in
  let obj1 := if conf_masked conf_thr obj then zero else obj in
  mul score2 obj1.
End Masks.

(** ** Exceptions raised *)

Definition raises {A} (e : error) (m : result A) : Prop := m = Err e.


(** * A concrete instance, to run the definitions

    Rationals stand for the floats; fractions are not reduced, so a product
    shows as the product of the numerators over that of the denominators. *)

Module Run.
#[export] Instance Q_scalar : Scalar Q := {|
  zero := 0%Q;
  of_int := inject_Z;
  ltb := λ x y, negb (Qle_bool y x);
  leb := Qle_bool;
  mul := Qmult
|}.

Definition q (n : Z) (d : positive) : Q := Qmake n d.

(** Floats with NaN: a rational, or NaN, which compares false with every
    entry and absorbs products. *)
Inductive fnum :=
  | Fin (x : Q)
  | NaN.

#[export] Instance fnum_scalar : Scalar fnum := {|
  zero := Fin 0%Q;
  of_int := λ z, Fin (inject_Z z);
  ltb := λ x y,
    match x, y with Fin a, Fin b => negb (Qle_bool b a) | _, _ => false end;
  leb := λ x y,
    match x, y with Fin a, Fin b => Qle_bool a b | _, _ => false end;
  mul := λ x y,
    match x, y with Fin a, Fin b => Fin (a * b)%Q | _, _ => NaN end
|}.

(** Stand-ins for the collaborators. *)

(** A rational squashing function with values in (0, 1), in place of the
    logistic sigmoid. *)
Definition squash (x : Q) : Q := ((1 + x / (1 + Qabs x)) / 2)%Q.

(** One anchor per cell of each level. *)
Definition one_anchor_per_cell (self : YOLOV3Head Q) (sizes : list (nat * nat))
    : list (T2 Q) :=
  (λ hw : nat * nat, replicate (hw.1 * hw.2) [q 0 1; q 0 1; q 32 1; q 32 1]) <$> sizes.

(** A coder that returns the raw box predictions. *)
Definition raw_boxes (anchors pred : T3 Q) (stride : Z) : T3 Q := pred.

(** A linear congruential generator with values in [0, 1). *)
Definition lcg (g : Z) : Q * Z :=
  let g' := ((g * 1103515245 + 12345) mod 2147483648)%Z in
  (Qmake g' 2147483648, g').

(** Deployment-wide defaults. *)
Definition post : PostParams Q :=
  {| score_threshold := PFloat (q 5 100);
     confidence_threshold := PFloat (q 5 1000);
     iou_threshold := PFloat (q 5 10);
     max_output_boxes_per_class := PInt 200;
     pre_top_k := PInt 5000;
     keep_top_k := PInt 100 |}.

Definition get_post (ctx : unit) : PostParams Q := post.
Definition static_shape (ctx : unit) : bool := false.

(** Per-call configurations. *)
Definition cfg_nms_pre (k : Z) : Cfg Q :=
  {| cfg_top := {[ "nms_pre" := PInt k ]};
     cfg_nms := Some {[ "iou_threshold" := PFloat (q 45 100) ]} |}.

Definition cfg_plain : Cfg Q :=
  {| cfg_top := {[ "conf_thr" := PFloat (q 5 1000); "max_per_img" := PInt 50 ]};
     cfg_nms := Some {[ "iou_threshold" := PFloat (q 45 100) ]} |}.

(** Heads. *)
Definition head (classes : nat) : YOLOV3Head Q :=
  {| num_levels := 1;
     num_classes := classes;
     num_attrib := 5 + classes;
     featmap_strides := [32%Z];
     base_sizes := [[(116, 90)%Z]];
     test_cfg := Some cfg_plain |}.

Definition head3 : YOLOV3Head Q :=
  {| num_levels := 3;
     num_classes := 80;
     num_attrib := 85;
     featmap_strides := [32; 16; 8]%Z;
     base_sizes := [ [(116, 90); (156, 198); (373, 326)];
                     [(30, 61); (62, 45); (59, 119)];
                     [(10, 13); (16, 30); (33, 23)] ]%Z;
     test_cfg := Some cfg_plain |}.

(** Decoded candidates. *)
Definition b00 : list Q := [q 0 1; q 0 1; q 10 1; q 10 1].
Definition b01 : list Q := [q 20 1; q 20 1; q 30 1; q 30 1].
Definition b10 : list Q := [q 40 1; q 40 1; q 50 1; q 50 1].
Definition b11 : list Q := [q 60 1; q 60 1; q 70 1; q 70 1].

Definition sized_box (k : Z) : list Q := [q 1 2; q 1 2; q k 1; q k 1].

(** Two images, two anchors each, one class. *)
Definition boxes2 : T3 Q := [[b00; b01]; [b10; b11]].
Definition scores2 : T3 Q := [[[q 2 10]; [q 9 10]]; [[q 8 10]; [q 3 10]]].
Definition conf2 : T2 Q := [[q 1 2; q 1 2]; [q 1 2; q 1 2]].

(** One image, one anchor, three classes. *)
Definition boxes1 : T3 Q := [[b00]].
Definition scores1 : T3 Q := [[[q 1 10; q 2 10; q 9 10]]].
Definition conf1 : T2 Q := [[q 1 2]].

(** One image, two anchors, two classes. *)
Definition boxes12 : T3 Q := [[b00; b01]].
Definition scores12 : T3 Q := [[[q 9 10; q 1 10]; [q 2 10; q 8 10]]].
Definition conf12 : T2 Q := [[q 3 10; q 7 10]].

(** Three levels, one image, 255 channels (3 anchors of 85 attributes),
    maps of 1 x 1, 2 x 2 and 4 x 4 cells. *)
Definition zero_map (h w : nat) : T4 Q :=
  [ replicate 255 (replicate h (replicate w 0%Q)) ].
Definition pred_maps3 : list (T4 Q) := [zero_map 1 1; zero_map 2 2; zero_map 4 4].

(** One level, two images, a 1 x 2 map with 6 channels (one anchor per
    cell, one class): channels tx, ty, tw, th, objectness, class. *)
Definition pred_maps_two_images : list (T4 Q) :=
  [ [ [ [[q 0 1; q 0 1]]; [[q 0 1; q 0 1]]; [[q 1 1; q 2 1]]; [[q 1 1; q 2 1]];
        [[q 0 1; q 0 1]]; [[q (-1) 1; q 2 1]] ];
      [ [[q 0 1; q 0 1]]; [[q 0 1; q 0 1]]; [[q 3 1; q 4 1]]; [[q 3 1; q 4 1]];
        [[q 0 1; q 0 1]]; [[q 1 1; q (-1) 1]] ] ] ].

(** One level, one image, a 1 x 1 map with 8 channels (one anchor, three
    classes). *)
Definition pred_maps_three_classes : list (T4 Q) :=
  [ [ [ [[q 0 1]]; [[q 0 1]]; [[q 1 1]]; [[q 1 1]]; [[q 0 1]];
        [[q (-2) 1]]; [[q (-1) 1]]; [[q 2 1]] ] ] ].

(** One level, one image, a 1 x 1 map with 6 channels (one anchor, one
    class). *)
Definition pred_maps1 : list (T4 Q) :=
  [ [ [ [[q 1 1]]; [[q (-1) 1]]; [[q 2 1]]; [[q 3 1]]; [[q 4 1]]; [[q 1 2]] ] ] ].

(** A head without a configuration of its own. *)
Definition head_unconfigured : YOLOV3Head Q :=
  {| num_levels := 1;
     num_classes := 1;
     num_attrib := 6;
     featmap_strides := [32%Z];
     base_sizes := [[(116, 90)%Z]];
     test_cfg := None |}.
End Run.

(** * Properties *)

(** ** Lists of rows *)

Lemma at2_zip_with {A B C} (f : A → B → C) (t : list (list A)) (u : list (list B)) b n :
  at2 (zip_with (zip_with f) t u) b n
  = at2 t b n ≫= λ x, at2 u b n ≫= λ y, Some (f x y).
Proof.
  unfold at2. rewrite lookup_zip_with.
  destruct (t !! b) as [tb|]; simpl; [|done].
  destruct (u !! b) as [ub|]; simpl.
  - rewrite lookup_zip_with. done.
  - by destruct (tb !! n).
Qed.

Lemma at2_fmap {A B} (f : A → B) (t : list (list A)) b n :
  at2 ((λ item : list A, f <$> item) <$> t) b n = f <$> at2 t b n.
Proof.
  unfold at2. rewrite list_lookup_fmap.
  destruct (t !! b) as [tb|]; simpl; [|done].
  by rewrite list_lookup_fmap.
Qed.

Lemma dims2_fmap {A B} (f : A → B) (t : list (list A)) :
  dims2 ((λ item : list A, f <$> item) <$> t) = dims2 t.
Proof.
  unfold dims2. rewrite <- list_fmap_compose. apply list_fmap_ext.
  intros _ l _. simpl. by rewrite length_fmap.
Qed.

Lemma regroup_length {A} n k (l : list A) : length (regroup n k l) = n.
Proof. unfold regroup. by rewrite length_fmap, length_seq. Qed.

Lemma regroup_rows {A} n k (l : list A) :
  n * k ≤ length l → Forall (λ row, length row = k) (regroup n k l).
Proof.
  intros Hl. unfold regroup. apply Forall_fmap, Forall_forall.
  intros i Hi. apply elem_of_seq in Hi. simpl.
  rewrite length_take, length_drop. nia.
Qed.

(** The linear offset [n * b + a] addresses row [a] of batch item [b] of the
    flattened tensor, when every item has [n] rows. *)
Lemma linear_offset_lookup {A} (t : list (list A)) (n b a : nat) :
  Forall (λ item, length item = n) t → a < n →
  concat t !! (n * b + a) = t !! b ≫= (.!! a).
Proof.
  intros Hn Ha. revert b. induction Hn as [|item t Hitem _ IH]; intros b; simpl.
  - by rewrite !lookup_nil.
  - destruct b as [|b]; simpl.
    + rewrite Nat.mul_0_r, lookup_app_l by lia. done.
    + rewrite lookup_app_r by lia.
      replace (n * S b + a - length item) with (n * b + a) by lia. apply IH.
Qed.

(** ** Top-k indices, padding and offsets *)

Section TopKProps.
Context {R : Type} `{Scalar R}.

Lemma insert_desc_perm (x : nat * R) (l : list (nat * R)) :
insert_desc x l ≡ₚ x :: l.
Proof.
induction l as [|y l IH]; simpl; [done|].
destruct (ltb x.2 y.2); [|done].
rewrite IH. apply Permutation_swap.
Qed.

Lemma sort_desc_perm (l : list (nat * R)) : sort_desc l ≡ₚ l.
Proof.
induction l as [|x l IH]; simpl; [done|].
by rewrite insert_desc_perm, IH.
Qed.

Lemma fst_imap_pair (xs : list R) : (imap pair xs).*1 = seq 0 (length xs).
Proof.
apply list_eq. intros i. rewrite list_lookup_fmap, list_lookup_imap.
destruct (xs !! i) as [x|] eqn:Hx; simpl.
- symmetry. apply lookup_seq. split; [done|]. by eapply lookup_lt_Some.
- symmetry. apply lookup_seq_ge. by apply lookup_ge_None.
Qed.

(** [topk k xs] returns [k] distinct positions of [xs]. *)
Lemma topk_indices (k : nat) (xs : list R) (inds : list nat) :
topk k xs = Ok inds →
length inds = k ∧ NoDup inds ∧ Forall (λ i, i < length xs) inds.
Proof.
unfold topk, Ok. destruct (k <=? length xs) eqn:Hk; [|done].
apply Nat.leb_le in Hk. intros [= <-].
assert ((sort_desc (imap pair xs)).*1 ≡ₚ seq 0 (length xs)) as Hperm.
{ by rewrite sort_desc_perm, fst_imap_pair. }
split; [|split].
- rewrite length_take, Hperm, length_seq. lia.
- eapply sublist_NoDup; [|apply sublist_take]. rewrite Hperm. apply NoDup_seq.
- apply Forall_take. rewrite Hperm. apply Forall_forall.
  intros i Hi. apply elem_of_seq in Hi. lia.
Qed.

Lemma pad_with_value_if_necessary_length {A} (x : list (list A)) (k : nat) (fill : A) :
Forall (λ item, k ≤ length item) (pad_with_value_if_necessary x k fill) ∧
∀ b item, x !! b = Some item →
  pad_with_value_if_necessary x k fill !! b
  = Some (item ++ replicate (k - length item) fill).
Proof.
unfold pad_with_value_if_necessary. split.
- apply Forall_fmap, Forall_forall. intros item _. simpl.
  rewrite length_app, length_replicate. lia.
- intros b item Hb. by rewrite list_lookup_fmap, Hb.
Qed.

(** The offset of an anchor index stays inside the rows of its batch item;
  the offset of a class index does so only if the class index is below the
  number of rows of an item. *)
Lemma anchor_offset_in_bounds (rows classes batch b flat : nat) :
b < batch → flat < rows * classes →
rows * b + flat / classes < rows * batch ∧
rows * b ≤ rows * b + flat / classes < rows * S b.
Proof.
intros Hb Hflat. assert (classes ≠ 0) as Hc by (intros ->; lia).
assert (flat / classes < rows) as Hlt.
{ apply Nat.Div0.div_lt_upper_bound. lia. }
nia.
Qed.
End TopKProps.

(** ** Errors other than the level-count assertion *)

Lemma rbind_asserts {A B} (m : result A) (f : A → result B) :
  ¬ asserts m → (∀ x, ¬ asserts (f x)) → ¬ asserts (rbind m f).
Proof.
  unfold asserts, Err. destruct m as [e|x]; simpl; [|auto].
  intros He _ Hb. apply He. by simplify_eq.
Qed.

Lemma rmap_asserts {A B} (f : A → result B) (l : list A) :
  (∀ x, ¬ asserts (f x)) → ¬ asserts (rmap f l).
Proof.
  intros Hf. induction l as [|x l IH]; simpl; [done|].
  apply rbind_asserts; [done|]. intros y. apply rbind_asserts; [done|]. done.
Qed.

Lemma index_asserts {A} (l : list A) i : ¬ asserts (index l i).
Proof. unfold index. by destruct (l !! i). Qed.

Lemma reshape_rows_asserts {A} w (l : list A) : ¬ asserts (reshape_rows w l).
Proof. unfold reshape_rows. by repeat case_match. Qed.

Lemma reshape3_asserts {A} b w (l : list A) : ¬ asserts (reshape3 b w l).
Proof. unfold reshape3. by repeat case_match. Qed.

Lemma regroup_batch_asserts {A} b (l : list A) : ¬ asserts (regroup_batch b l).
Proof. unfold regroup_batch. by repeat case_match. Qed.

Lemma cat_dim1_asserts {A} (ts : list (list (list A))) : ¬ asserts (cat_dim1 ts).
Proof. unfold cat_dim1. by repeat case_match. Qed.

Create HintDb asserts.
#[export] Hint Resolve index_asserts reshape_rows_asserts reshape3_asserts
  regroup_batch_asserts cat_dim1_asserts : asserts.

Ltac no_assert :=
  repeat first
    [ solve [eauto with asserts]
    | done
    | apply rbind_asserts; [| intros ?]
    | apply rmap_asserts; intros ? ].

(** ** The two masking stages *)

Section Thresholds.
Context {R : Type} `{Scalar R}.

Lemma fmap_const_zero (m : bool) (row : list R) :
  (λ v, if m then v else zero) <$> row = masked_row (negb m) row.
Proof.
  destruct m; simpl.
  - apply list_fmap_id.
  - induction row; simpl; by f_equal.
Qed.

Lemma masked_row_length below (row : list R) :
  length (masked_row below row) = length row.
Proof. destruct below; simpl; [apply length_replicate | done]. Qed.

(** The masked tensors, entry by entry. *)
Lemma conf_mask_eq (f : R → bool) (conf : T2 R) :
  zip_with where_ ((λ item : list R, f <$> item) <$> conf) conf
  = (λ item : list R, (λ c, if f c then c else zero) <$> item) <$> conf.
Proof.
  rewrite zip_with_fmap_l, zip_with_diag. apply list_fmap_ext.
  intros _ item _. unfold where_. by rewrite zip_with_fmap_l, zip_with_diag.
Qed.

Lemma rows_mask_eq (f : R → bool) (conf : T2 R) (x : T3 R) :
  zip_with where_rows ((λ item : list R, f <$> item) <$> conf) x
  = zip_with (zip_with (λ c row, masked_row (negb (f c)) row)) conf x.
Proof.
  rewrite zip_with_fmap_l. apply zip_with_ext; [|done..].
  intros item rows. unfold where_rows. rewrite zip_with_fmap_l.
  apply zip_with_ext; [|done..]. intros c row. apply fmap_const_zero.
Qed.

Lemma dims3_rows_mask (g : R → bool) (conf : T2 R) (x : T3 R) :
  dims2 x = dims2 conf →
  dims3 (zip_with (zip_with (λ c row, masked_row (g c) row)) conf x) = dims3 x.
Proof.
  unfold dims2, dims3. revert x.
  induction conf as [|cb conf IH]; intros [|xb x] Hd; simplify_eq/=; [done|].
  f_equal; [|by apply IH].
  clear IH. revert xb H0. induction cb as [|c cb IH]; intros [|row xb] Hl;
    simplify_eq/=; [done|].
  f_equal; [apply masked_row_length | by apply IH].
Qed.

Lemma score_mask_eq (f : R → bool) (scores : T3 R) :
  zip_with (zip_with where_)
    ((λ item : T2 R, (λ r : list R, f <$> r) <$> item) <$> scores) scores
  = (λ item : T2 R, (λ r : list R, (λ s, if f s then s else zero) <$> r) <$> item)
      <$> scores.
Proof.
  rewrite zip_with_fmap_l, zip_with_diag. apply list_fmap_ext.
  intros _ item _. apply conf_mask_eq.
Qed.

(** C3 (as amended). Confidence thresholding (lines 121-128), for
    objectness, scores and boxes with the same batch and anchor dimensions.
    With a positive threshold, the candidates whose objectness is not at or
    above it get objectness zero, a score row of zeros and a box of zeros;
    every other candidate is unchanged, and the three tensors keep their
    shapes.  For an objectness comparable with the threshold, not at or
    above is strictly below; a NaN objectness is zeroed as well.  With a
    threshold that is not positive, the three tensors are returned as they
    are. *)
Theorem conf_threshold_stage_spec (thr : pyval R) (boxes scores : T3 R)
    (conf : T2 R) (boxes' scores' : T3 R) (conf' : T2 R) :
  dims2 scores = dims2 conf →
  dims2 boxes = dims2 conf →
  conf_threshold_stage thr boxes scores conf = (boxes', scores', conf') →
  (py_gt0 thr = true →
     dims2 conf' = dims2 conf ∧ dims3 scores' = dims3 scores ∧
     dims3 boxes' = dims3 boxes ∧
     ∀ b n c, at2 conf b n = Some c →
       let zeroed := negb (leb (to_scalar thr) c) in
       at2 conf' b n = Some (if zeroed then zero else c) ∧
       at2 scores' b n = masked_row zeroed <$> at2 scores b n ∧
       at2 boxes' b n = masked_row zeroed <$> at2 boxes b n ∧
       (comparable (to_scalar thr) c → zeroed = ltb c (to_scalar thr)))
  ∧ (py_gt0 thr = false → boxes' = boxes ∧ scores' = scores ∧ conf' = conf).
Proof.
  intros Hs Hb Hrun. unfold conf_threshold_stage in Hrun. split; intros Hpos.
  - rewrite Hpos in Hrun.
    rewrite conf_mask_eq, !rows_mask_eq in Hrun. simplify_eq.
    split; [apply dims2_fmap|].
    split; [by apply dims3_rows_mask|].
    split; [by apply dims3_rows_mask|].
    intros b n c Hc. cbv zeta. rewrite at2_fmap, !at2_zip_with, Hc. simpl.
    split; [by destruct (leb (to_scalar thr) c)|].
    split; [by destruct (at2 scores b n)|].
    split; [by destruct (at2 boxes b n)|].
    unfold comparable. intros Hcmp. by rewrite Hcmp, negb_involutive.
  - rewrite Hpos in Hrun. by simplify_eq.
Qed.

(** C4 (as amended). Score thresholding (lines 130-133).  With a positive
    threshold, the per-class scores that are not strictly above it become
    zero, every other score is unchanged and the shape is kept.  For a score
    comparable with the threshold, not strictly above is at or below; a NaN
    score is zeroed as well.  With a threshold that is not positive, the
    scores are returned as they are. *)
Theorem score_threshold_stage_spec (thr : pyval R) (scores : T3 R) :
  (py_gt0 thr = true →
     dims3 (score_threshold_stage thr scores) = dims3 scores ∧
     ∀ b n c s, at3 scores b n c = Some s →
       let zeroed := negb (ltb (to_scalar thr) s) in
       at3 (score_threshold_stage thr scores) b n c
       = Some (if zeroed then zero else s) ∧
       (comparable s (to_scalar thr) → zeroed = leb s (to_scalar thr)))
  ∧ (py_gt0 thr = false → score_threshold_stage thr scores = scores).
Proof.
  unfold score_threshold_stage. split; intros Hpos; rewrite Hpos; [|done].
  rewrite score_mask_eq. split.
  - unfold dims3. rewrite <- list_fmap_compose. apply list_fmap_ext.
    intros _ item _. simpl. apply dims2_fmap.
  - intros b n c s Hs. cbv zeta. split.
    + revert Hs. unfold at3. rewrite at2_fmap.
      destruct (at2 scores b n) as [row|]; simpl; [|done].
      rewrite list_lookup_fmap. intros ->. simpl.
      by destruct (ltb (to_scalar thr) s).
    + unfold comparable. intros Hcmp. by rewrite Hcmp.
Qed.
End Thresholds.

(** ** Reading the configuration *)

Section Resolution.
Context {R : Type} `{Scalar R}.







Lemma topk_asserts k (xs : list R) : ¬ asserts (topk k xs).
Proof. unfold topk. by case_match. Qed.

Lemma as_size_asserts (v : pyval R) : ¬ asserts (as_size v).
Proof. by destruct v. Qed.

Lemma topk_stage_asserts self b k (boxes scores : T3 R) (conf : T2 R) :
  ¬ asserts (topk_stage self b k boxes scores conf).
Proof.
  unfold topk_stage, gather.
  pose proof topk_asserts. pose proof as_size_asserts. no_assert.
Qed.

Lemma post_process_asserts post self cfg b k (boxes scores : T3 R) (conf : T2 R) w :
  ¬ asserts (post_process post self cfg b k boxes scores conf w).
Proof.
  unfold post_process. pose proof topk_stage_asserts.
  apply rbind_asserts; [by case_match|]. intros sel.
  destruct w; [|done]. apply rbind_asserts; [by case_match | done].
Qed.

(** The last action of [post_process]. *)
Lemma post_process_tail post self cfg b k (boxes scores : T3 R) (conf : T2 R)
    with_nms t :
  post_process post self cfg b k boxes scores conf with_nms = Ok t →
  if with_nms
  then ∃ call, t = CallNms call ∧ nms_score_threshold call = PInt 0
  else ∃ boxes' scores', t = ReturnPair boxes' scores'.
Proof.
  unfold post_process.
  destruct (if py_gt0 k then _ else _) as [e|sel]; simpl; [done|].
  destruct with_nms.
  - destruct (cfg_nms cfg) as [nms|]; simpl; [|done].
    intros Ht. unfold Ok in Ht. simplify_eq. eauto.
  - intros Ht. unfold Ok in Ht. simplify_eq. eauto.
Qed.
End Resolution.


(** ** The generic pipeline *)

Section GenericProps.
Context {R : Type} `{Scalar R}.
Variable sigmoid : R → R.
Variable DeployCfg : Type.
Variable get_post_processing_params : DeployCfg → PostParams R.
Variable is_dynamic_shape : DeployCfg → bool.
Variable grid_anchors : YOLOV3Head R → list (nat * nat) → list (T2 R).
Variable bbox_decode : T3 R → T3 R → Z → T3 R.
Variable NmsOut : Type.
Variable multiclass_nms : NmsCall R → NmsOut.

Local Abbreviation predict_tail :=
  (yolov3_head__predict_by_feat_tail sigmoid DeployCfg get_post_processing_params
     is_dynamic_shape grid_anchors bbox_decode).
Local Abbreviation predict :=
  (yolov3_head__predict_by_feat sigmoid DeployCfg get_post_processing_params
     is_dynamic_shape grid_anchors bbox_decode NmsOut multiclass_nms).

Lemma decode_level_asserts self dyn b anchors maps i :
  ¬ asserts (decode_level sigmoid bbox_decode self dyn b anchors maps i).
Proof.
  unfold decode_level. no_assert. case_match; [done|]. no_assert.
Qed.

(** A successful run ends in [post_process]. *)
Lemma predict_tail_post_process ctx self pred_maps cfg rescale with_nms t :
  predict_tail ctx self pred_maps cfg rescale with_nms = Ok t →
  ∃ post self' cfg' b k boxes scores conf,
    post_process post self' cfg' b k boxes scores conf with_nms = Ok t.
Proof.
  unfold yolov3_head__predict_by_feat_tail.
  repeat (case_match; simpl; try done).
  all: try (unfold rbind; repeat (case_match; simpl; try done)).
  all: eauto 10.
Qed.


(** C6. A successful run with with_nms=True ends in a call to
    multiclass_nms whose score_threshold argument is 0, whatever the
    per-call config and the deployment defaults hold, and returns what
    that call returns.  A successful run with with_nms=False returns the
    filtered (boxes, scores) pair and makes no call. *)
Theorem nms_score_threshold_forced (ctx : DeployCfg) (self : YOLOV3Head R)
    (pred_maps : list (T4 R)) (cfg : option (Cfg R)) (rescale with_nms : bool)
    (out : Output R NmsOut) :
  predict ctx self pred_maps cfg rescale with_nms = Ok out →
  if with_nms
  then ∃ call,
         predict_tail ctx self pred_maps cfg rescale true = Ok (CallNms call) ∧
         out = Detections (multiclass_nms call) ∧
         nms_score_threshold call = PInt 0
  else ∃ boxes scores,
         predict_tail ctx self pred_maps cfg rescale false
           = Ok (ReturnPair boxes scores) ∧
         out = Filtered boxes scores.
Proof.
  unfold yolov3_head__predict_by_feat.
  destruct (predict_tail ctx self pred_maps cfg rescale with_nms) as [e|t] eqn:Ht;
    simpl; [done|].
  destruct (predict_tail_post_process _ _ _ _ _ _ _ Ht) as (?&?&?&?&?&?&?&?&Hpp).
  apply post_process_tail in Hpp. destruct with_nms.
  - destruct Hpp as (call & -> & Hz). intros Ho. unfold Ok in Ho. simplify_eq. eauto.
  - destruct Hpp as (b' & s' & ->). intros Ho. unfold Ok in Ho. simplify_eq. eauto.
Qed.

(** C7. The run stops on the level-count assertion exactly when the
    number of prediction maps differs from the number of levels of the
    head; no other step raises it. *)
Theorem level_count_assertion (ctx : DeployCfg) (self : YOLOV3Head R)
    (pred_maps : list (T4 R)) (cfg : option (Cfg R)) (rescale with_nms : bool) :
  predict ctx self pred_maps cfg rescale with_nms = Err LevelCountAssertion
  ↔ length pred_maps ≠ num_levels self.
Proof.
  unfold yolov3_head__predict_by_feat, yolov3_head__predict_by_feat_tail.
  rewrite firstn_all.
  destruct (length pred_maps =? num_levels self) eqn:Hlen; simpl.
  - apply Nat.eqb_eq in Hlen. split; [|done]. intros Hfail. exfalso. revert Hfail.
    pose proof decode_level_asserts. pose proof post_process_asserts.
    fold (asserts (A:=Output R NmsOut)). no_assert; by repeat case_match.
  - apply Nat.eqb_neq in Hlen. done.
Qed.

(** C10. The rescale argument has no effect on the result. *)
Theorem rescale_has_no_effect (ctx : DeployCfg) (self : YOLOV3Head R)
    (pred_maps : list (T4 R)) (cfg : option (Cfg R)) (with_nms : bool) :
  predict ctx self pred_maps cfg true with_nms
  = predict ctx self pred_maps cfg false with_nms.
Proof. reflexivity. Qed.
End GenericProps.

(** ** The fused path *)

Section NcnnProps.
Context {R : Type} `{Scalar R}.
Variable DeployCfg : Type.
Variable get_post_processing_params : DeployCfg → PostParams R.
Variable Gen : Type.
Variable rand : Gen → R * Gen.

Local Abbreviation predict_ncnn :=
  (yolov3_head__predict_by_feat__ncnn DeployCfg get_post_processing_params Gen rand).

Lemma flatten_base_sizes_length (bs : list (list (Z * Z))) (out : list Z) (nb : nat) :
  flatten_base_sizes bs = Ok out →
  Forall (λ l, length l = nb) bs →
  length out = length bs * nb * 2.
Proof.
  intros Hout Hnb. assert (out = concat ((λ l : list (Z * Z),
      concat ((λ wh : Z * Z, [wh.1; wh.2]) <$> l)) <$> bs)) as ->.
  { unfold flatten_base_sizes, Ok in Hout. destruct bs; [by simplify_eq|].
    case_match; by simplify_eq. }
  clear Hout. induction Hnb as [|l bs Hl _ IH]; [done|].
  rewrite fmap_cons. cbn [concat]. rewrite length_app, IH.
  assert (length (concat ((λ wh : Z * Z, [wh.1; wh.2]) <$> l)) = nb * 2) as ->.
  { subst nb. clear. induction l as [|wh l IHl]; [done|].
    rewrite fmap_cons. cbn [concat]. rewrite length_app, IHl. simpl. lia. }
  simpl. lia.
Qed.

Lemma flatten_base_sizes_regular (bs : list (list (Z * Z))) (out : list Z) l0 :
  flatten_base_sizes bs = Ok out → bs !! 0 = Some l0 →
  Forall (λ l, length l = length l0) bs.
Proof.
  unfold flatten_base_sizes. destruct bs as [|l bs]; [done|].
  intros Hout [= ->]. destruct (forallb _ _) eqn:Hall; [|done].
  apply Forall_forall. intros l Hl. apply list_elem_of_In in Hl.
  apply Nat.eqb_eq. revert l Hl. by apply forallb_forall.
Qed.

(** C8 (as amended). When the fused path builds its operator call, every
    level of the head's base sizes has the same number of boxes, the
    flattened anchor
    biases have length levels x boxes-per-level x 2 for the levels of the
    base sizes, and the mask is the range 0, 1, ... of length
    levels x boxes-per-level for the levels supplied as prediction maps.
    With one prediction map per level the two counts are the same number
    of levels: the biases have length levels x boxes-per-level x 2 and the
    mask is the range 0, 1, ..., levels x boxes-per-level - 1. *)
Theorem ncnn_parameter_marshalling (ctx : DeployCfg) (self : YOLOV3Head R)
    (pred_maps : list (T4 R)) (with_nms : bool) (cfg : option (Cfg R))
    (call : OpCall) :
  ncnn_op_call DeployCfg get_post_processing_params ctx self pred_maps with_nms cfg
    = Ok call →
  let boxes_per_level := op_num_box call in
  Forall (λ level, length level = boxes_per_level) (base_sizes self) ∧
  length (op_biases call) = length (base_sizes self) * boxes_per_level * 2 ∧
  op_mask call = seq 0 (length pred_maps * boxes_per_level) ∧
  (length pred_maps = length (base_sizes self) →
     let levels := length pred_maps in
     length (op_biases call) = levels * boxes_per_level * 2 ∧
     length (op_mask call) = levels * boxes_per_level ∧
     op_mask call = seq 0 (levels * boxes_per_level) ∧
     ∀ i, i < levels * boxes_per_level → op_mask call !! i = Some i).
Proof.
  unfold ncnn_op_call. intros Hcall.
  destruct (match cfg with Some c => Some c | None => test_cfg self end) as [c|];
    simpl in Hcall; [|done].
  destruct (cfg_nms c) as [nms|]; simpl in Hcall; [|done].
  destruct (flatten_base_sizes (base_sizes self)) as [e|biases] eqn:Hflat;
    simpl in Hcall; [done|].
  unfold index in Hcall.
  destruct (base_sizes self !! 0) as [level0|] eqn:H0; simpl in Hcall; [|done].
  unfold Ok in Hcall. simplify_eq. simpl.
  pose proof (flatten_base_sizes_regular _ _ _ Hflat H0) as Hreg.
  pose proof (flatten_base_sizes_length _ _ _ Hflat Hreg) as Hlen.
  split; [done|]. split; [done|]. split; [done|].
  intros Hlevels. rewrite Hlevels at 1. split; [done|].
  split; [by rewrite length_seq|]. split; [done|].
  intros i Hi. by apply lookup_seq.
Qed.



Section Determinism.
Variable sigmoid : R → R.
Variable NmsOut : Type.
Variable post_params_call : DeployCfg → Gen → PostParams R * Gen.
Variable dynamic_shape_call : DeployCfg → Gen → bool * Gen.
Variable grid_anchors_call :
  YOLOV3Head R → list (nat * nat) → Gen → list (T2 R) * Gen.
Variable bbox_decode_call : T3 R → T3 R → Z → Gen → T3 R * Gen.
Variable multiclass_nms_call : NmsCall R → Gen → NmsOut * Gen.

Local Abbreviation decode_calls :=
  (decode_level_calls sigmoid Gen bbox_decode_call).
Local Abbreviation predict_calls :=
  (yolov3_head__predict_by_feat_calls sigmoid DeployCfg Gen NmsOut
     post_params_call dynamic_shape_call grid_anchors_call bbox_decode_call
     multiclass_nms_call).








(** Among collaborators that are functions of their arguments, the rewriter
    is the function of the sections above. *)
Lemma predict_calls_agrees
    (get_post_processing_params' : DeployCfg → PostParams R)
    (is_dynamic_shape : DeployCfg → bool)
    (grid_anchors : YOLOV3Head R → list (nat * nat) → list (T2 R))
    (bbox_decode : T3 R → T3 R → Z → T3 R)
    (multiclass_nms : NmsCall R → NmsOut)
    ctx self pred_maps cfg rescale with_nms g0 :
  (∀ c g1, post_params_call c g1 = (get_post_processing_params' c, g1)) →
  (∀ c g1, dynamic_shape_call c g1 = (is_dynamic_shape c, g1)) →
  (∀ s sizes g1, grid_anchors_call s sizes g1 = (grid_anchors s sizes, g1)) →
  (∀ a p s g1, bbox_decode_call a p s g1 = (bbox_decode a p s, g1)) →
  (∀ call g1, multiclass_nms_call call g1 = (multiclass_nms call, g1)) →
  predict_calls ctx self pred_maps cfg rescale with_nms g0
  = (yolov3_head__predict_by_feat sigmoid DeployCfg get_post_processing_params'
       is_dynamic_shape grid_anchors bbox_decode NmsOut multiclass_nms
       ctx self pred_maps cfg rescale with_nms, g0).
Proof.
  intros Hpost Hdyn Hanchors Hdecode Hnms.
  assert (∀ A B (m : result A) (k : A → Call Gen B) g1,
            call_bind Gen (call_pure Gen m) k g1
            = match m with inl e => (inl e, g1) | inr x => k x g1 end) as Hpure.
  { intros A B m k g1. unfold call_bind, call_pure. simpl. by destruct m. }
  assert (∀ A B (c : Gen → A * Gen) (x : A) (k : A → Call Gen B) g1,
            c g1 = (x, g1) → call_bind Gen (call_ext Gen c) k g1 = k x g1) as Hext.
  { intros A B c x k g1 Hc. unfold call_bind, call_ext. by rewrite Hc. }
  assert (∀ dyn b anchors i g1,
            decode_calls self dyn b anchors (take (length pred_maps) pred_maps) i g1
            = (decode_level sigmoid bbox_decode self dyn b anchors
                 (take (length pred_maps) pred_maps) i, g1)) as Hlevel.
  { intros dyn b anchors i g1. unfold decode_level_calls, decode_level.
    rewrite Hpure. destruct (index _ i) as [?|pred_map]; [done|]. cbn [rbind].
    rewrite Hpure. destruct (index _ i) as [?|stride]; [done|]. cbn [rbind].
    rewrite Hpure. destruct (reshape3 _ _ _) as [?|rows]; [done|]. cbn [rbind].
    cbv zeta. rewrite Hpure. destruct (index anchors i) as [?|anchor]; [done|].
    cbn [rbind]. rewrite (Hext _ _ _ _ _ _ (Hdecode _ _ _ _)).
    destruct (num_attrib self <=? 4); [done|].
    rewrite Hpure. by destruct (reshape3 _ _ _). }
  assert (∀ dyn b anchors l g1,
            call_map Gen (decode_calls self dyn b anchors
                            (take (length pred_maps) pred_maps)) l g1
            = (rmap (decode_level sigmoid bbox_decode self dyn b anchors
                       (take (length pred_maps) pred_maps)) l, g1)) as Hmap.
  { intros dyn b anchors l. induction l as [|i l IH]; intros g1; [done|].
    cbn [call_map rmap]. unfold call_bind at 1. rewrite Hlevel. cbn [fst snd].
    destruct (decode_level _ _ _ _ _ _ _ i) as [?|y]; [done|]. cbn [rbind].
    unfold call_bind at 1. rewrite IH. cbn [fst snd].
    by destruct (rmap _ l). }
  unfold yolov3_head__predict_by_feat_calls, yolov3_head__predict_by_feat,
    yolov3_head__predict_by_feat_tail. cbv zeta.
  rewrite (Hext _ _ _ _ _ _ (Hdyn _ _)).
  destruct (length (take (length pred_maps) pred_maps) =? num_levels self);
    cbn [negb]; [|done].
  rewrite Hpure. destruct (index _ 0) as [?|first]; [done|]. cbn [rbind].
  rewrite (Hext _ _ _ _ _ _ (Hanchors _ _ _)).
  rewrite Hpure.
  destruct (match match cfg with Some c => Some c | None => test_cfg self end with
            | Some c => Ok c | None => Err AttributeError end) as [?|c]; [done|].
  cbn [rbind]. unfold call_bind at 1. rewrite Hmap. cbn [fst snd].
  destruct (rmap _ _) as [?|levels]; [done|]. cbn [rbind].
  rewrite Hpure. destruct (cat_dim1 _) as [?|boxes]; [done|]. cbn [rbind].
  rewrite Hpure. destruct (cat_dim1 _) as [?|scores]; [done|]. cbn [rbind].
  rewrite Hpure. destruct (cat_dim1 _) as [?|conf]; [done|]. cbn [rbind].
  rewrite (Hext _ _ _ _ _ _ (Hpost _ _)).
  rewrite Hpure. destruct (post_process _ _ _ _ _ _ _ _ _) as [?|tail]; [done|].
  cbn [rbind]. destruct tail as [bx sc|call]; [done|].
  by rewrite (Hext _ _ _ _ _ _ (Hnms _ _)).
Qed.

End Determinism.
End NcnnProps.


(** * Further properties of the two rewriters *)

(** ** Results and lists *)

Lemma rmap_Forall2 {A B} (f : A → result B) (l : list A) (ys : list B) :
  rmap f l = Ok ys ↔ Forall2 (λ x y, f x = Ok y) l ys.
Proof.
  revert ys. induction l as [|x l IH]; intros ys; simpl.
  - unfold Ok. split.
    + intros [= <-]. constructor.
    + intros Hall. by inversion Hall.
  - split.
    + destruct (f x) as [e|y] eqn:Hx; simpl; [done|].
      destruct (rmap f l) as [e|ys'] eqn:Hl; simpl; [done|].
      unfold Ok. intros [= <-]. constructor; [done|]. by apply IH.
    + intros Hall. inversion Hall as [|? y ? ys' Hx Hl]; simplify_eq.
      rewrite Hx. simpl. apply IH in Hl. rewrite Hl. done.
Qed.

Lemma rmap_total {A B} (f : A → result B) (l : list A) :
  Forall (λ x, ∃ y, f x = Ok y) l → ∃ ys, rmap f l = Ok ys.
Proof.
  induction 1 as [|x l [y Hy] _ [ys Hys]]; simpl.
  - by exists [].
  - exists (y :: ys). by rewrite Hy, Hys.
Qed.

Lemma gather_lookup {A} (rows : list A) (inds : list nat) (sel : list A) :
  gather rows inds = Ok sel ↔ Forall2 (λ i r, rows !! i = Some r) inds sel.
Proof.
  unfold gather. rewrite rmap_Forall2.
  split; intros Hall; (eapply Forall2_impl; [exact Hall|]);
    intros i r; unfold index, Ok; destruct (rows !! i); naive_solver.
Qed.

Lemma gather_in_bounds {A} (rows : list A) (inds : list nat) :
  Forall (λ i, i < length rows) inds → ∃ sel, gather rows inds = Ok sel.
Proof.
  intros Hin. apply rmap_total. eapply Forall_impl; [exact Hin|].
  intros i Hi. simpl in Hi. apply lookup_lt_is_Some in Hi as [r Hr].
  exists r. unfold index. by rewrite Hr.
Qed.

Lemma length_concat_uniform {A} (t : list (list A)) (k : nat) :
  Forall (λ row, length row = k) t → length (concat t) = length t * k.
Proof.
  induction 1 as [|row t Hrow _ IH]; simpl; [done|].
  rewrite length_app, IH, Hrow. lia.
Qed.

Lemma regroup_lookup {A} (n k i : nat) (l : list A) :
  i < n → regroup n k l !! i = Some (take k (drop (i * k) l)).
Proof.
  intros Hi. unfold regroup. rewrite list_lookup_fmap, lookup_seq_lt by done. done.
Qed.

(** Cutting a list into [n] groups of [k] and gluing them back. *)
Lemma concat_regroup {A} (n k : nat) (l : list A) :
  concat (regroup n k l) = take (n * k) l.
Proof.
  unfold regroup. induction n as [|n IH].
  - by rewrite take_0.
  - rewrite seq_S, fmap_app, concat_app, IH. simpl. rewrite app_nil_r.
    rewrite Nat.add_comm. rewrite <- take_take_drop. done.
Qed.

(** Gluing uniform groups and cutting them again. *)
Lemma regroup_concat {A} (t : list (list A)) (k : nat) :
  Forall (λ row, length row = k) t → regroup (length t) k (concat t) = t.
Proof.
  intros Hk. apply list_eq. intros i.
  destruct (decide (i < length t)) as [Hi|Hi].
  - rewrite regroup_lookup by done.
    destruct (lookup_lt_is_Some_2 t i Hi) as [row Hrow]. rewrite Hrow. f_equal.
    rewrite <- (take_drop_middle t i row Hrow) at 1.
    rewrite concat_app. simpl.
    assert (length (concat (take i t)) = i * k) as Hlen.
    { rewrite (length_concat_uniform _ k) by by apply Forall_take.
      rewrite length_take. f_equal. lia. }
    rewrite drop_app_length' by done.
    rewrite take_app_length'; [done|].
    symmetry. by apply (Forall_lookup_1 _ _ _ _ Hk Hrow).
  - rewrite !lookup_ge_None_2; [done|lia|]. rewrite regroup_length. lia.
Qed.

(** ** Reshapes *)


Lemma div_mul_exact (len k : nat) :
  k ≠ 0 → len mod k = 0 → len / k * k = len.
Proof.
  intros Hk Hmod. pose proof (Nat.div_mod_eq len k). lia.
Qed.

Lemma reshape_rows_spec {A} (w : nat) (flat : list A) (rows : list (list A)) :
  reshape_rows w flat = Ok rows →
  w ≠ 0 ∧ length rows * w = length flat ∧ uniform w rows ∧ concat rows = flat.
Proof.
  unfold reshape_rows, Ok.
  destruct (w =? 0) eqn:Hw; [done|]. apply Nat.eqb_neq in Hw.
  destruct (length flat mod w =? 0) eqn:Hmod; [|done]. apply Nat.eqb_eq in Hmod.
  intros [= <-]. pose proof (div_mul_exact _ _ Hw Hmod) as Hlen.
  split; [done|]. split; [by rewrite regroup_length|].
  split; [apply regroup_rows; lia|].
  rewrite concat_regroup, Hlen. apply firstn_all.
Qed.

Lemma reshape_rows_concat {A} (w : nat) (rows : list (list A)) :
  w ≠ 0 → uniform w rows → reshape_rows w (concat rows) = Ok rows.
Proof.
  intros Hw Hrows. unfold reshape_rows.
  rewrite (length_concat_uniform _ w) by done.
  apply Nat.eqb_neq in Hw as Hw'. rewrite Hw'.
  rewrite Nat.Div0.mod_mul, Nat.eqb_refl, Nat.div_mul by done.
  by rewrite regroup_concat.
Qed.

Lemma regroup_batch_spec {A} (b : nat) (rows : list A) (t : list (list A)) :
  regroup_batch b rows = Ok t →
  b ≠ 0 ∧ length t = b ∧ uniform (length rows / b) t ∧ concat t = rows.
Proof.
  unfold regroup_batch, Ok.
  destruct (b =? 0) eqn:Hb; [done|]. apply Nat.eqb_neq in Hb.
  destruct (length rows mod b =? 0) eqn:Hmod; [|done]. apply Nat.eqb_eq in Hmod.
  intros [= <-]. pose proof (div_mul_exact _ _ Hb Hmod) as Hlen.
  split; [done|]. split; [by rewrite regroup_length|].
  split; [apply regroup_rows; lia|].
  rewrite concat_regroup. replace (b * (length rows / b)) with (length rows) by lia.
  apply firstn_all.
Qed.

Lemma regroup_batch_concat {A} (n : nat) (t : list (list A)) :
  t ≠ [] → uniform n t → regroup_batch (length t) (concat t) = Ok t.
Proof.
  intros Ht Hn. unfold regroup_batch.
  assert (length t ≠ 0) as Hb by by destruct t.
  apply Nat.eqb_neq in Hb as Hb'. rewrite Hb'.
  rewrite (length_concat_uniform _ n) by done.
  rewrite Nat.mul_comm, Nat.Div0.mod_mul, Nat.eqb_refl, Nat.div_mul by done.
  by rewrite regroup_concat.
Qed.

Lemma reshape3_spec {A} (b w : nat) (flat : list A) (t : list (list (list A))) :
  reshape3 b w flat = Ok t →
  b ≠ 0 ∧ w ≠ 0 ∧ length t = b ∧ uniform (length flat / (b * w)) t ∧
  Forall (uniform w) t ∧ concat (concat t) = flat.
Proof.
  unfold reshape3, Ok.
  destruct (b * w =? 0) eqn:Hbw; [done|]. apply Nat.eqb_neq in Hbw.
  destruct (length flat mod (b * w) =? 0) eqn:Hmod; [|done]. apply Nat.eqb_eq in Hmod.
  intros [= <-]. pose proof (div_mul_exact _ _ Hbw Hmod) as Hlen.
  set (n := length flat / (b * w)) in *.
  assert (uniform w (regroup (b * n) w flat)) as Hrows by (apply regroup_rows; lia).
  split; [lia|]. split; [lia|]. split; [by rewrite regroup_length|].
  split; [apply regroup_rows; rewrite regroup_length; lia|].
  split.
  - unfold regroup at 1. apply Forall_fmap, Forall_forall. intros i _. simpl.
    by apply Forall_take, Forall_drop.
  - rewrite concat_regroup, firstn_all2 by (rewrite regroup_length; lia).
    rewrite concat_regroup. apply firstn_all2. lia.
Qed.

(** [view(b, -1, w)] of a tensor that already has [b] items of rows of width
    [w] returns the tensor. *)
Lemma reshape3_flatten3 {A} (n w : nat) (t : list (list (list A))) :
  t ≠ [] → w ≠ 0 → uniform n t → Forall (uniform w) t →
  reshape3 (length t) w (concat (concat t)) = Ok t.
Proof.
  intros Ht Hw Hn Hrows. unfold reshape3.
  assert (length t ≠ 0) as Hb by by destruct t.
  assert (uniform w (concat t)) as Hall.
  { unfold uniform. apply Forall_concat. exact Hrows. }
  assert (length (concat t) = length t * n) as Hlen
    by by apply length_concat_uniform.
  rewrite (length_concat_uniform _ w) by done. rewrite Hlen.
  assert (length t * w ≠ 0) as Hbw by lia.
  apply Nat.eqb_neq in Hbw as Hbw'. rewrite Hbw'.
  replace (length t * n * w) with (n * (length t * w)) by lia.
  rewrite Nat.Div0.mod_mul, Nat.eqb_refl, Nat.div_mul by done. simpl.
  rewrite <- Hlen, regroup_concat by done. by rewrite regroup_concat.
Qed.

(** ** The top-k stage *)

Ltac bind_ok H x Hx :=
  match type of H with
  | rbind ?m _ = _ =>
      destruct m as [?|x] eqn:Hx; cbn [rbind] in H; [discriminate H|]
  end.

Section TopKStage.
Context {R : Type} `{Scalar R}.

(** The flattened index tensor built from the top-k indices of [B] items,
    [k] each: two halves of [B * k] indices. *)
Lemma transformed_inds_length (B k stride classes : nat) (tk : list (list nat)) :
  length tk = B → uniform k tk →
  length (concat (concat
    ((λ half : list (list nat),
        zip_with (λ b (row : list nat), (λ i, stride * b + i) <$> row) (seq 0 B) half)
       <$> [ (λ row : list nat, (λ i, i / classes) <$> row) <$> tk;
             (λ row : list nat, (λ i, i mod classes) <$> row) <$> tk ])))
  = 2 * B * k.
Proof.
  intros Hlen Hk.
  assert (∀ f : nat → nat,
    length (concat (zip_with (λ b (row : list nat), (λ i, stride * b + i) <$> row)
                      (seq 0 B) ((λ row : list nat, f <$> row) <$> tk))) = B * k)
    as Hhalf.
  { intros f. rewrite (length_concat_uniform _ k).
    - rewrite length_zip_with, length_seq, length_fmap. lia.
    - unfold uniform. apply Forall_forall. intros row Hrow.
      apply elem_of_lookup_zip_with in Hrow as (i & b & r & -> & _ & Hr).
      rewrite length_fmap. rewrite list_lookup_fmap in Hr.
      destruct (tk !! i) as [r0|] eqn:Hr0; simplify_eq/=.
      rewrite length_fmap. by apply (Forall_lookup_1 _ _ _ _ Hk Hr0). }
  rewrite !fmap_cons, fmap_nil. cbn [concat]. rewrite app_nil_r, concat_app, length_app.
  rewrite !Hhalf. lia.
Qed.

(** A successful top-k stage returns, for each of the [batch_size] items,
    twice [pre_topk] candidates: boxes of width 4, score rows of width
    [num_classes] and objectness values. *)
Lemma topk_stage_shape (self : YOLOV3Head R) (batch_size : nat) (pre_topk : pyval R)
    (boxes scores : T3 R) (conf : T2 R) (boxes' scores' : T3 R) (conf' : T2 R) :
  topk_stage self batch_size pre_topk boxes scores conf = Ok (boxes', scores', conf') →
  ∃ k, as_size pre_topk = Ok k ∧ batch_size ≠ 0 ∧
       length boxes' = batch_size ∧ length scores' = batch_size ∧
       length conf' = batch_size ∧
       uniform (2 * k) boxes' ∧ uniform (2 * k) scores' ∧ uniform (2 * k) conf' ∧
       Forall (uniform 4) boxes' ∧ Forall (uniform (num_classes self)) scores'.
Proof.
  intros Hrun. unfold topk_stage in Hrun.
  bind_ok Hrun k Hk. exists k. split; [done|].
  bind_ok Hrun flat_scores Hflat. bind_ok Hrun tk Htk.
  cbv zeta in Hrun.
  bind_ok Hrun box_rows Hbr. bind_ok Hrun box_sel Hbs. bind_ok Hrun boxes1 Hb1.
  bind_ok Hrun score_rows Hsr. bind_ok Hrun score_sel Hss. bind_ok Hrun scores1 Hs1.
  bind_ok Hrun conf_sel Hcs. bind_ok Hrun conf1 Hc1.
  unfold Ok in Hrun. simplify_eq.
  apply regroup_batch_spec in Hflat as (HB & Hflen & _ & _).
  apply rmap_Forall2 in Htk.
  assert (length tk = batch_size) as Htklen.
  { by rewrite <- (Forall2_length _ _ _ Htk). }
  assert (uniform k tk) as Htkk.
  { unfold uniform. apply Forall_forall. intros row Hrow.
    apply list_elem_of_lookup in Hrow as [i Hi].
    destruct (Forall2_lookup_r _ _ _ _ _ Htk Hi) as (xs & _ & Hxs).
    by apply topk_indices in Hxs as [? _]. }
  pose proof (transformed_inds_length batch_size k
                (length (hd [] (pad_with_value_if_necessary boxes k (replicate 4 zero))))
                (num_classes self) tk Htklen Htkk) as Hinds.
  apply gather_lookup in Hbs, Hss, Hcs.
  pose proof (Forall2_length _ _ _ Hbs) as Hbl.
  pose proof (Forall2_length _ _ _ Hss) as Hsl.
  pose proof (Forall2_length _ _ _ Hcs) as Hcl.
  rewrite Hinds in Hbl, Hsl, Hcl.
  assert (2 * batch_size * k / batch_size = 2 * k) as Hdiv.
  { replace (2 * batch_size * k) with (2 * k * batch_size) by lia.
    by apply Nat.div_mul. }
  apply reshape_rows_spec in Hbr as (_ & _ & Hbw & _).
  apply reshape_rows_spec in Hsr as (_ & _ & Hsw & _).
  apply regroup_batch_spec in Hb1 as (_ & Hb1l & Hb1u & Hb1c).
  apply regroup_batch_spec in Hs1 as (_ & Hs1l & Hs1u & Hs1c).
  apply regroup_batch_spec in Hc1 as (_ & Hc1l & Hc1u & _).
  rewrite <- Hbl, Hdiv in Hb1u. rewrite <- Hsl, Hdiv in Hs1u.
  rewrite <- Hcl, Hdiv in Hc1u.
  repeat split; try done.
  - apply Forall_concat. rewrite Hb1c. apply Forall_forall. intros r Hr.
    apply list_elem_of_lookup in Hr as [j Hj].
    destruct (Forall2_lookup_r _ _ _ _ _ Hbs Hj) as (i & _ & Hi).
    by apply (Forall_lookup_1 _ _ _ _ Hbw Hi).
  - apply Forall_concat. rewrite Hs1c. apply Forall_forall. intros r Hr.
    apply list_elem_of_lookup in Hr as [j Hj].
    destruct (Forall2_lookup_r _ _ _ _ _ Hss Hj) as (i & _ & Hi).
    by apply (Forall_lookup_1 _ _ _ _ Hsw Hi).
Qed.
End TopKStage.

Lemma concat_concat_fmap {A} (t : list (list (list A))) :
  concat (concat t) = concat (@concat A <$> t).
Proof.
  induction t as [|item t IH]; simpl; [done|]. by rewrite concat_app, IH.
Qed.

Lemma pad_uniform {A} (x : list (list A)) (n k : nat) (fill : A) :
  uniform n x → uniform (n `max` k) (pad_with_value_if_necessary x k fill).
Proof.
  intros Hn. unfold uniform, pad_with_value_if_necessary.
  apply Forall_fmap. eapply Forall_impl; [exact Hn|]. simpl.
  intros item Hitem. rewrite length_app, length_replicate. lia.
Qed.

Lemma pad_rows {A} (P : A → Prop) (x : list (list A)) (k : nat) (fill : A) :
  P fill → Forall (Forall P) x → Forall (Forall P) (pad_with_value_if_necessary x k fill).
Proof.
  intros Hfill Hx. unfold pad_with_value_if_necessary.
  apply Forall_fmap. eapply Forall_impl; [exact Hx|]. simpl.
  intros item Hitem. apply Forall_app. split; [done|]. by apply Forall_replicate.
Qed.

Lemma pad_length {A} (x : list (list A)) (k : nat) (fill : A) :
  length (pad_with_value_if_necessary x k fill) = length x.
Proof. unfold pad_with_value_if_necessary. by rewrite length_fmap. Qed.

Lemma rbind_Ok {A B} (x : A) (f : A → result B) : rbind (Ok x) f = f x.
Proof. done. Qed.

Section TopKSuccess.
Context {R : Type} `{Scalar R}.

(** Every transformed index addresses a row of the flattened tensors when
    the class count does not exceed the number of rows of an item. *)
Lemma transformed_inds_in_bounds (B k rows classes : nat) (tk : list (list nat)) :
  classes ≠ 0 → classes ≤ rows →
  Forall (Forall (λ i, i < rows * classes)) tk →
  Forall (λ i, i < B * rows)
    (concat (concat
      ((λ half : list (list nat),
          zip_with (λ b (row : list nat), (λ i, rows * b + i) <$> row) (seq 0 B) half)
         <$> [ (λ row : list nat, (λ i, i / classes) <$> row) <$> tk;
               (λ row : list nat, (λ i, i mod classes) <$> row) <$> tk ]))).
Proof.
  intros Hc Hcr Htk.
  assert (∀ f : nat → nat, (∀ i, i < rows * classes → f i < rows) →
    Forall (λ i, i < B * rows)
      (concat (zip_with (λ b (row : list nat), (λ i, rows * b + i) <$> row)
                 (seq 0 B) ((λ row : list nat, f <$> row) <$> tk)))) as Hhalf.
  { intros f Hf. apply Forall_concat, Forall_forall. intros row Hrow.
    apply elem_of_lookup_zip_with in Hrow as (j & b & r & -> & Hb & Hr).
    apply lookup_seq in Hb as [-> Hj]. rewrite list_lookup_fmap in Hr.
    destruct (tk !! j) as [r0|] eqn:Hr0; simplify_eq/=.
    rewrite <- list_fmap_compose. apply Forall_fmap.
    eapply Forall_impl; [exact (Forall_lookup_1 _ _ _ _ Htk Hr0)|].
    simpl. intros i Hi. apply Hf in Hi. nia. }
  rewrite !fmap_cons, fmap_nil. cbn [concat]. rewrite app_nil_r, concat_app.
  apply Forall_app. split; apply Hhalf.
  - intros i Hi. apply Nat.Div0.div_lt_upper_bound. lia.
  - intros i _. pose proof (Nat.mod_upper_bound i classes Hc). lia.
Qed.

(** X1. The top-k stage raises nothing on well-shaped candidates (B items of N
    boxes of width 4, score rows of width C and objectness values) when the
    class count does not exceed the padded number of anchors. *)
Theorem topk_stage_succeeds (self : YOLOV3Head R) (pre_topk : pyval R) (k n : nat)
    (boxes scores : T3 R) (conf : T2 R) :
  as_size pre_topk = Ok k →
  boxes ≠ [] → length scores = length boxes → length conf = length boxes →
  uniform n boxes → uniform n scores → uniform n conf →
  Forall (uniform 4) boxes → Forall (uniform (num_classes self)) scores →
  num_classes self ≠ 0 → num_classes self ≤ n `max` k →
  ∃ out, topk_stage self (length boxes) pre_topk boxes scores conf = Ok out.
Proof.
  intros Hk Hne Hsl Hcl Hbn Hsn Hcn Hbw Hsw Hc Hcn'.
  unfold topk_stage. rewrite Hk. rewrite rbind_Ok. cbv zeta.
  set (B := length boxes) in *. set (C := num_classes self) in *.
  set (n' := n `max` k) in *.
  assert (B ≠ 0) as HB by (subst B; by destruct boxes).
  set (boxes_p := pad_with_value_if_necessary boxes k (replicate 4 zero)).
  set (conf_p := pad_with_value_if_necessary conf k zero).
  set (scores_p := pad_with_value_if_necessary scores k (replicate C zero)).
  assert (length boxes_p = B) as Hbpl by apply pad_length.
  assert (length scores_p = B) as Hspl by (unfold scores_p; by rewrite pad_length).
  assert (length conf_p = B) as Hcpl by (unfold conf_p; by rewrite pad_length).
  assert (uniform n' boxes_p) as Hbpn by by apply pad_uniform.
  assert (uniform n' scores_p) as Hspn by by apply pad_uniform.
  assert (uniform n' conf_p) as Hcpn by by apply pad_uniform.
  assert (Forall (uniform 4) boxes_p) as Hbpw.
  { apply pad_rows; [apply length_replicate | done]. }
  assert (Forall (uniform C) scores_p) as Hspw.
  { apply pad_rows; [apply length_replicate | done]. }
  (* the flat scores of each item *)
  assert (regroup_batch B (flatten3 scores_p) = Ok (@concat R <$> scores_p)) as ->.
  { unfold flatten3. rewrite concat_concat_fmap, <- Hspl.
    rewrite <- (length_fmap (@concat R) scores_p).
    apply (regroup_batch_concat (n' * C)).
    - intros Hnil. apply (f_equal length) in Hnil.
      rewrite length_fmap in Hnil. simpl in Hnil. lia.
    - unfold uniform. apply Forall_fmap, Forall_forall. intros item Hitem. simpl.
      rewrite (length_concat_uniform _ C).
      + f_equal. by apply (proj1 (Forall_forall _ _) Hspn).
      + by apply (proj1 (Forall_forall _ _) Hspw). }
  rewrite rbind_Ok.
  assert (Forall (λ xs : list R, length xs = n' * C) (@concat R <$> scores_p)) as Hflat.
  { apply Forall_fmap, Forall_forall. intros item Hitem. simpl.
    rewrite (length_concat_uniform _ C).
    + f_equal. by apply (proj1 (Forall_forall _ _) Hspn).
    + by apply (proj1 (Forall_forall _ _) Hspw). }
  destruct (rmap_total (topk k) (@concat R <$> scores_p)) as [tk Htk].
  { eapply Forall_impl; [exact Hflat|]. simpl. intros xs Hxs. unfold topk.
    assert (k ≤ length xs) as Hle by (rewrite Hxs; subst n'; nia).
    apply Nat.leb_le in Hle. rewrite Hle. eauto. }
  rewrite Htk. rewrite rbind_Ok.
  apply rmap_Forall2 in Htk.
  assert (Forall (Forall (λ i, i < n' * C)) tk) as Htkb.
  { apply Forall_forall. intros row Hrow.
    apply list_elem_of_lookup in Hrow as [j Hj].
    destruct (Forall2_lookup_r _ _ _ _ _ Htk Hj) as (xs & Hxs & Hrun).
    apply topk_indices in Hrun as (_ & _ & Hlt).
    by rewrite (Forall_lookup_1 _ _ _ _ Hflat Hxs) in Hlt. }
  assert (length (hd [] boxes_p) = n') as Hshape1.
  { destruct boxes_p as [|item ?] eqn:Hbp; [simpl in Hbpl; lia|].
    simpl. by apply (Forall_inv Hbpn). }
  rewrite Hshape1.
  pose proof (transformed_inds_in_bounds B k n' C tk Hc Hcn' Htkb) as Hin.
  set (inds := concat (concat _)) in *.
  assert (length tk = B) as Htkl.
  { rewrite <- (Forall2_length _ _ _ Htk), length_fmap. done. }
  assert (uniform k tk) as Htkk.
  { unfold uniform. apply Forall_forall. intros row Hrow.
    apply list_elem_of_lookup in Hrow as [j Hj].
    destruct (Forall2_lookup_r _ _ _ _ _ Htk Hj) as (xs & _ & Hxs).
    by apply topk_indices in Hxs as [? _]. }
  pose proof (transformed_inds_length B k n' C tk Htkl Htkk) as Hil.
  fold inds in Hil.
  assert (∀ {A} (sel : list A), length sel = length inds →
            ∃ t, regroup_batch B sel = Ok t) as Hregroup.
  { intros A sel Hsel. unfold regroup_batch.
    apply Nat.eqb_neq in HB as ->. rewrite Hsel, Hil.
    replace (2 * B * k) with (2 * k * B) by lia.
    rewrite Nat.Div0.mod_mul. simpl. eauto. }
  (* boxes *)
  unfold flatten3.
  rewrite (reshape_rows_concat 4 (concat boxes_p)); [|done|by apply Forall_concat].
  rewrite rbind_Ok.
  destruct (gather_in_bounds (concat boxes_p) inds) as [box_sel Hbs].
  { rewrite (length_concat_uniform _ n'), Hbpl by done. done. }
  rewrite Hbs. rewrite rbind_Ok.
  destruct (Hregroup _ box_sel) as [boxes' ->].
  { apply gather_lookup in Hbs. by rewrite (Forall2_length _ _ _ Hbs). }
  rewrite rbind_Ok.
  (* scores *)
  rewrite (reshape_rows_concat C (concat scores_p)); [|done|by apply Forall_concat].
  rewrite rbind_Ok.
  destruct (gather_in_bounds (concat scores_p) inds) as [score_sel Hss].
  { rewrite (length_concat_uniform _ n'), Hspl by done. done. }
  rewrite Hss. rewrite rbind_Ok.
  destruct (Hregroup _ score_sel) as [scores' ->].
  { apply gather_lookup in Hss. by rewrite (Forall2_length _ _ _ Hss). }
  rewrite rbind_Ok.
  (* objectness *)
  destruct (gather_in_bounds (concat conf_p) inds) as [conf_sel Hcs].
  { rewrite (length_concat_uniform _ n'), Hcpl by done. done. }
  rewrite Hcs. rewrite rbind_Ok.
  destruct (Hregroup _ conf_sel) as [conf' ->].
  { apply gather_lookup in Hcs. by rewrite (Forall2_length _ _ _ Hcs). }
  rewrite rbind_Ok. eauto.
Qed.
End TopKSuccess.



Section TopKSingle.
Context {R : Type} `{Scalar R}.

End TopKSingle.

(** ** Decoding one level *)

Lemma reshape3_ok {A} (b w n : nat) (flat : list A) :
  b ≠ 0 → w ≠ 0 → length flat = n * (b * w) →
  ∃ t, reshape3 b w flat = Ok t ∧ length t = b ∧ uniform n t ∧
       Forall (uniform w) t ∧ concat (concat t) = flat.
Proof.
  intros Hb Hw Hlen.
  assert (b * w ≠ 0) as Hbw by lia.
  destruct (reshape3 b w flat) as [e|t] eqn:Hrun.
  - exfalso. unfold reshape3 in Hrun.
    apply Nat.eqb_neq in Hbw as Hbw'. rewrite Hbw' in Hrun.
    rewrite Hlen, Nat.Div0.mod_mul, Nat.eqb_refl in Hrun. done.
  - exists t. apply reshape3_spec in Hrun as (_ & _ & ? & Hn & ? & ?).
    rewrite Hlen, Nat.div_mul in Hn by done. done.
Qed.

Lemma row_width {A} (w : nat) (t : list (list (list A))) j item m r :
  Forall (uniform w) t → t !! j = Some item → item !! m = Some r → length r = w.
Proof.
  intros Hw Hitem Hr.
  exact (Forall_lookup_1 _ _ _ _ (Forall_lookup_1 _ _ _ _ Hw Hitem) Hr).
Qed.

Section Decode.
Context {R : Type} `{Scalar R}.
Variable sigmoid : R → R.
Variable bbox_decode : T3 R → T3 R → Z → T3 R.

(** The permuted map has, for every item, [h] rows of [w] cells of as many
    entries as the item has channels. *)
Lemma permute_0231_length (t : T4 R) (channels : nat) :
  uniform channels t →
  length (flatten4 (permute_0231 t))
  = length t * ((featmap_size t).1 * (featmap_size t).2 * channels).
Proof.
  intros Hc. unfold flatten4, permute_0231.
  destruct (featmap_size t) as [h w]. simpl.
  rewrite (length_concat_uniform _ channels), (length_concat_uniform _ w),
    (length_concat_uniform _ h).
  - rewrite length_fmap. lia.
  - apply Forall_fmap, Forall_forall. intros item _. simpl.
    by rewrite length_fmap, length_seq.
  - apply Forall_concat, Forall_fmap, Forall_forall. intros item _. simpl.
    apply Forall_fmap, Forall_forall. intros i _. simpl.
    by rewrite length_fmap, length_seq.
  - apply Forall_concat, Forall_concat, Forall_fmap, Forall_forall.
    intros item Hitem. simpl.
    apply Forall_fmap, Forall_forall. intros i _. simpl.
    apply Forall_fmap, Forall_forall. intros j _. simpl.
    rewrite length_fmap. by apply (proj1 (Forall_forall _ _) Hc).
Qed.

(* The reshaped map of a level: [h * w * num_anchors] rows of [attrib]
   entries per image. *)
Lemma reshaped_rows_ok (pred_map : T4 R) (attrib num_anchors : nat) :
  pred_map ≠ [] → attrib ≠ 0 → uniform (num_anchors * attrib) pred_map →
  ∃ rows : T3 R,
    reshape3 (length pred_map) attrib (flatten4 (permute_0231 pred_map)) = Ok rows ∧
    length rows = length pred_map ∧
    uniform ((featmap_size pred_map).1 * (featmap_size pred_map).2 * num_anchors) rows ∧
    Forall (uniform attrib) rows.
Proof.
  intros Hne Hattrib Hchan.
  assert (length pred_map ≠ 0) as HB by by destruct pred_map.
  destruct (reshape3_ok (length pred_map) attrib
              ((featmap_size pred_map).1 * (featmap_size pred_map).2 * num_anchors)
              (flatten4 (permute_0231 pred_map)))
    as (rows & Hrows & Hlen & Hn & Hw & _); [done|done| |by exists rows].
  rewrite (permute_0231_length _ _ Hchan). lia.
Qed.

(* Decoding a level from the rows of its reshaped map. *)
Lemma decode_level_of_rows (self : YOLOV3Head R) (is_dynamic_flag : bool)
    (multi_lvl_anchors : list (T2 R)) (pred_maps_list : list (T4 R)) (i : nat)
    (pred_map : T4 R) (stride : Z) (anchors : T2 R) (rows : T3 R) (n : nat) :
  pred_maps_list !! i = Some pred_map →
  featmap_strides self !! i = Some stride →
  multi_lvl_anchors !! i = Some anchors →
  num_attrib self = 5 + num_classes self → num_classes self ≠ 0 →
  reshape3 (length pred_map) (num_attrib self) (flatten4 (permute_0231 pred_map))
    = Ok rows →
  length rows = length pred_map → length pred_map ≠ 0 → uniform n rows →
  Forall (uniform (num_attrib self)) rows →
  decode_level sigmoid bbox_decode self is_dynamic_flag (length pred_map)
    multi_lvl_anchors pred_maps_list i
  = Ok (bbox_decode [anchors]
          ((λ item : T2 R, box_attributes sigmoid <$> item) <$> rows) stride,
        (λ item : T2 R, class_scores sigmoid <$> item) <$> rows,
        (λ item : T2 R, objectness sigmoid <$> item) <$> rows).
Proof.
  intros Hmap Hstride Hanchors Hattrib Hclasses Hrows Hlen HB Hn Hw.
  set (B := length pred_map) in *. set (A := num_attrib self) in *.
  set (C := num_classes self) in *.
  unfold decode_level, index. rewrite Hmap, Hstride. cbn [rbind].
  rewrite !rbind_Ok. fold B A C. rewrite Hrows, rbind_Ok, Hanchors. cbn [rbind].
  rewrite rbind_Ok. cbv zeta.
  assert ((A <=? 4) = false) as -> by (apply Nat.leb_gt; lia).
  (* the rows after the sigmoid of the first two attributes *)
  assert (zip_with (zip_with app)
            ((λ item : T2 R, (λ r, sigmoid <$> take 2 r) <$> item) <$> rows)
            ((λ item : T2 R, drop 2 <$> item) <$> rows)
          = (λ item : T2 R, (λ r, (sigmoid <$> take 2 r) ++ drop 2 r) <$> item) <$> rows)
    as ->.
  { rewrite zip_with_fmap_l, zip_with_fmap_r, zip_with_diag.
    apply list_fmap_ext. intros j item _.
    by rewrite zip_with_fmap_l, zip_with_fmap_r, zip_with_diag. }
  assert (∀ r : list R, length r = A → length (sigmoid <$> take 2 r) = 2) as Htwo.
  { intros r Hr. rewrite length_fmap, length_take. lia. }
  (* boxes, objectness, classes, row by row *)
  assert ((λ item : T2 R, take 4 <$> item) <$>
            ((λ item : T2 R, (λ r, (sigmoid <$> take 2 r) ++ drop 2 r) <$> item) <$> rows)
          = (λ item : T2 R, box_attributes sigmoid <$> item) <$> rows) as ->.
  { rewrite <- list_fmap_compose. apply list_fmap_ext. intros j item Hitem. simpl.
    rewrite <- list_fmap_compose. apply list_fmap_ext. intros m r Hr. simpl.
    pose proof (row_width _ _ _ _ _ _ Hw Hitem Hr) as HrA.
    unfold box_attributes.
    rewrite take_app_ge by (rewrite Htwo; [lia|done]).
    by rewrite Htwo. }
  assert ((λ item : T2 R, (λ r : list R, sigmoid (default zero (r !! 4))) <$> item) <$>
            ((λ item : T2 R, (λ r, (sigmoid <$> take 2 r) ++ drop 2 r) <$> item) <$> rows)
          = (λ item : T2 R, objectness sigmoid <$> item) <$> rows) as ->.
  { rewrite <- list_fmap_compose. apply list_fmap_ext. intros j item Hitem. simpl.
    rewrite <- list_fmap_compose. apply list_fmap_ext. intros m r Hr. simpl.
    pose proof (row_width _ _ _ _ _ _ Hw Hitem Hr) as HrA.
    unfold objectness.
    rewrite lookup_app_r by (rewrite Htwo; [lia|done]).
    rewrite Htwo by done. by rewrite lookup_drop. }
  assert ((λ item : T2 R, (λ r, sigmoid <$> drop 5 r) <$> item) <$>
            ((λ item : T2 R, (λ r, (sigmoid <$> take 2 r) ++ drop 2 r) <$> item) <$> rows)
          = (λ item : T2 R, class_scores sigmoid <$> item) <$> rows) as ->.
  { rewrite <- list_fmap_compose. apply list_fmap_ext. intros j item Hitem. simpl.
    rewrite <- list_fmap_compose. apply list_fmap_ext. intros m r Hr. simpl.
    pose proof (row_width _ _ _ _ _ _ Hw Hitem Hr) as HrA.
    unfold class_scores.
    rewrite drop_app_ge by (rewrite Htwo; [lia|done]).
    rewrite Htwo by done. by rewrite drop_drop. }
  (* the view of the class scores changes nothing *)
  set (cls := (λ item : T2 R, class_scores sigmoid <$> item) <$> rows).
  assert (reshape3 B C (flatten3 cls) = Ok cls) as ->.
  { unfold flatten3. rewrite <- Hlen, <- (length_fmap (λ item : T2 R, class_scores sigmoid <$> item) rows).
    apply (reshape3_flatten3 n).
    - subst cls. intros Hnil. apply (f_equal length) in Hnil.
      rewrite length_fmap in Hnil. simpl in Hnil. lia.
    - done.
    - unfold uniform. apply Forall_fmap. eapply Forall_impl; [exact Hn|].
      simpl. intros item Hitem. by rewrite length_fmap.
    - apply Forall_fmap. eapply Forall_impl; [exact Hw|]. simpl.
      intros item Hitem. apply Forall_fmap. eapply Forall_impl; [exact Hitem|].
      simpl. intros r Hr. unfold class_scores.
      rewrite length_fmap, length_drop. lia. }
  rewrite rbind_Ok. by destruct is_dynamic_flag.
Qed.

(** X3. A level whose map has [num_anchors * num_attrib] channels, for a head
    with [num_attrib = 5 + num_classes], decodes without error into one
    candidate per row of the reshaped map: the coder gets the sigmoid of the
    two centre offsets and the raw sizes, the objectness is the sigmoid of
    attribute 4 and the class scores are the sigmoids of the attributes from
    5 on, all of the same row. *)
Theorem decode_level_candidates (self : YOLOV3Head R) (is_dynamic_flag : bool)
    (multi_lvl_anchors : list (T2 R)) (pred_maps_list : list (T4 R)) (i : nat)
    (pred_map : T4 R) (stride : Z) (anchors : T2 R) (num_anchors : nat) :
  pred_maps_list !! i = Some pred_map →
  featmap_strides self !! i = Some stride →
  multi_lvl_anchors !! i = Some anchors →
  pred_map ≠ [] →
  uniform (num_anchors * num_attrib self) pred_map →
  num_attrib self = 5 + num_classes self →
  num_classes self ≠ 0 →
  let n := (featmap_size pred_map).1 * (featmap_size pred_map).2 * num_anchors in
  ∃ rows : T3 R,
    reshape3 (length pred_map) (num_attrib self) (flatten4 (permute_0231 pred_map))
      = Ok rows ∧
    length rows = length pred_map ∧ uniform n rows ∧
    Forall (uniform (num_attrib self)) rows ∧
    decode_level sigmoid bbox_decode self is_dynamic_flag (length pred_map)
      multi_lvl_anchors pred_maps_list i
    = Ok (bbox_decode [anchors]
            ((λ item : T2 R, box_attributes sigmoid <$> item) <$> rows) stride,
          (λ item : T2 R, class_scores sigmoid <$> item) <$> rows,
          (λ item : T2 R, objectness sigmoid <$> item) <$> rows).
Proof.
  intros Hmap Hstride Hanchors Hne Hchan Hattrib Hclasses n.
  destruct (reshaped_rows_ok pred_map (num_attrib self) num_anchors)
    as (rows & Hrows & Hlen & Hn & Hw); [done|lia|done|].
  exists rows. split; [done|]. split; [done|]. split; [done|]. split; [done|].
  eapply decode_level_of_rows; try done. by destruct pred_map.
Qed.

(** X4. Row [(y * w + x) * num_anchors + a] of item [b] of the reshaped map
    holds the channels [a * num_attrib], ..., [a * num_attrib + num_attrib - 1]
    of the map at cell [(y, x)] of item [b]. *)
Theorem reshaped_rows_lookup (pred_map : T4 R) (attrib num_anchors : nat)
    (rows : T3 R) (b y x a j : nat) :
  uniform (num_anchors * attrib) pred_map →
  reshape3 (length pred_map) attrib (flatten4 (permute_0231 pred_map)) = Ok rows →
  b < length pred_map → y < (featmap_size pred_map).1 →
  x < (featmap_size pred_map).2 → a < num_anchors → j < attrib →
  at3 rows b ((y * (featmap_size pred_map).2 + x) * num_anchors + a) j
  = Some (default zero (at4 pred_map b (a * attrib + j) y x)).
Proof.
  intros Hchan Hrows Hb Hy Hx Ha Hj.
  pose proof (permute_0231_length _ _ Hchan) as Hflat.
  unfold permute_0231, flatten4 in *.
  destruct (featmap_size pred_map) as [h w]. simpl in *.
  set (B := length pred_map) in *. set (c := num_anchors * attrib) in *.
  set (p := (λ item : T3 R,
     (λ i, (λ j, (λ chan : T2 R, default zero (chan !! i ≫= (.!! j))) <$> item)
           <$> seq 0 w) <$> seq 0 h) <$> pred_map) in *.
  apply reshape3_spec in Hrows as (HB & HA & Hlen & Hn & Hw & Hcat).
  rewrite Hflat in Hn.
  assert (B * (h * w * c) / (B * attrib) = h * w * num_anchors) as Hdiv.
  { replace (B * (h * w * c)) with (h * w * num_anchors * (B * attrib))
      by (subst c; lia).
    apply Nat.div_mul. lia. }
  rewrite Hdiv in Hn. set (n := h * w * num_anchors) in *.
  set (m := (y * w + x) * num_anchors + a).
  assert (y * w + x < h * w) as Hcell by nia.
  assert (m < n) as Hm by (subst m n; nia).
  (* reading the reshaped rows through the flat data *)
  assert (at3 rows b m j = concat (concat rows) !! (attrib * (n * b + m) + j)) as ->.
  { rewrite (linear_offset_lookup (concat rows) attrib) by
      (done || by apply Forall_concat).
    rewrite (linear_offset_lookup rows n) by done. done. }
  rewrite Hcat.
  (* reading the permuted map through the flat data *)
  assert (uniform h p) as Hph.
  { apply Forall_fmap, Forall_forall. intros item _. simpl.
    by rewrite length_fmap, length_seq. }
  assert (uniform w (concat p)) as Hpw.
  { apply Forall_concat, Forall_fmap, Forall_forall. intros item _. simpl.
    apply Forall_fmap, Forall_forall. intros i _. simpl.
    by rewrite length_fmap, length_seq. }
  assert (uniform c (concat (concat p))) as Hpc.
  { apply Forall_concat, Forall_concat, Forall_fmap, Forall_forall.
    intros item Hitem. simpl.
    apply Forall_fmap, Forall_forall. intros i _. simpl.
    apply Forall_fmap, Forall_forall. intros k _. simpl.
    rewrite length_fmap. by apply (proj1 (Forall_forall _ _) Hchan). }
  replace (attrib * (n * b + m) + j)
    with (c * (w * (h * b + y) + x) + (a * attrib + j)) by (subst c n m; lia).
  rewrite (linear_offset_lookup (concat (concat p)) c) by (done || (subst c; nia)).
  rewrite (linear_offset_lookup (concat p) w) by done.
  rewrite (linear_offset_lookup p h) by done.
  destruct (lookup_lt_is_Some_2 pred_map b Hb) as [item Hitem].
  subst p. rewrite list_lookup_fmap, Hitem. simpl.
  rewrite list_lookup_fmap, lookup_seq_lt by done. simpl.
  rewrite list_lookup_fmap, lookup_seq_lt by done. simpl.
  rewrite list_lookup_fmap.
  assert (length item = c) as Hic by by apply (Forall_lookup_1 _ _ _ _ Hchan Hitem).
  destruct (lookup_lt_is_Some_2 item (a * attrib + j)) as [chan Hchan'].
  { rewrite Hic. subst c. nia. }
  unfold at4, at2. rewrite Hitem. simpl. rewrite Hchan'. done.
Qed.
End Decode.

(** ** Merging the levels *)

Lemma cat_dim1_spec {A} (ts : list (list (list A))) (out : list (list A)) :
  cat_dim1 ts = Ok out →
  ∃ t0, ts !! 0 = Some t0 ∧ Forall (λ t, length t = length t0) ts ∧
        length out = length t0 ∧
        ∀ b, b < length t0 →
          out !! b = Some (concat ((λ t : list (list A), default [] (t !! b)) <$> ts)).
Proof.
  unfold cat_dim1. destruct ts as [|t0 ts']; [done|].
  destruct (forallb _ _) eqn:Hall; [|done]. unfold Ok. intros [= <-].
  exists t0. split; [done|]. split; [|split].
  - apply Forall_forall. intros t Ht. apply list_elem_of_In in Ht.
    apply Nat.eqb_eq. revert t Ht. by apply forallb_forall.
  - by rewrite length_fmap, length_seq.
  - intros b Hb. by rewrite list_lookup_fmap, lookup_seq_lt.
Qed.

(** Two lists of per-level tensors with the same sizes, level by level,
    merge into tensors of the same sizes. *)
Lemma cat_dim1_dims {A B} (ts : list (list (list A))) (us : list (list (list B)))
    (out_t : list (list A)) (out_u : list (list B)) :
  Forall2 (λ t u, dims2 t = dims2 u) ts us →
  cat_dim1 ts = Ok out_t → cat_dim1 us = Ok out_u →
  dims2 out_t = dims2 out_u.
Proof.
  intros Hdims Ht Hu.
  apply cat_dim1_spec in Ht as (t0 & Ht0 & _ & Htl & Htb).
  apply cat_dim1_spec in Hu as (u0 & Hu0 & _ & Hul & Hub).
  assert (length t0 = length u0) as Hlen0.
  { destruct (Forall2_lookup_l _ _ _ _ _ Hdims Ht0) as (u0' & Hu0' & Hd).
    simplify_eq. apply (f_equal length) in Hd. unfold dims2 in Hd.
    by rewrite !length_fmap in Hd. }
  unfold dims2. apply list_eq. intros b. rewrite !list_lookup_fmap.
  destruct (decide (b < length t0)) as [Hb|Hb].
  - rewrite Htb, Hub by lia. simpl. f_equal.
    clear -Hdims. induction Hdims as [|t u ts us Hd _ IH]; [done|].
    rewrite !fmap_cons. cbn [concat]. rewrite !length_app, IH. f_equal.
    apply (f_equal (λ d, default 0 (d !! b))) in Hd. unfold dims2 in Hd.
    rewrite !list_lookup_fmap in Hd.
    by destruct (t !! b), (u !! b).
  - rewrite !lookup_ge_None_2; [done|lia..].
Qed.

Lemma dims2_uniform {A} (n : nat) (t : list (list A)) :
  uniform n t → dims2 t = replicate (length t) n.
Proof.
  unfold dims2. induction 1 as [|item t Hitem _ IH]; [done|].
  rewrite fmap_cons, IH, Hitem. done.
Qed.

Section Aligned.
Context {R : Type} `{Scalar R}.
Variable sigmoid : R → R.
Variable bbox_decode : T3 R → T3 R → Z → T3 R.

(** Whenever a level decodes, for a head with [num_attrib = 5 + num_classes],
    the class scores and the objectness of the level have the same batch and
    anchor dimensions. *)
Lemma decode_level_aligned (self : YOLOV3Head R) (dyn : bool) (B : nat)
    (anchors : list (T2 R)) (maps : list (T4 R)) (i : nat)
    (bbox cls : T3 R) (conf : T2 R) :
  num_attrib self = 5 + num_classes self →
  decode_level sigmoid bbox_decode self dyn B anchors maps i = Ok (bbox, cls, conf) →
  dims2 cls = dims2 conf ∧ length conf = B ∧ Forall (uniform (num_classes self)) cls.
Proof.
  intros Hattrib Hrun. unfold decode_level in Hrun.
  bind_ok Hrun pred_map Hmap. bind_ok Hrun stride Hstride. bind_ok Hrun rows Hrows.
  cbv zeta in Hrun. bind_ok Hrun anchor Hanchor.
  destruct (num_attrib self <=? 4) eqn:Hfour; [done|]. apply Nat.leb_gt in Hfour.
  bind_ok Hrun cls' Hcls.
  assert (bbox_decode [if negb dyn then anchor else anchor]
            ((λ item : T2 R, take 4 <$> item) <$>
               zip_with (zip_with app)
                 ((λ item : T2 R, (λ r, sigmoid <$> take 2 r) <$> item) <$> rows)
                 ((λ item : T2 R, drop 2 <$> item) <$> rows)) stride = bbox ∧
          cls' = cls ∧
          (λ item : T2 R, (λ r : list R, sigmoid (default zero (r !! 4))) <$> item) <$>
            zip_with (zip_with app)
              ((λ item : T2 R, (λ r, sigmoid <$> take 2 r) <$> item) <$> rows)
              ((λ item : T2 R, drop 2 <$> item) <$> rows) = conf)
    as (_ & -> & <-) by (unfold Ok in Hrun; by simplify_eq).
  clear Hrun.
  set (A := num_attrib self) in *. set (C := num_classes self) in *.
  apply reshape3_spec in Hrows as (HB & HA & Hlen & Hn & Hw & _).
  set (n := length _ / (B * A)) in Hn.
  rewrite zip_with_fmap_l, zip_with_fmap_r, zip_with_diag in *.
  set (glued := (λ item : T2 R, zip_with app ((λ r, sigmoid <$> take 2 r) <$> item)
                                  (drop 2 <$> item)) <$> rows) in *.
  assert (length glued = B) as Hgl by (subst glued; by rewrite length_fmap).
  assert (uniform n glued) as Hgn.
  { apply Forall_fmap. eapply Forall_impl; [exact Hn|]. simpl. intros item Hitem.
    by rewrite length_zip_with, !length_fmap, Hitem, Nat.min_id. }
  assert (Forall (uniform A) glued) as Hgw.
  { apply Forall_fmap. eapply Forall_impl; [exact Hw|]. simpl. intros item Hitem.
    rewrite zip_with_fmap_l, zip_with_fmap_r, zip_with_diag.
    apply Forall_fmap. eapply Forall_impl; [exact Hitem|]. simpl. intros r Hr.
    rewrite length_app, length_fmap, length_take, length_drop. lia. }
  assert (dims2 ((λ item : T2 R, (λ r : list R, sigmoid (default zero (r !! 4))) <$> item)
                   <$> glued) = replicate B n) as Hconf.
  { rewrite dims2_fmap, (dims2_uniform n) by done. by rewrite Hgl. }
  apply reshape3_spec in Hcls as (_ & HC & Hcl & Hcn & Hcw & _).
  assert (length (flatten3 ((λ item : T2 R, (λ r, sigmoid <$> drop 5 r) <$> item)
                              <$> glued)) / (B * C) = n) as Hdiv.
  { unfold flatten3. rewrite (length_concat_uniform _ C), (length_concat_uniform _ n).
    - rewrite length_fmap, Hgl. replace (B * n * C) with (n * (B * C)) by lia.
      apply Nat.div_mul. lia.
    - apply Forall_fmap. eapply Forall_impl; [exact Hgn|]. simpl. intros item Hitem.
      by rewrite length_fmap.
    - apply Forall_concat, Forall_fmap. eapply Forall_impl; [exact Hgw|]. simpl.
      intros item Hitem. apply Forall_fmap. eapply Forall_impl; [exact Hitem|].
      simpl. intros r Hr. rewrite length_fmap, length_drop. lia. }
  rewrite Hdiv in Hcn.
  split; [|split; [by rewrite length_fmap|done]].
  rewrite Hconf, (dims2_uniform n) by done. by rewrite Hcl.
Qed.
End Aligned.

Lemma cat_dim1_rows {A} (P : A → Prop) (ts : list (list (list A))) (out : list (list A)) :
  Forall (Forall (Forall P)) ts → cat_dim1 ts = Ok out → Forall (Forall P) out.
Proof.
  intros Hts Hcat. apply cat_dim1_spec in Hcat as (t0 & _ & _ & Hlen & Hout).
  apply Forall_lookup. intros b item Hitem.
  assert (b < length t0) as Hb by (rewrite <- Hlen; by eapply lookup_lt_Some).
  rewrite Hout in Hitem by done. simplify_eq.
  apply Forall_concat, Forall_fmap. eapply Forall_impl; [exact Hts|].
  simpl. intros t Ht. destruct (t !! b) as [item|] eqn:Hb'; simpl; [|done].
  by eapply Forall_lookup_1.
Qed.

Section Merged.
Context {R : Type} `{Scalar R}.
Variable sigmoid : R → R.
Variable DeployCfg : Type.
Variable get_post_processing_params : DeployCfg → PostParams R.
Variable is_dynamic_shape : DeployCfg → bool.
Variable grid_anchors : YOLOV3Head R → list (nat * nat) → list (T2 R).
Variable bbox_decode : T3 R → T3 R → Z → T3 R.

Local Abbreviation predict_tail :=
  (yolov3_head__predict_by_feat_tail sigmoid DeployCfg get_post_processing_params
     is_dynamic_shape grid_anchors bbox_decode).

(** X5. In every successful run for a head with [num_attrib = 5 + num_classes],
    the merged class scores and objectness handed to the thresholding stages
    have the same batch and anchor dimensions, the batch dimension is that
    of the first prediction map, and the score rows have [num_classes]
    entries. *)
Theorem merged_candidates_aligned (ctx : DeployCfg) (self : YOLOV3Head R)
    (pred_maps : list (T4 R)) (cfg : option (Cfg R)) (rescale with_nms : bool)
    (t : Tail R) :
  num_attrib self = 5 + num_classes self →
  predict_tail ctx self pred_maps cfg rescale with_nms = Ok t →
  ∃ first cfg' boxes scores conf,
    pred_maps !! 0 = Some first ∧ resolved_cfg self cfg = Some cfg' ∧
    length pred_maps = num_levels self ∧
    dims2 scores = dims2 conf ∧ length conf = length first ∧
    Forall (uniform (num_classes self)) scores ∧
    post_process (get_post_processing_params ctx) self cfg' (length first)
      (cfg_get (cfg_top cfg') "nms_pre" (PInt (-1))) boxes scores conf with_nms = Ok t.
Proof.
  intros Hattrib Hrun. unfold yolov3_head__predict_by_feat_tail in Hrun.
  rewrite firstn_all in Hrun.
  destruct (length pred_maps =? num_levels self) eqn:Hcount; simpl in Hrun; [|done].
  apply Nat.eqb_eq in Hcount.
  unfold index in Hrun. destruct (pred_maps !! 0) as [first|] eqn:Hfirst;
    cbn [rbind] in Hrun; [|done].
  rewrite rbind_Ok in Hrun. fold (resolved_cfg self cfg) in Hrun.
  destruct (resolved_cfg self cfg) as [cfg'|] eqn:Hcfg; cbn [rbind] in Hrun; [|done].
  rewrite rbind_Ok in Hrun. cbv zeta in Hrun.
  bind_ok Hrun levels Hlevels. bind_ok Hrun boxes Hboxes.
  bind_ok Hrun scores Hscores. bind_ok Hrun conf Hconf.
  exists first, cfg', boxes, scores, conf.
  apply rmap_Forall2 in Hlevels.
  assert (Forall (λ l : T3 R * T3 R * T2 R,
            dims2 l.1.2 = dims2 l.2 ∧ length l.2 = length first ∧
            Forall (uniform (num_classes self)) l.1.2) levels) as Hall.
  { apply Forall_forall. intros [[bb cls] cf] Hl.
    apply list_elem_of_lookup in Hl as [j Hj].
    destruct (Forall2_lookup_r _ _ _ _ _ Hlevels Hj) as (i & _ & Hdec).
    simpl. by eapply decode_level_aligned. }
  split; [done|]. split; [done|]. split; [done|]. split; [|split; [|split; [|done]]].
  - eapply cat_dim1_dims; [|exact Hscores|exact Hconf].
    apply Forall2_fmap, Forall_Forall2_diag.
    eapply Forall_impl; [exact Hall|]. by intros l (? & _).
  - apply cat_dim1_spec in Hconf as (t0 & Ht0 & _ & -> & _).
    rewrite list_lookup_fmap in Ht0.
    destruct (levels !! 0) as [l0|] eqn:Hl0; simplify_eq/=.
    by apply (Forall_lookup_1 _ _ _ _ Hall Hl0).
  - eapply cat_dim1_rows; [|exact Hscores]. apply Forall_fmap.
    eapply Forall_impl; [exact Hall|]. by intros l (_ & _ & ?).
Qed.
End Merged.

(** ** Thresholding and fusion, candidate by candidate *)

Section Candidates.
Context {R : Type} `{Scalar R}.


Lemma masked_row_lookup (below : bool) (row : list R) (c : nat) (s : R) :
  row !! c = Some s → masked_row below row !! c = Some (if below then zero else s).
Proof.
  intros Hs. destruct below; simpl; [|done].
  apply lookup_replicate_2. by eapply lookup_lt_Some.
Qed.

Lemma conf_stage_entries (thr : pyval R) (boxes scores : T3 R) (conf : T2 R) b n cf :
  at2 conf b n = Some cf →
  at2 (conf_threshold_stage thr boxes scores conf).2 b n
    = Some (if conf_masked thr cf then zero else cf) ∧
  at2 (conf_threshold_stage thr boxes scores conf).1.2 b n
    = masked_row (conf_masked thr cf) <$> at2 scores b n ∧
  at2 (conf_threshold_stage thr boxes scores conf).1.1 b n
    = masked_row (conf_masked thr cf) <$> at2 boxes b n.
Proof.
  intros Hcf. unfold conf_threshold_stage, conf_masked.
  destruct (py_gt0 thr); simpl.
  - rewrite conf_mask_eq, !rows_mask_eq, at2_fmap, !at2_zip_with, Hcf. simpl.
    split; [by destruct (leb (to_scalar thr) cf)|].
    split; [by destruct (at2 scores b n) | by destruct (at2 boxes b n)].
  - rewrite Hcf. split; [done|].
    split; [by destruct (at2 scores b n) | by destruct (at2 boxes b n)].
Qed.

Lemma conf_stage_dims (thr : pyval R) (boxes scores : T3 R) (conf : T2 R) :
  dims2 scores = dims2 conf → dims2 boxes = dims2 conf →
  dims2 (conf_threshold_stage thr boxes scores conf).2 = dims2 conf ∧
  dims3 (conf_threshold_stage thr boxes scores conf).1.2 = dims3 scores ∧
  dims3 (conf_threshold_stage thr boxes scores conf).1.1 = dims3 boxes.
Proof.
  intros Hs Hb. unfold conf_threshold_stage. destruct (py_gt0 thr); simpl; [|done].
  rewrite conf_mask_eq, !rows_mask_eq.
  split; [apply dims2_fmap|]. split; by apply dims3_rows_mask.
Qed.

Lemma score_stage_entry (thr : pyval R) (scores : T3 R) b n c s :
  at3 scores b n c = Some s →
  at3 (score_threshold_stage thr scores) b n c
    = Some (if score_masked thr s then zero else s).
Proof.
  unfold score_threshold_stage, score_masked. destruct (py_gt0 thr); simpl; [|done].
  rewrite score_mask_eq. unfold at3. rewrite at2_fmap.
  destruct (at2 scores b n) as [row|]; simpl; [|done].
  rewrite list_lookup_fmap. intros ->. simpl.
  by destruct (ltb (to_scalar thr) s).
Qed.

Lemma score_stage_dims (thr : pyval R) (scores : T3 R) :
  dims3 (score_threshold_stage thr scores) = dims3 scores.
Proof.
  unfold score_threshold_stage. destruct (py_gt0 thr); [|done].
  rewrite score_mask_eq. unfold dims3. rewrite <- list_fmap_compose.
  apply list_fmap_ext. intros _ item _. simpl. apply dims2_fmap.
Qed.

Lemma dims3_dims2 {A} (t u : list (list (list A))) :
  dims3 t = dims3 u → dims2 t = dims2 u.
Proof.
  unfold dims3, dims2. intros Hd.
  apply (f_equal (fmap (M := list) length)) in Hd.
  rewrite <- !list_fmap_compose in Hd.
  erewrite list_fmap_ext; [erewrite (list_fmap_ext _ _ u)|]; [exact Hd|..];
    intros _ item _; simpl; by rewrite length_fmap.
Qed.

(** Fusion multiplies every class score of a candidate by its objectness and
    keeps the shape of the scores. *)
Lemma fuse_scores_dims (scores : T3 R) (conf : T2 R) :
  dims2 scores = dims2 conf → dims3 (fuse_scores scores conf) = dims3 scores.
Proof.
  unfold fuse_scores, dims2, dims3. revert conf.
  induction scores as [|sb scores IH]; intros [|cb conf] Hd; simplify_eq/=; [done|].
  f_equal; [|by apply IH].
  clear IH. revert cb H0. induction sb as [|row sb IH]; intros [|c cb] Hl;
    simplify_eq/=; [done|].
  f_equal; [by rewrite length_fmap | by apply IH].
Qed.

Lemma fuse_scores_entry (scores : T3 R) (conf : T2 R) b n c s cf :
  at3 scores b n c = Some s → at2 conf b n = Some cf →
  at3 (fuse_scores scores conf) b n c = Some (mul s cf).
Proof.
  unfold at3, fuse_scores. rewrite at2_zip_with. intros Hs Hcf.
  destruct (at2 scores b n) as [row|]; simpl in *; [|done].
  rewrite Hcf. simpl. by rewrite list_lookup_fmap, Hs.
Qed.

(** X6. Without the top-k stage nothing is removed: a run of the stages after
    merging keeps the shape of boxes and scores, zeroes the box of a masked
    candidate, and gives class [c] of candidate [n] of image [b] the score
    [final_score]. *)
Theorem post_process_without_topk (post : PostParams R) (self : YOLOV3Head R)
    (cfg : Cfg R) (batch_size : nat) (pre_topk : pyval R)
    (boxes scores : T3 R) (conf : T2 R) (with_nms : bool) (t : Tail R) :
  let conf_thr := cfg_get (cfg_top cfg) "conf_thr" (confidence_threshold post) in
  let score_thr := cfg_get (cfg_top cfg) "score_thr" (score_threshold post) in
  py_gt0 pre_topk = false →
  dims2 scores = dims2 conf → dims2 boxes = dims2 conf →
  post_process post self cfg batch_size pre_topk boxes scores conf with_nms = Ok t →
  dims3 (tail_boxes t) = dims3 boxes ∧ dims3 (tail_scores t) = dims3 scores ∧
  ∀ b n cf, at2 conf b n = Some cf →
    at2 (tail_boxes t) b n = masked_row (conf_masked conf_thr cf) <$> at2 boxes b n ∧
    ∀ c s, at3 scores b n c = Some s →
      at3 (tail_scores t) b n c = Some (final_score conf_thr score_thr cf s).
Proof.
  intros conf_thr score_thr Hoff Hs Hb Hrun. unfold post_process in Hrun.
  fold conf_thr score_thr in Hrun. rewrite Hoff, rbind_Ok in Hrun. cbv zeta in Hrun.
  cbn [fst snd] in Hrun.
  set (masked := conf_threshold_stage conf_thr boxes scores conf) in *.
  destruct (conf_stage_dims conf_thr boxes scores conf Hs Hb) as (Hdc & Hds & Hdb).
  fold masked in Hdc, Hds, Hdb.
  set (scores2 := score_threshold_stage score_thr masked.1.2) in *.
  assert (dims3 scores2 = dims3 scores) as Hd2.
  { subst scores2. by rewrite score_stage_dims. }
  assert (tail_boxes t = masked.1.1 ∧ tail_scores t = fuse_scores scores2 masked.2)
    as [Htb Hts].
  { destruct with_nms.
    - destruct (cfg_nms cfg); unfold Ok, Err in Hrun; cbn [rbind] in Hrun; [|done].
      by simplify_eq.
    - unfold Ok in Hrun. by simplify_eq. }
  rewrite Htb, Hts. split; [done|]. split.
  { rewrite fuse_scores_dims; [done|].
    rewrite (dims3_dims2 _ _ Hd2), Hs. done. }
  intros b n cf Hcf.
  destruct (conf_stage_entries conf_thr boxes scores conf b n cf Hcf)
    as (Hec & Hes & Heb).
  fold masked in Hec, Hes, Heb. split; [done|].
  intros c s Hsc. apply fuse_scores_entry; [|done].
  subst scores2. unfold final_score.
  apply score_stage_entry. unfold at3 in *. rewrite Hes.
  destruct (at2 scores b n) as [row|]; simpl in *; [|done].
  by apply masked_row_lookup.
Qed.
End Candidates.

Lemma uniform_dims3 {A} (n : nat) (t : list (list (list A))) :
  uniform n t ↔ Forall (λ d : list nat, length d = n) (dims3 t).
Proof.
  unfold uniform, dims3, dims2. rewrite Forall_fmap. apply Forall_proper; [|done].
  intros item. simpl. by rewrite length_fmap.
Qed.

Lemma rows_dims3 {A} (w : nat) (t : list (list (list A))) :
  Forall (uniform w) t ↔ Forall (Forall (λ x, x = w)) (dims3 t).
Proof.
  unfold uniform, dims3, dims2. rewrite Forall_fmap. apply Forall_proper; [|done].
  intros item. simpl. by rewrite Forall_fmap.
Qed.

Section WithTopK.
Context {R : Type} `{Scalar R}.

(** X7. With a positive pre-NMS top-k limit, a successful run of the stages after
    merging keeps, for each image, twice that many candidates: boxes of
    width 4 and score rows of [num_classes] entries. *)
Theorem post_process_with_topk (post : PostParams R) (self : YOLOV3Head R)
    (cfg : Cfg R) (batch_size : nat) (pre_topk : pyval R)
    (boxes scores : T3 R) (conf : T2 R) (with_nms : bool) (t : Tail R) :
  py_gt0 pre_topk = true →
  post_process post self cfg batch_size pre_topk boxes scores conf with_nms = Ok t →
  ∃ k, as_size pre_topk = Ok k ∧ k ≠ 0 ∧
       length (tail_boxes t) = batch_size ∧ length (tail_scores t) = batch_size ∧
       uniform (2 * k) (tail_boxes t) ∧ uniform (2 * k) (tail_scores t) ∧
       Forall (uniform 4) (tail_boxes t) ∧
       Forall (uniform (num_classes self)) (tail_scores t).
Proof.
  intros Hon Hrun. unfold post_process in Hrun. rewrite Hon in Hrun.
  bind_ok Hrun sel Hsel. destruct sel as [[boxes' scores'] conf'].
  cbv zeta in Hrun. cbn [fst snd] in Hrun.
  apply topk_stage_shape in Hsel
    as (k & Hk & HB & Hbl & Hsl & Hcl & Hbu & Hsu & Hcu & Hbw & Hsw).
  exists k. split; [done|]. split.
  { destruct pre_topk as [z|x]; [|done]. unfold as_size, Ok in Hk. simplify_eq.
    simpl in Hon. apply Z.ltb_lt in Hon. lia. }
  assert (tail_boxes t = boxes' ∧ tail_scores t = fuse_scores scores' conf')
    as [-> ->].
  { destruct with_nms.
    - destruct (cfg_nms cfg); unfold Ok, Err in Hrun; cbn [rbind] in Hrun; [|done].
      by simplify_eq.
    - unfold Ok in Hrun. by simplify_eq. }
  assert (dims3 (fuse_scores scores' conf') = dims3 scores') as Hd.
  { apply fuse_scores_dims.
    rewrite (dims2_uniform (2 * k) scores'), (dims2_uniform (2 * k) conf') by done.
    by rewrite Hsl, Hcl. }
  split; [done|]. split.
  { apply (f_equal length) in Hd. unfold dims3 in Hd.
    rewrite !length_fmap in Hd. by rewrite Hd. }
  split; [done|]. split; [by rewrite uniform_dims3, Hd, <- uniform_dims3|].
  split; [done|]. by rewrite rows_dims3, Hd, <- rows_dims3.
Qed.

End WithTopK.

(** ** Which errors a stage can raise *)


Lemma rbind_raises {A B} (e : error) (m : result A) (f : A → result B) :
  ¬ raises e m → (∀ x, ¬ raises e (f x)) → ¬ raises e (rbind m f).
Proof.
  unfold raises, Err. destruct m as [e'|x]; simpl; [|auto].
  intros He _ Hb. apply He. by simplify_eq.
Qed.

Lemma rmap_raises {A B} (e : error) (f : A → result B) (l : list A) :
  (∀ x, ¬ raises e (f x)) → ¬ raises e (rmap f l).
Proof.
  intros Hf. induction l as [|x l IH]; simpl; [done|].
  apply rbind_raises; [done|]. intros y. apply rbind_raises; [done|]. done.
Qed.

Lemma index_raises {A} (e : error) (l : list A) i :
  e ≠ IndexError → ¬ raises e (index l i).
Proof. unfold index, raises, Err, Ok. destruct (l !! i); naive_solver. Qed.

Lemma reshape_rows_raises {A} (e : error) w (l : list A) :
  e ≠ RuntimeError → ¬ raises e (reshape_rows w l).
Proof. unfold reshape_rows, raises, Err, Ok. repeat case_match; naive_solver. Qed.

Lemma reshape3_raises {A} (e : error) b w (l : list A) :
  e ≠ RuntimeError → ¬ raises e (reshape3 b w l).
Proof. unfold reshape3, raises, Err, Ok. repeat case_match; naive_solver. Qed.

Lemma regroup_batch_raises {A} (e : error) b (l : list A) :
  e ≠ RuntimeError → ¬ raises e (regroup_batch b l).
Proof. unfold regroup_batch, raises, Err, Ok. repeat case_match; naive_solver. Qed.

Lemma cat_dim1_raises {A} (e : error) (ts : list (list (list A))) :
  e ≠ RuntimeError → ¬ raises e (cat_dim1 ts).
Proof. unfold cat_dim1, raises, Err, Ok. repeat case_match; naive_solver. Qed.

Create HintDb raises.
#[export] Hint Resolve index_raises reshape_rows_raises reshape3_raises
  regroup_batch_raises cat_dim1_raises : raises.

Ltac no_raise :=
  repeat first
    [ solve [eauto with raises]
    | done
    | apply rbind_raises; [| intros ?]
    | apply rmap_raises; intros ? ].

Section Raises.
Context {R : Type} `{Scalar R}.

Lemma topk_raises (e : error) k (xs : list R) :
  e ≠ RuntimeError → ¬ raises e (topk k xs).
Proof. unfold topk, raises, Err, Ok. case_match; naive_solver. Qed.

Lemma as_size_raises (e : error) (v : pyval R) :
  e ≠ TypeError → ¬ raises e (as_size v).
Proof. unfold as_size, raises, Err, Ok. destruct v; naive_solver. Qed.

Lemma topk_stage_raises (e : error) self b k (boxes scores : T3 R) (conf : T2 R) :
  e ≠ TypeError → e ≠ RuntimeError → e ≠ IndexError →
  ¬ raises e (topk_stage self b k boxes scores conf).
Proof.
  intros Ht Hr Hi. unfold topk_stage, gather.
  pose proof (topk_raises e). pose proof (as_size_raises e). no_raise.
Qed.

(** X8. On candidates of matching dimensions, the stages after merging raise
    nothing but the TypeError of a top-k
    limit that is not an integer, the RuntimeError of a reshape or of topk,
    the IndexError of the gather and, with NMS only, the AttributeError of a
    configuration without [nms]. *)
Theorem post_process_errors (post : PostParams R) (self : YOLOV3Head R)
    (cfg : Cfg R) (batch_size : nat) (pre_topk : pyval R)
    (boxes scores : T3 R) (conf : T2 R) (with_nms : bool) (e : error) :
  dims2 scores = dims2 conf → dims2 boxes = dims2 conf →
  post_process post self cfg batch_size pre_topk boxes scores conf with_nms = Err e →
  (e = TypeError ∨ e = RuntimeError ∨ e = IndexError ∨
   e = AttributeError ∧ with_nms = true ∧ cfg_nms cfg = None) ∧
  (py_gt0 pre_topk = false → e = AttributeError).
Proof.
  intros _ _ Hrun. split.
  - assert (e = AttributeError ∨ e = LevelCountAssertion ∨ e = ValueError →
            e = AttributeError ∧ with_nms = true ∧ cfg_nms cfg = None) as Hrest.
    { intros Hcase. unfold post_process in Hrun.
      destruct (if py_gt0 pre_topk then _ else _) as [e'|sel] eqn:Hsel;
        cbn [rbind] in Hrun.
      - exfalso. unfold Err in Hrun. simplify_eq.
        destruct (py_gt0 pre_topk); [|done].
        apply (topk_stage_raises e self batch_size pre_topk
                  (conf_threshold_stage
                     (cfg_get (cfg_top cfg) "conf_thr" (confidence_threshold post))
                     boxes scores conf).1.1
                  (score_threshold_stage
                     (cfg_get (cfg_top cfg) "score_thr" (score_threshold post))
                     (conf_threshold_stage
                        (cfg_get (cfg_top cfg) "conf_thr" (confidence_threshold post))
                        boxes scores conf).1.2)
                  (conf_threshold_stage
                     (cfg_get (cfg_top cfg) "conf_thr" (confidence_threshold post))
                     boxes scores conf).2); [..|done];
          intros ->; destruct Hcase as [?|[?|?]]; discriminate.
      - destruct with_nms; [|done].
        destruct (cfg_nms cfg); unfold Ok, Err in Hrun; cbn [rbind] in Hrun; [done|].
        by simplify_eq. }
    destruct e; [right; right; right; apply Hrest; by right; left
               |by right; right; left
               |right; right; right; apply Hrest; by left
               |by left
               |right; right; right; apply Hrest; by right; right
               |by right; left].
  - intros Hoff. unfold post_process in Hrun. rewrite Hoff, rbind_Ok in Hrun.
    destruct with_nms; [|done].
    destruct (cfg_nms cfg); unfold Ok, Err in Hrun; cbn [rbind] in Hrun; [done|].
    by simplify_eq.
Qed.

End Raises.

(** ** The rewriter as a whole *)

Section Whole.
Context {R : Type} `{Scalar R}.
Variable sigmoid : R → R.
Variable DeployCfg : Type.
Variable get_post_processing_params : DeployCfg → PostParams R.
Variable is_dynamic_shape : DeployCfg → bool.
Variable grid_anchors : YOLOV3Head R → list (nat * nat) → list (T2 R).
Variable bbox_decode : T3 R → T3 R → Z → T3 R.
Variable NmsOut : Type.
Variable multiclass_nms : NmsCall R → NmsOut.

Local Abbreviation predict_tail :=
  (yolov3_head__predict_by_feat_tail sigmoid DeployCfg get_post_processing_params
     is_dynamic_shape grid_anchors bbox_decode).
Local Abbreviation predict :=
  (yolov3_head__predict_by_feat sigmoid DeployCfg get_post_processing_params
     is_dynamic_shape grid_anchors bbox_decode NmsOut multiclass_nms).

Lemma decode_level_raises (e : error) self dyn b anchors maps i :
  e ≠ IndexError → e ≠ RuntimeError →
  ¬ raises e (decode_level sigmoid bbox_decode self dyn b anchors maps i).
Proof.
  intros Hi Hr. unfold decode_level.
  apply rbind_raises; [by apply index_raises|intros ?].
  apply rbind_raises; [by apply index_raises|intros ?].
  apply rbind_raises; [by apply reshape3_raises|intros ?].
  apply rbind_raises; [by apply index_raises|intros ?].
  cbv zeta. case_match; [unfold raises, Err; congruence|].
  apply rbind_raises; [by apply reshape3_raises|intros ?]. done.
Qed.

(** A run whose arguments pass the first two checks. *)
Lemma predict_tail_unfold ctx self pred_maps cfg rescale first w :
  length pred_maps = num_levels self → pred_maps !! 0 = Some first →
  predict_tail ctx self pred_maps cfg rescale w
  = let* c := match resolved_cfg self cfg with
              | Some c => Ok c | None => Err AttributeError end in
    let* levels :=
      rmap (decode_level sigmoid bbox_decode self (is_dynamic_shape ctx)
              (length first)
              (grid_anchors self (featmap_size <$> pred_maps)) pred_maps)
           (seq 0 (num_levels self)) in
    let* boxes := cat_dim1 ((λ l : T3 R * T3 R * T2 R, l.1.1) <$> levels) in
    let* scores := cat_dim1 ((λ l : T3 R * T3 R * T2 R, l.1.2) <$> levels) in
    let* conf := cat_dim1 ((λ l : T3 R * T3 R * T2 R, l.2) <$> levels) in
    post_process (get_post_processing_params ctx) self c (length first)
      (cfg_get (cfg_top c) "nms_pre" (PInt (-1))) boxes scores conf w.
Proof.
  intros Heq Hfirst. unfold yolov3_head__predict_by_feat_tail, index.
  apply Nat.eqb_eq in Heq as Hcount.
  rewrite firstn_all, Hcount, Hfirst. cbn [negb].
  replace (take (num_levels self) pred_maps) with pred_maps
    by (rewrite <- Heq; by rewrite firstn_all).
  done.
Qed.

(** Where a run stands once the arguments are checked: it has stopped on an
    error that does not depend on [with_nms], or it is in the stages after
    merging. *)
Lemma predict_tail_cases ctx self pred_maps cfg rescale :
  (length pred_maps ≠ num_levels self ∧
   ∀ w, predict_tail ctx self pred_maps cfg rescale w = Err LevelCountAssertion) ∨
  (length pred_maps = num_levels self ∧ pred_maps = [] ∧
   ∀ w, predict_tail ctx self pred_maps cfg rescale w = Err IndexError) ∨
  (∃ first, length pred_maps = num_levels self ∧ pred_maps !! 0 = Some first ∧
     ((resolved_cfg self cfg = None ∧
       ∀ w, predict_tail ctx self pred_maps cfg rescale w = Err AttributeError) ∨
      (∃ c, resolved_cfg self cfg = Some c ∧
         ((∃ e, (e = IndexError ∨ e = RuntimeError) ∧
                ∀ w, predict_tail ctx self pred_maps cfg rescale w = Err e) ∨
          (∃ boxes scores conf,
             ∀ w, predict_tail ctx self pred_maps cfg rescale w
                  = post_process (get_post_processing_params ctx) self c (length first)
                      (cfg_get (cfg_top c) "nms_pre" (PInt (-1)))
                      boxes scores conf w))))).
Proof.
  destruct (length pred_maps =? num_levels self) eqn:Hcount.
  2: { left. split; [by apply Nat.eqb_neq in Hcount|]. intros w.
       unfold yolov3_head__predict_by_feat_tail. by rewrite firstn_all, Hcount. }
  right. destruct (pred_maps !! 0) as [first|] eqn:Hfirst.
  2: { left. apply Nat.eqb_eq in Hcount as Heq. split; [done|].
       split; [by destruct pred_maps|]. intros w.
       unfold yolov3_head__predict_by_feat_tail, index.
       by rewrite firstn_all, Hcount, Hfirst. }
  right. exists first. apply Nat.eqb_eq in Hcount as Heq.
  split; [done|]. split; [done|].
  pose proof (λ w, predict_tail_unfold ctx self pred_maps cfg rescale first w Heq Hfirst)
    as Hrun.
  destruct (resolved_cfg self cfg) as [c|]; [|left; split; [done|]; intros w; by rewrite Hrun].
  right. exists c. split; [done|]. unfold Ok at 1 in Hrun. cbn [rbind] in Hrun.
  destruct (rmap (decode_level sigmoid bbox_decode self (is_dynamic_shape ctx)
                    (length first)
                    (grid_anchors self (featmap_size <$> pred_maps)) pred_maps)
              (seq 0 (num_levels self))) as [e|levels] eqn:Hdec.
  { left. exists e. split; [|intros w; by rewrite Hrun].
    destruct e; try (by left); try (by right); exfalso.
    all: refine (rmap_raises _ _ _ _ Hdec); intros i; by apply decode_level_raises. }
  cbn [rbind] in Hrun.
  destruct (cat_dim1 ((λ l : T3 R * T3 R * T2 R, l.1.1) <$> levels))
    as [e|boxes] eqn:Hcb.
  { left. exists e. split; [|intros w; by rewrite Hrun].
    destruct e; try (by left); try (by right); exfalso.
    all: by refine (cat_dim1_raises _ _ _ Hcb). }
  cbn [rbind] in Hrun.
  destruct (cat_dim1 ((λ l : T3 R * T3 R * T2 R, l.1.2) <$> levels))
    as [e|scores] eqn:Hcs.
  { left. exists e. split; [|intros w; by rewrite Hrun].
    destruct e; try (by left); try (by right); exfalso.
    all: by refine (cat_dim1_raises _ _ _ Hcs). }
  cbn [rbind] in Hrun.
  destruct (cat_dim1 ((λ l : T3 R * T3 R * T2 R, l.2) <$> levels))
    as [e|conf] eqn:Hcc.
  { left. exists e. split; [|intros w; by rewrite Hrun].
    destruct e; try (by left); try (by right); exfalso.
    all: by refine (cat_dim1_raises _ _ _ Hcc). }
  right. exists boxes, scores, conf. intros w. by rewrite Hrun.
Qed.

(** What [with_nms] changes in the stages after merging. *)
Lemma post_process_nms_split (post : PostParams R) (self : YOLOV3Head R) (c : Cfg R)
    (b : nat) (k : pyval R) (boxes scores : T3 R) (conf : T2 R) :
  (∃ e, e ≠ AttributeError ∧ ∀ w, post_process post self c b k boxes scores conf w = Err e) ∨
  (∃ bx sc,
     post_process post self c b k boxes scores conf false = Ok (ReturnPair bx sc) ∧
     match cfg_nms c with
     | None => post_process post self c b k boxes scores conf true = Err AttributeError
     | Some nms =>
         ∃ call, post_process post self c b k boxes scores conf true = Ok (CallNms call) ∧
                 nms_boxes call = bx ∧ nms_scores call = sc
     end).
Proof.
  unfold post_process.
  destruct (if py_gt0 k then _ else _) as [e|sel] eqn:Hsel; cbn [rbind].
  - left. exists e. split; [|done]. intros ->.
    destruct (py_gt0 k); [|done].
    by eapply topk_stage_raises; [| | |exact Hsel].
  - right. eexists _, _. split; [done|].
    destruct (cfg_nms c); unfold Ok, Err; cbn [rbind]; [|done].
    eexists. split; [done|]. done.
Qed.

(** X9. The three checks the rewriter makes before it decodes anything, in the
    order it makes them: the number of prediction maps against the number of
    levels; the first map, which does not exist when the head has no level;
    the configuration, which is missing when neither the call nor the head
    has one.  None of them looks at the contents of the maps. *)
Theorem predict_argument_checks (ctx : DeployCfg) (self : YOLOV3Head R)
    (pred_maps : list (T4 R)) (cfg : option (Cfg R)) (rescale with_nms : bool) :
  (length pred_maps ≠ num_levels self →
   predict ctx self pred_maps cfg rescale with_nms = Err LevelCountAssertion) ∧
  (length pred_maps = num_levels self → pred_maps = [] →
   predict ctx self pred_maps cfg rescale with_nms = Err IndexError) ∧
  (length pred_maps = num_levels self → pred_maps ≠ [] →
   cfg = None → test_cfg self = None →
   predict ctx self pred_maps cfg rescale with_nms = Err AttributeError).
Proof.
  unfold yolov3_head__predict_by_feat.
  destruct (predict_tail_cases ctx self pred_maps cfg rescale)
    as [[Hne Hrun]|[(Heq & Hnil & Hrun)|(first & Heq & Hfirst & Hrest)]].
  - rewrite Hrun. split; [done|]. split; intros; done.
  - rewrite Hrun. split; [done|]. split; [done|]. done.
  - split; [done|]. split; [by intros _ ->|].
    intros _ _ -> Htest.
    destruct Hrest as [[_ Hrun]|(c & Hc & _)]; [by rewrite Hrun|].
    simpl in Hc. by rewrite Htest in Hc.
Qed.

(** X10. [with_nms] decides only what is done with the filtered candidates.  A
    run that fails without NMS fails the same way with it; a run that
    returns the pair (boxes, scores) without NMS hands exactly this pair to
    [multiclass_nms] with it, and returns what that call returns, unless the
    configuration has no [nms] entry; and every successful run with NMS is
    of this kind. *)
Theorem nms_receives_filtered_pair (ctx : DeployCfg) (self : YOLOV3Head R)
    (pred_maps : list (T4 R)) (cfg : option (Cfg R)) (rescale : bool) :
  (∀ e, predict ctx self pred_maps cfg rescale false = Err e →
        predict ctx self pred_maps cfg rescale true = Err e) ∧
  (∀ boxes scores,
     predict ctx self pred_maps cfg rescale false = Ok (Filtered boxes scores) →
     (∃ call, predict ctx self pred_maps cfg rescale true
                = Ok (Detections (multiclass_nms call)) ∧
              nms_boxes call = boxes ∧ nms_scores call = scores) ∨
     (predict ctx self pred_maps cfg rescale true = Err AttributeError ∧
      ∃ c, resolved_cfg self cfg = Some c ∧ cfg_nms c = None)) ∧
  (∀ out, predict ctx self pred_maps cfg rescale true = Ok out →
     ∃ boxes scores call,
       predict ctx self pred_maps cfg rescale false = Ok (Filtered boxes scores) ∧
       out = Detections (multiclass_nms call) ∧
       nms_boxes call = boxes ∧ nms_scores call = scores).
Proof.
  unfold yolov3_head__predict_by_feat.
  destruct (predict_tail_cases ctx self pred_maps cfg rescale)
    as [[_ Hrun]|[(_ & _ & Hrun)|(first & _ & _ &
         [[_ Hrun]|(c & Hc & [(e & _ & Hrun)|(boxes & scores & conf & Hrun)])])]].
  1-4: by (rewrite !Hrun; unfold Err, Ok; cbn [rbind];
           split; [done|]; split; intros; done).
  rewrite !Hrun.
  destruct (post_process_nms_split (get_post_processing_params ctx) self c (length first)
              (cfg_get (cfg_top c) "nms_pre" (PInt (-1))) boxes scores conf)
    as [(e & _ & Hpp)|(bx & sc & Hfalse & Htrue)].
  { rewrite !Hpp. unfold Err, Ok. cbn [rbind]. split; [done|]. split; intros; done. }
  rewrite Hfalse. destruct (cfg_nms c) as [nms|] eqn:Hnms.
  - destruct Htrue as (call & -> & Hb & Hs). unfold Ok, Err. cbn [rbind].
    split; [done|]. split.
    + intros boxes' scores' Heq. simplify_eq. left. by exists call.
    + intros out Heq. simplify_eq. by exists (nms_boxes call), (nms_scores call), call.
  - rewrite Htrue. unfold Ok, Err. cbn [rbind].
    split; [done|]. split; [|done].
    intros boxes' scores' Heq. simplify_eq. right. split; [done|]. by exists c.
Qed.

(** X11. What a successful run shows about its arguments: there is at least one
    prediction map and one per level, the first map holds at least one image,
    a configuration is at hand, the head has at least one class and five
    attributes per anchor, and a stride and a level of priors exist for every
    level. *)
Theorem predict_success_requirements (ctx : DeployCfg) (self : YOLOV3Head R)
    (pred_maps : list (T4 R)) (cfg : option (Cfg R)) (rescale with_nms : bool)
    (out : Output R NmsOut) :
  predict ctx self pred_maps cfg rescale with_nms = Ok out →
  ∃ first c,
    pred_maps !! 0 = Some first ∧ first ≠ [] ∧
    length pred_maps = num_levels self ∧
    resolved_cfg self cfg = Some c ∧
    (with_nms = true → is_Some (cfg_nms c)) ∧
    5 ≤ num_attrib self ∧ 1 ≤ num_classes self ∧
    num_levels self ≤ length (featmap_strides self) ∧
    num_levels self ≤ length (grid_anchors self (featmap_size <$> pred_maps)).
Proof.
  intros Hrun. unfold yolov3_head__predict_by_feat in Hrun.
  bind_ok Hrun t Ht. clear Hrun.
  assert (with_nms = true → ∃ c, resolved_cfg self cfg = Some c ∧ is_Some (cfg_nms c))
    as Hnms.
  { intros ->.
    destruct (predict_tail_cases ctx self pred_maps cfg rescale)
      as [[_ Hrun]|[(_ & _ & Hrun)|(first & _ & _ &
           [[_ Hrun]|(c & Hc & [(e & _ & Hrun)|(boxes & scores & conf & Hrun)])])]];
      rewrite Hrun in Ht; try done.
    exists c. split; [done|].
    destruct (post_process_nms_split (get_post_processing_params ctx) self c
                (length first) (cfg_get (cfg_top c) "nms_pre" (PInt (-1)))
                boxes scores conf) as [(e & _ & Hpp)|(bx & sc & _ & Htrue)].
    - by rewrite Hpp in Ht.
    - destruct (cfg_nms c); [done|]. by rewrite Htrue in Ht. }
  unfold yolov3_head__predict_by_feat_tail in Ht. rewrite firstn_all in Ht.
  destruct (length pred_maps =? num_levels self) eqn:Hcount; simpl in Ht; [|done].
  apply Nat.eqb_eq in Hcount.
  unfold index in Ht. destruct (pred_maps !! 0) as [first|] eqn:Hfirst;
    cbn [rbind] in Ht; [|done].
  rewrite rbind_Ok in Ht. fold (resolved_cfg self cfg) in Ht.
  destruct (resolved_cfg self cfg) as [c|] eqn:Hcfg; cbn [rbind] in Ht; [|done].
  rewrite rbind_Ok in Ht. cbv zeta in Ht.
  bind_ok Ht levels Hlevels. clear Ht.
  exists first, c. apply rmap_Forall2 in Hlevels.
  assert (0 < num_levels self) as Hpos.
  { rewrite <- Hcount. by destruct pred_maps; [|simpl; lia]. }
  rewrite <- Hcount, firstn_all in Hlevels.
  assert (∀ i, i < num_levels self →
            ∃ l, decode_level sigmoid bbox_decode self (is_dynamic_shape ctx)
                   (length first) (grid_anchors self (featmap_size <$> pred_maps))
                   pred_maps i = Ok l) as Hdec.
  { intros i Hi.
    destruct (Forall2_lookup_l _ _ _ i i Hlevels) as (l & _ & Hl).
    - apply lookup_seq. rewrite Hcount. lia.
    - by exists l. }
  assert (∀ i, i < num_levels self →
            i < length (featmap_strides self) ∧
            i < length (grid_anchors self (featmap_size <$> pred_maps))) as Hin.
  { intros i Hi. destruct (Hdec i Hi) as (l & Hl). unfold decode_level, index in Hl.
    destruct (pred_maps !! i); cbn [rbind] in Hl; [|done].
    destruct (featmap_strides self !! i) eqn:Hs; cbn [rbind] in Hl; [|done].
    apply lookup_lt_Some in Hs. split; [done|].
    rewrite !rbind_Ok in Hl. bind_ok Hl rows Hrows. cbv zeta in Hl.
    destruct (grid_anchors self (featmap_size <$> pred_maps) !! i) eqn:Ha;
      cbn [rbind] in Hl; [|done].
    by apply lookup_lt_Some in Ha. }
  destruct (Hdec 0 Hpos) as (l & Hl). unfold decode_level in Hl.
  bind_ok Hl m Hm. bind_ok Hl s Hs. bind_ok Hl rows Hrows. cbv zeta in Hl.
  bind_ok Hl a Ha.
  destruct (num_attrib self <=? 4) eqn:Hfour; [done|]. apply Nat.leb_gt in Hfour.
  bind_ok Hl cls Hcls.
  apply reshape3_spec in Hrows as (HB & _). apply reshape3_spec in Hcls as (_ & HC & _).
  split; [done|]. split; [by destruct first|]. split; [done|]. split; [done|].
  split.
  { intros Hw. destruct (Hnms Hw) as (c' & Hc' & ?). by simplify_eq. }
  split; [lia|]. split; [lia|].
  split.
  - destruct (Hin (num_levels self - 1)); lia.
  - destruct (Hin (num_levels self - 1)); lia.
Qed.
End Whole.

(** ** The fused path: what is marshalled, and when *)

Section NcnnCall.
Context {R : Type} `{Scalar R}.
Variable DeployCfg : Type.
Variable get_post_processing_params : DeployCfg → PostParams R.
Variable Gen : Type.
Variable rand : Gen → R * Gen.

Local Abbreviation op_call :=
  (ncnn_op_call DeployCfg get_post_processing_params).
Local Abbreviation predict_ncnn :=
  (yolov3_head__predict_by_feat__ncnn DeployCfg get_post_processing_params Gen rand).

Lemma flatten_base_sizes_ok (bs : list (list (Z * Z))) (l0 : list (Z * Z)) :
  bs !! 0 = Some l0 → Forall (λ l, length l = length l0) bs →
  flatten_base_sizes bs
  = Ok (concat ((λ l : list (Z * Z), concat ((λ wh : Z * Z, [wh.1; wh.2]) <$> l)) <$> bs)).
Proof.
  intros H0 Hreg. unfold flatten_base_sizes. destruct bs as [|l0' bs]; [done|].
  simplify_eq/=. rewrite Nat.eqb_refl. simpl.
  assert (forallb (λ l : list (Z * Z), length l =? length l0) bs = true) as ->; [|done].
  apply forallb_forall. intros l Hl. apply Nat.eqb_eq.
  apply Forall_cons in Hreg as [_ Hreg].
  by apply (proj1 (Forall_forall _ _) Hreg), list_elem_of_In.
Qed.

Lemma flatten_base_sizes_inv (bs : list (list (Z * Z))) (out : list Z) :
  flatten_base_sizes bs = Ok out →
  out = concat ((λ l : list (Z * Z), concat ((λ wh : Z * Z, [wh.1; wh.2]) <$> l)) <$> bs).
Proof.
  unfold flatten_base_sizes, Ok, Err. destruct bs as [|l0 bs]; [by intros [= <-]|].
  case_match; [|done]. by intros [= <-].
Qed.

Lemma pair_list_lookup (l : list (Z * Z)) (j : nat) (wh : Z * Z) :
  l !! j = Some wh →
  concat ((λ wh : Z * Z, [wh.1; wh.2]) <$> l) !! (2 * j) = Some wh.1 ∧
  concat ((λ wh : Z * Z, [wh.1; wh.2]) <$> l) !! (2 * j + 1) = Some wh.2.
Proof.
  intros Hj.
  assert (Forall (λ item : list Z, length item = 2) ((λ wh : Z * Z, [wh.1; wh.2]) <$> l))
    as Hpairs by (apply Forall_fmap, Forall_forall; by intros).
  split.
  - replace (2 * j) with (2 * j + 0) by lia.
    rewrite (linear_offset_lookup _ 2 j 0 Hpairs) by lia.
    by rewrite list_lookup_fmap, Hj.
  - rewrite (linear_offset_lookup _ 2 j 1 Hpairs) by lia.
    by rewrite list_lookup_fmap, Hj.
Qed.

(** X12. The fused path returns a tensor exactly when a configuration with an
    [nms] entry is at hand and the head's base sizes have at least one
    level and the same number of boxes on every level.  Neither the number
    nor the contents of the prediction maps, nor [with_nms], play a part:
    there is no level-count check on this path. *)
Theorem ncnn_runs_iff (ctx : DeployCfg) (self : YOLOV3Head R)
    (pred_maps : list (T4 R)) (with_nms : bool) (cfg : option (Cfg R)) (g : Gen) :
  (∃ out g', predict_ncnn ctx self pred_maps with_nms cfg g = (Ok out, g'))
  ↔ ∃ c nms l0,
      resolved_cfg self cfg = Some c ∧ cfg_nms c = Some nms ∧
      base_sizes self !! 0 = Some l0 ∧
      Forall (λ l, length l = length l0) (base_sizes self).
Proof.
  unfold yolov3_head__predict_by_feat__ncnn, ncnn_op_call.
  fold (resolved_cfg self cfg). split.
  - intros (out & g' & Hrun).
    destruct (resolved_cfg self cfg) as [c|] eqn:Hc; cbn [rbind] in Hrun; [|done].
    rewrite rbind_Ok in Hrun.
    destruct (cfg_nms c) as [nms|] eqn:Hnms; cbn [rbind] in Hrun; [|done].
    rewrite rbind_Ok in Hrun.
    destruct (flatten_base_sizes (base_sizes self)) as [e|biases] eqn:Hflat;
      cbn [rbind] in Hrun; [done|].
    unfold index in Hrun.
    destruct (base_sizes self !! 0) as [l0|] eqn:H0; cbn [rbind] in Hrun; [|done].
    exists c, nms, l0. split; [done|]. split; [done|]. split; [done|].
    by eapply flatten_base_sizes_regular.
  - intros (c & nms & l0 & -> & Hnms & H0 & Hreg).
    rewrite rbind_Ok, Hnms, rbind_Ok, (flatten_base_sizes_ok _ l0 H0 Hreg), rbind_Ok.
    unfold index. rewrite H0, rbind_Ok. unfold Ok.
    unfold Yolov3DetectionOutputOp_forward.
    destruct (torch_rand Gen rand 100 6 g) as [out g']. by exists out, g'.
Qed.

(** X13. How the fused path fails: with AttributeError exactly when the
    configuration or its [nms] entry is missing, and never on the level-count
    assertion of the generic pipeline; a failed call makes no draw from the
    random generator, and fails in the same way for any other prediction
    maps and value of [with_nms]. *)
Theorem ncnn_failure_modes (ctx : DeployCfg) (self : YOLOV3Head R)
    (pred_maps : list (T4 R)) (with_nms : bool) (cfg : option (Cfg R)) (g g' : Gen)
    (e : error) :
  predict_ncnn ctx self pred_maps with_nms cfg g = (Err e, g') →
  g' = g ∧ e ≠ LevelCountAssertion ∧
  (e = AttributeError ↔
     resolved_cfg self cfg = None ∨
     ∃ c, resolved_cfg self cfg = Some c ∧ cfg_nms c = None) ∧
  ∀ pred_maps2 with_nms2 g2,
    predict_ncnn ctx self pred_maps2 with_nms2 cfg g2 = (Err e, g2).
Proof.
  unfold yolov3_head__predict_by_feat__ncnn, ncnn_op_call.
  fold (resolved_cfg self cfg). unfold Yolov3DetectionOutputOp_forward.
  intros Hrun. unfold index, Ok, Err in *.
  destruct (resolved_cfg self cfg) as [c|]; cbn [rbind] in *.
  2: { simplify_eq. split; [done|]. split; [done|].
       split; [|done]. split; [by left|done]. }
  destruct (cfg_nms c) as [nms|] eqn:Hnms; cbn [rbind] in *.
  2: { simplify_eq. split; [done|]. split; [done|].
       split; [|done]. split; [|done]. intros _. right. by exists c. }
  destruct (flatten_base_sizes (base_sizes self)) as [e'|biases] eqn:Hflat;
    cbn [rbind] in *.
  { assert (e' = ValueError) as ->.
    { unfold flatten_base_sizes, Ok, Err in Hflat. repeat case_match; by simplify_eq. }
    simplify_eq. split; [done|]. split; [done|].
    split; [|done]. split; [done|]. intros [?|(c' & ? & ?)]; simplify_eq. }
  destruct (base_sizes self !! 0) as [l0|] eqn:H0; cbn [rbind] in *.
  { destruct (torch_rand Gen rand 100 6 g). done. }
  simplify_eq. split; [done|]. split; [done|].
  split; [|done]. split; [done|]. intros [?|(c' & ? & ?)]; simplify_eq.
Qed.

(** X14. What the operator call carries besides the biases and the mask: the
    prediction maps as they came, the head's number of classes and strides,
    the confidence threshold [cfg.conf_thr] and the NMS threshold
    [cfg.nms.iou_threshold], each with the deployment value as fallback.
    The score threshold, [max_per_img] and [nms_pre] are not passed on. *)
Theorem ncnn_thresholds_and_inputs (ctx : DeployCfg) (self : YOLOV3Head R)
    (pred_maps : list (T4 R)) (with_nms : bool) (cfg : option (Cfg R))
    (call : OpCall) :
  op_call ctx self pred_maps with_nms cfg = Ok call →
  op_inputs call = pred_maps ∧
  op_num_class call = num_classes self ∧
  op_anchors_scale call = featmap_strides self ∧
  ∃ c nms,
    resolved_cfg self cfg = Some c ∧ cfg_nms c = Some nms ∧
    op_confidence_threshold call
      = default (confidence_threshold (get_post_processing_params ctx))
          (cfg_top c !! "conf_thr") ∧
    op_nms_threshold call
      = default (iou_threshold (get_post_processing_params ctx))
          (nms !! "iou_threshold") ∧
    ∀ top' pred_maps2 with_nms2,
      top' !! "conf_thr" = cfg_top c !! "conf_thr" →
      ∃ call2,
        op_call ctx self pred_maps2 with_nms2
          (Some {| cfg_top := top'; cfg_nms := Some nms |}) = Ok call2 ∧
        op_confidence_threshold call2 = op_confidence_threshold call ∧
        op_nms_threshold call2 = op_nms_threshold call ∧
        op_biases call2 = op_biases call ∧
        op_num_box call2 = op_num_box call.
Proof.
  unfold ncnn_op_call. fold (resolved_cfg self cfg). intros Hrun.
  destruct (resolved_cfg self cfg) as [c|]; cbn [rbind] in Hrun; [|done].
  rewrite rbind_Ok in Hrun.
  destruct (cfg_nms c) as [nms|] eqn:Hnms; cbn [rbind] in Hrun; [|done].
  rewrite rbind_Ok in Hrun.
  bind_ok Hrun biases Hflat. bind_ok Hrun l0 H0.
  unfold Ok in Hrun. simplify_eq. cbn.
  split; [done|]. split; [done|]. split; [done|].
  exists c, nms. split; [done|]. split; [done|]. split; [done|]. split; [done|].
  intros top' maps2 w2 Htop. eexists. split; [done|]. cbn.
  unfold cfg_get. by rewrite Htop.
Qed.

(** X15. The anchor biases list the base sizes level by level and box by box,
    width before height: box [j] of level [l] sits at the offsets
    [2 * (l * num_box + j)] and [2 * (l * num_box + j) + 1], and the mask
    holds its number [l * num_box + j] at that position when there is a
    prediction map for the level. *)
Theorem ncnn_biases_layout (ctx : DeployCfg) (self : YOLOV3Head R)
    (pred_maps : list (T4 R)) (with_nms : bool) (cfg : option (Cfg R))
    (call : OpCall) (l j : nat) (level : list (Z * Z)) (wh : Z * Z) :
  op_call ctx self pred_maps with_nms cfg = Ok call →
  base_sizes self !! l = Some level → level !! j = Some wh →
  let n := l * op_num_box call + j in
  j < op_num_box call ∧
  op_biases call !! (2 * n) = Some wh.1 ∧
  op_biases call !! (2 * n + 1) = Some wh.2 ∧
  (l < length pred_maps → op_mask call !! n = Some n).
Proof.
  unfold ncnn_op_call. fold (resolved_cfg self cfg). intros Hrun Hl Hj.
  destruct (resolved_cfg self cfg) as [c|]; cbn [rbind] in Hrun; [|done].
  rewrite rbind_Ok in Hrun.
  destruct (cfg_nms c) as [nms|]; cbn [rbind] in Hrun; [|done].
  rewrite rbind_Ok in Hrun.
  bind_ok Hrun biases Hflat. unfold index in Hrun.
  destruct (base_sizes self !! 0) as [l0|] eqn:H0; cbn [rbind] in Hrun; [|done].
  unfold Ok in Hrun. cbn [rbind] in Hrun. simplify_eq.
  cbv zeta. cbn [op_num_box op_biases op_mask].
  pose proof (flatten_base_sizes_regular _ _ _ Hflat H0) as Hreg.
  apply flatten_base_sizes_inv in Hflat as ->.
  assert (length level = length l0) as Hlevel
    by apply (Forall_lookup_1 _ _ _ _ Hreg Hl).
  assert (j < length l0) as Hjlt by (rewrite <- Hlevel; by eapply lookup_lt_Some).
  assert (Forall (λ item : list Z, length item = 2 * length l0)
            ((λ l : list (Z * Z), concat ((λ wh : Z * Z, [wh.1; wh.2]) <$> l))
               <$> base_sizes self)) as Hflat.
  { apply Forall_fmap. eapply Forall_impl; [exact Hreg|]. simpl. intros lv Hlv.
    rewrite (length_concat_uniform _ 2), length_fmap; [lia|].
    apply Forall_fmap, Forall_forall. by intros. }
  destruct (pair_list_lookup _ _ _ Hj) as [Hw Hh].
  split; [done|]. split; [|split].
  - replace (2 * (l * length l0 + j)) with (2 * length l0 * l + 2 * j) by lia.
    rewrite (linear_offset_lookup _ _ _ _ Hflat) by lia.
    by rewrite list_lookup_fmap, Hl.
  - replace (2 * (l * length l0 + j) + 1) with (2 * length l0 * l + (2 * j + 1)) by lia.
    rewrite (linear_offset_lookup _ _ _ _ Hflat) by lia.
    by rewrite list_lookup_fmap, Hl.
  - intros Hmaps. apply lookup_seq. split; [done|]. nia.
Qed.
End NcnnCall.

(** ** The exported node *)

Section SymbolicProps.
Context {R : Type} `{Scalar R}.
Variable DeployCfg : Type.
Variable get_post_processing_params : DeployCfg → PostParams R.

Lemma neg_index_app (pre suf : list (Arg R)) (i : nat) (a : Arg R) :
  1 ≤ i → suf !! (length suf - i) = Some a → i ≤ length suf →
  neg_index (pre ++ suf) i = inr a.
Proof.
  intros Hi Ha Hlen. unfold neg_index. rewrite length_app.
  assert ((i <=? length pre + length suf) = true) as -> by (apply Nat.leb_le; lia).
  rewrite lookup_app_r by lia.
  replace (length pre + length suf - i - length pre) with (length suf - i) by lia.
  by rewrite Ha.
Qed.

Lemma neg_index_inv (args : list (Arg R)) (i : nat) (a : Arg R) :
  neg_index args i = inr a → i ≤ length args ∧ args !! (length args - i) = Some a.
Proof.
  unfold neg_index. destruct (i <=? length args) eqn:Hi; [|done].
  apply Nat.leb_le in Hi. destruct (args !! _) eqn:Ha; [|done].
  intros [= <-]. done.
Qed.

(** X16. [symbolic] accepts its arguments exactly when seven parameters follow as
    many leading arguments as the last parameter has entries; the node then
    holds every argument once, in the order given: nothing is dropped and
    nothing is added. *)
Theorem symbolic_splits_arguments (args : list (Arg R)) (node : OnnxNode R) :
  symbolic args = inr node →
  args = node_inputs node ++
         [ num_class_i node; num_box_i node; confidence_threshold_f node;
           nms_threshold_f node; biases_f node; mask_f node; anchors_scale_f node ] ∧
  py_len (anchors_scale_f node) = inr (length (node_inputs node)) ∧
  node_kind node = "mmdeploy::Yolov3DetectionOutput" ∧ node_outputs node = 1.
Proof.
  unfold symbolic. intros Hrun.
  destruct (neg_index args 1) as [?|a1] eqn:H1; cbn [ebind] in Hrun; [done|].
  destruct (py_len a1) as [?|n] eqn:Hn; cbn [ebind] in Hrun; [done|].
  destruct (length args =? n + 7) eqn:Hlen; cbn [negb] in Hrun; [|done].
  apply Nat.eqb_eq in Hlen.
  destruct (neg_index args 7) as [?|a7] eqn:H7; cbn [ebind] in Hrun; [done|].
  destruct (neg_index args 6) as [?|a6] eqn:H6; cbn [ebind] in Hrun; [done|].
  destruct (neg_index args 5) as [?|a5] eqn:H5; cbn [ebind] in Hrun; [done|].
  destruct (neg_index args 4) as [?|a4] eqn:H4; cbn [ebind] in Hrun; [done|].
  destruct (neg_index args 3) as [?|a3] eqn:H3; cbn [ebind] in Hrun; [done|].
  destruct (neg_index args 2) as [?|a2] eqn:H2; cbn [ebind] in Hrun; [done|].
  simplify_eq. cbn.
  apply neg_index_inv in H1 as [_ H1], H2 as [_ H2], H3 as [_ H3], H4 as [_ H4],
    H5 as [_ H5], H6 as [_ H6], H7 as [_ H7].
  rewrite Hlen in *.
  split; [|split; [|done]].
  - rewrite <- (take_drop n args) at 1. f_equal.
    assert (length (drop n args) = 7) as Hd by (rewrite length_drop; lia).
    replace (n + 7 - 7) with (n + 0) in H7 by lia.
    replace (n + 7 - 6) with (n + 1) in H6 by lia.
    replace (n + 7 - 5) with (n + 2) in H5 by lia.
    replace (n + 7 - 4) with (n + 3) in H4 by lia.
    replace (n + 7 - 3) with (n + 4) in H3 by lia.
    replace (n + 7 - 2) with (n + 5) in H2 by lia.
    replace (n + 7 - 1) with (n + 6) in H1 by lia.
    rewrite <- lookup_drop in H1, H2, H3, H4, H5, H6, H7.
    destruct (drop n args) as [|b0 [|b1 [|b2 [|b3 [|b4 [|b5 [|b6 [|??]]]]]]]];
      simplify_eq/=. done.
  - rewrite Hn. f_equal. rewrite length_take. lia.
Qed.

(** X17. For the call the fused path builds, the assertion of [symbolic] is a
    check of the number of prediction maps against the number of strides of
    the head: with as many maps as strides the node takes the maps as inputs
    and the seven parameters as attributes, each under its own name; with
    any other number the export stops on the assertion. *)
Theorem symbolic_of_ncnn_call (ctx : DeployCfg) (self : YOLOV3Head R)
    (pred_maps : list (T4 R)) (with_nms : bool) (cfg : option (Cfg R))
    (call : OpCall) :
  ncnn_op_call DeployCfg get_post_processing_params ctx self pred_maps with_nms cfg
    = Ok call →
  (length pred_maps = length (featmap_strides self) →
   symbolic (apply_args call)
   = inr {| node_kind := "mmdeploy::Yolov3DetectionOutput";
            node_inputs := ATensor <$> pred_maps;
            num_class_i := int_arg (num_classes self);
            num_box_i := int_arg (op_num_box call);
            confidence_threshold_f := ANum (op_confidence_threshold call);
            nms_threshold_f := ANum (op_nms_threshold call);
            biases_f := ints_arg (op_biases call);
            mask_f := ints_arg (Z.of_nat <$> op_mask call);
            anchors_scale_f := ints_arg (featmap_strides self);
            node_outputs := 1 |}) ∧
  (length pred_maps ≠ length (featmap_strides self) →
   symbolic (apply_args call) = inl ArgCountAssertion).
Proof.
  intros Hrun.
  assert (op_inputs call = pred_maps ∧ op_num_class call = num_classes self ∧
          op_anchors_scale call = featmap_strides self) as (Hin & Hcls & Hscale).
  { unfold ncnn_op_call in Hrun.
    bind_ok Hrun c Hc. bind_ok Hrun nms Hnms. bind_ok Hrun biases Hflat.
    bind_ok Hrun l0 H0. unfold Ok in Hrun. by simplify_eq. }
  unfold symbolic, apply_args. rewrite Hin, Hcls, Hscale.
  set (suf := [_; _; _; _; _; _; _]).
  rewrite (neg_index_app _ suf 1 (ints_arg (featmap_strides self))) by (done || simpl; lia).
  cbn [ebind py_len ints_arg]. rewrite length_fmap, length_app, length_fmap.
  cbn [length suf]. split.
  - intros Hlen. rewrite Hlen, Nat.eqb_refl. cbn [negb].
    rewrite (neg_index_app _ suf 7 (int_arg (num_classes self))) by (done || simpl; lia).
    rewrite (neg_index_app _ suf 6 (int_arg (op_num_box call))) by (done || simpl; lia).
    rewrite (neg_index_app _ suf 5 (ANum (op_confidence_threshold call)))
      by (done || simpl; lia).
    rewrite (neg_index_app _ suf 4 (ANum (op_nms_threshold call))) by (done || simpl; lia).
    rewrite (neg_index_app _ suf 3 (ints_arg (op_biases call))) by (done || simpl; lia).
    rewrite (neg_index_app _ suf 2 (ints_arg (Z.of_nat <$> op_mask call)))
      by (done || simpl; lia).
    cbn [ebind]. do 2 f_equal.
    rewrite take_app_length'; [done|]. by rewrite length_fmap.
  - intros Hne.
    assert ((length pred_maps + 7 =? length (featmap_strides self) + 7) = false) as ->
      by (apply Nat.eqb_neq; lia).
    done.
Qed.
End SymbolicProps.

(** ** Well-shaped prediction maps: the run returns every candidate *)

Lemma cat_dim1_ok {A} (ts : list (list (list A))) (t0 : list (list A)) :
  ts !! 0 = Some t0 → Forall (λ t, length t = length t0) ts →
  ∃ out, cat_dim1 ts = Ok out.
Proof.
  intros H0 Hlen. unfold cat_dim1. destruct ts as [|t ts]; [done|]. simplify_eq/=.
  rewrite Nat.eqb_refl. simpl.
  assert (forallb (λ t : list (list A), length t =? length t0) ts = true) as ->;
    [|by eexists].
  apply forallb_forall. intros t Ht. apply Nat.eqb_eq.
  apply Forall_cons in Hlen as [_ Hlen].
  by apply (proj1 (Forall_forall _ _) Hlen), list_elem_of_In.
Qed.

Lemma cat_dim1_uniform {A} (ts : list (list (list A))) (ns : list nat)
    (out : list (list A)) :
  Forall2 (λ t n, uniform n t) ts ns → cat_dim1 ts = Ok out →
  uniform (sum_list ns) out.
Proof.
  intros Hns Hcat. apply cat_dim1_spec in Hcat as (t0 & _ & Hlen & Hout_len & Hout).
  apply Forall_lookup. intros b item Hitem.
  assert (b < length t0) as Hb by (rewrite <- Hout_len; by eapply lookup_lt_Some).
  rewrite Hout in Hitem by done. simplify_eq.
  clear Hout Hout_len. induction Hns as [|t n ts ns Hn _ IH]; [done|].
  apply Forall_cons in Hlen as [Ht Hlen].
  rewrite fmap_cons. cbn [concat]. rewrite length_app, IH by done. simpl. f_equal.
  destruct (t !! b) as [item|] eqn:Hitem; simpl.
  - by apply (Forall_lookup_1 _ _ _ _ Hn Hitem).
  - apply lookup_ge_None in Hitem. lia.
Qed.

Lemma sum_list_fmap_with {A} (f : A → nat) (l : list A) :
  sum_list (f <$> l) = sum_list_with f l.
Proof. induction l as [|x l IH]; [done|]. rewrite fmap_cons. simpl. by f_equal. Qed.

Lemma dims2_replicate_uniform {A} (n k : nat) (t : list (list A)) :
  dims2 t = replicate k n → uniform n t.
Proof.
  intros Hd.
  assert (Forall (λ d, d = n) (length <$> t)) as Hall.
  { fold (dims2 t). rewrite Hd. by apply Forall_replicate. }
  apply Forall_fmap in Hall. exact Hall.
Qed.

Section Returns.
Context {R : Type} `{Scalar R}.
Variable sigmoid : R → R.
Variable DeployCfg : Type.
Variable get_post_processing_params : DeployCfg → PostParams R.
Variable is_dynamic_shape : DeployCfg → bool.
Variable grid_anchors : YOLOV3Head R → list (nat * nat) → list (T2 R).
Variable bbox_decode : T3 R → T3 R → Z → T3 R.
Variable NmsOut : Type.
Variable multiclass_nms : NmsCall R → NmsOut.

Local Abbreviation predict_tail :=
  (yolov3_head__predict_by_feat_tail sigmoid DeployCfg get_post_processing_params
     is_dynamic_shape grid_anchors bbox_decode).
Local Abbreviation predict :=
  (yolov3_head__predict_by_feat sigmoid DeployCfg get_post_processing_params
     is_dynamic_shape grid_anchors bbox_decode NmsOut multiclass_nms).

(** X18. One prediction map per level, each of [batch] images and
    [num_anchors * num_attrib] channels, a head with
    [num_attrib = 5 + num_classes], a stride and a level of priors for every
    level, a box coder that keeps the batch and anchor dimensions, a
    configuration without a positive [nms_pre] and, with NMS, with an [nms]
    entry: the run returns.  What it returns, or hands to [multiclass_nms],
    has for every image one candidate per cell and anchor of every level,
    each with [num_classes] scores. *)
Theorem predict_returns_every_candidate (ctx : DeployCfg) (self : YOLOV3Head R)
    (pred_maps : list (T4 R)) (cfg : option (Cfg R)) (rescale with_nms : bool)
    (c : Cfg R) (batch num_anchors : nat) :
  length pred_maps = num_levels self → pred_maps ≠ [] → batch ≠ 0 →
  Forall (λ m : T4 R, length m = batch ∧ uniform (num_anchors * num_attrib self) m)
    pred_maps →
  num_attrib self = 5 + num_classes self → num_classes self ≠ 0 →
  num_levels self ≤ length (featmap_strides self) →
  num_levels self ≤ length (grid_anchors self (featmap_size <$> pred_maps)) →
  (∀ a p s, dims2 (bbox_decode a p s) = dims2 p) →
  resolved_cfg self cfg = Some c →
  py_gt0 (cfg_get (cfg_top c) "nms_pre" (PInt (-1))) = false →
  (with_nms = true → is_Some (cfg_nms c)) →
  ∃ t,
    predict_tail ctx self pred_maps cfg rescale with_nms = Ok t ∧
    predict ctx self pred_maps cfg rescale with_nms
      = Ok (match t with
            | ReturnPair boxes scores => Filtered boxes scores
            | CallNms call => Detections (multiclass_nms call)
            end) ∧
    (with_nms = false → ∃ boxes scores, t = ReturnPair boxes scores) ∧
    length (tail_scores t) = batch ∧
    uniform (sum_list_with (level_candidates num_anchors) pred_maps) (tail_scores t) ∧
    Forall (uniform (num_classes self)) (tail_scores t) ∧
    dims2 (tail_boxes t) = dims2 (tail_scores t).
Proof.
  intros Hcount Hne HB Hmaps Hattrib Hclasses Hstrides Hanchors Hcoder Hcfg Hoff Hnms.
  destruct pred_maps as [|first rest] eqn:Hpm; [done|]. rewrite <- Hpm in *.
  assert (pred_maps !! 0 = Some first) as Hfirst by by rewrite Hpm.
  assert (length first = batch) as Hbatch.
  { by destruct (Forall_lookup_1 _ _ _ _ Hmaps Hfirst). }
  set (anchors := grid_anchors self (featmap_size <$> pred_maps)) in *.
  set (dec := decode_level sigmoid bbox_decode self (is_dynamic_shape ctx) batch
                anchors pred_maps).
  (* every level decodes *)
  assert (∀ i m, pred_maps !! i = Some m →
            ∃ l, dec i = Ok l ∧ length l.1.2 = batch ∧
                 uniform (level_candidates num_anchors m) l.1.2 ∧
                 Forall (uniform (num_classes self)) l.1.2 ∧
                 dims2 l.1.1 = dims2 l.1.2 ∧ dims2 l.2 = dims2 l.1.2) as Hlevel.
  { intros i m Hm. destruct (Forall_lookup_1 _ _ _ _ Hmaps Hm) as [Hmb Hmc].
    assert (i < num_levels self) as Hi by (rewrite <- Hcount; by eapply lookup_lt_Some).
    destruct (lookup_lt_is_Some_2 (featmap_strides self) i) as [stride Hs]; [lia|].
    destruct (lookup_lt_is_Some_2 anchors i) as [anchor Ha]; [lia|].
    destruct (reshaped_rows_ok m (num_attrib self) num_anchors)
      as (rows & Hrows & Hlen & Hn & Hw); [|lia|done|].
    { intros ->. simpl in Hmb. lia. }
    pose proof (decode_level_of_rows sigmoid bbox_decode self (is_dynamic_shape ctx)
                  anchors pred_maps i m stride anchor rows _ Hm Hs Ha Hattrib Hclasses
                  Hrows Hlen ltac:(lia) Hn Hw) as Hdec.
    rewrite Hmb in Hdec, Hlen. eexists. split; [exact Hdec|]. cbn [fst snd].
    split; [by rewrite length_fmap|]. split.
    { unfold level_candidates. apply Forall_fmap. eapply Forall_impl; [exact Hn|].
      simpl. intros item Hitem. by rewrite length_fmap. }
    split.
    { apply Forall_fmap. eapply Forall_impl; [exact Hw|]. simpl.
      intros item Hitem. apply Forall_fmap. eapply Forall_impl; [exact Hitem|].
      simpl. intros r Hr. unfold class_scores. rewrite length_fmap, length_drop. lia. }
    by rewrite Hcoder, !dims2_fmap. }
  destruct (rmap_total dec (seq 0 (num_levels self))) as [levels Hlevels].
  { apply Forall_forall. intros i Hi. apply elem_of_seq in Hi.
    destruct (lookup_lt_is_Some_2 pred_maps i) as [m Hm]; [lia|].
    destruct (Hlevel i m Hm) as (l & Hl & _). by exists l. }
  apply rmap_Forall2 in Hlevels as Hall.
  assert (Forall2 (λ (m : T4 R) (l : T3 R * T3 R * T2 R),
            length l.1.2 = batch ∧
            uniform (level_candidates num_anchors m) l.1.2 ∧
            Forall (uniform (num_classes self)) l.1.2 ∧
            dims2 l.1.1 = dims2 l.1.2 ∧ dims2 l.2 = dims2 l.1.2) pred_maps levels)
    as Hshape.
  { apply Forall2_same_length_lookup. split.
    { apply Forall2_length in Hall. rewrite length_seq in Hall. lia. }
    intros i m l Hm Hl. destruct (Hlevel i m Hm) as (l' & Hl' & Hp).
    destruct (Forall2_lookup_r _ _ _ _ _ Hall Hl) as (i' & Hi' & Hdec).
    apply lookup_seq in Hi' as [-> _]. simpl in Hdec.
    assert (l' = l) as <- by (unfold Ok in *; congruence). done. }
  assert (∃ l0, levels !! 0 = Some l0) as [l0 Hl0].
  { apply Forall2_length in Hshape. rewrite Hpm in Hshape.
    destruct levels; [done|]. by eexists. }
  assert (length l0.1.2 = batch) as Hl0b.
  { destruct (Forall2_lookup_r _ _ _ _ _ Hshape Hl0) as (? & _ & ? & _). done. }
  assert (Forall (λ l : T3 R * T3 R * T2 R,
            length l.1.2 = batch ∧ dims2 l.1.1 = dims2 l.1.2 ∧ dims2 l.2 = dims2 l.1.2 ∧
            Forall (uniform (num_classes self)) l.1.2) levels) as Hdims.
  { apply Forall_lookup. intros i l Hl.
    destruct (Forall2_lookup_r _ _ _ _ _ Hshape Hl) as (? & _ & ? & _ & ? & ? & ?).
    done. }
  (* the three merges *)
  assert (∀ (X : Type) (proj : T3 R * T3 R * T2 R → list (list X)),
            Forall (λ l, dims2 (proj l) = dims2 l.1.2) levels →
            ∃ out, cat_dim1 (proj <$> levels) = Ok out ∧
                   dims2 out = replicate batch
                     (sum_list_with (level_candidates num_anchors) pred_maps))
    as Hmerge.
  { intros X proj Hproj.
    assert (Forall (λ l, length (proj l) = batch) levels) as Hplen.
    { apply Forall_lookup. intros i l Hl.
      pose proof (Forall_lookup_1 _ _ _ _ Hproj Hl) as Hd. simpl in Hd.
      pose proof (Forall_lookup_1 _ _ _ _ Hdims Hl) as (Hb & _). simpl in Hb.
      apply (f_equal length) in Hd. unfold dims2 in Hd.
      rewrite !length_fmap in Hd. lia. }
    pose proof (Forall_lookup_1 _ _ _ _ Hplen Hl0) as Hp0. simpl in Hp0.
    destruct (cat_dim1_ok (proj <$> levels) (proj l0)) as [out Hout].
    { by rewrite list_lookup_fmap, Hl0. }
    { apply Forall_fmap. eapply Forall_impl; [exact Hplen|]. simpl. intros; lia. }
    exists out. split; [done|].
    assert (length out = batch) as Hlen.
    { apply cat_dim1_spec in Hout as (t0 & Ht0 & _ & -> & _).
      rewrite list_lookup_fmap, Hl0 in Ht0. by simplify_eq/=. }
    rewrite <- Hlen. apply dims2_uniform.
    rewrite <- sum_list_fmap_with. eapply cat_dim1_uniform; [|exact Hout].
    apply Forall2_fmap, Forall2_flip.
    apply Forall2_same_length_lookup. split; [by eapply Forall2_length|].
    intros i m l Hm Hl.
    destruct (Forall2_lookup_lr _ _ _ _ _ _ Hshape Hm Hl) as (_ & Hu & _).
    pose proof (Forall_lookup_1 _ _ _ _ Hproj Hl) as Hd. simpl in Hd.
    unfold dims2 in Hd.
    assert (Forall (λ d, d = level_candidates num_anchors m)
              (length <$> l.1.2)) as Hu' by (apply Forall_fmap; exact Hu).
    rewrite <- Hd in Hu'. apply Forall_fmap in Hu'. exact Hu'. }
  destruct (Hmerge _ (λ l, l.1.1)) as (boxes & Hboxes & Hdb).
  { eapply Forall_impl; [exact Hdims|]. by intros l (_ & ? & _). }
  destruct (Hmerge _ (λ l, l.1.2)) as (scores & Hscores & Hds).
  { by apply Forall_forall. }
  destruct (Hmerge _ (λ l, l.2)) as (conf & Hconf & Hdc).
  { eapply Forall_impl; [exact Hdims|]. by intros l (_ & _ & ? & _). }
  assert (Forall (uniform (num_classes self)) scores) as Hrows.
  { eapply cat_dim1_rows; [|exact Hscores]. apply Forall_fmap.
    eapply Forall_impl; [exact Hdims|]. by intros l (_ & _ & _ & ?). }
  (* the stages after merging *)
  set (N := sum_list_with (level_candidates num_anchors) pred_maps) in *.
  set (conf_thr := cfg_get (cfg_top c) "conf_thr"
                     (confidence_threshold (get_post_processing_params ctx))).
  set (score_thr := cfg_get (cfg_top c) "score_thr"
                      (score_threshold (get_post_processing_params ctx))).
  set (masked := conf_threshold_stage conf_thr boxes scores conf).
  set (scores2 := fuse_scores (score_threshold_stage score_thr masked.1.2) masked.2).
  destruct (conf_stage_dims conf_thr boxes scores conf) as (Hmc & Hms & Hmb);
    [by rewrite Hds, Hdc|by rewrite Hdb, Hdc|]. fold masked in Hmc, Hms, Hmb.
  assert (dims3 scores2 = dims3 scores) as Hd2.
  { subst scores2. rewrite fuse_scores_dims.
    - by rewrite score_stage_dims.
    - rewrite (dims3_dims2 _ scores), Hmc, Hds, Hdc; [done|].
      by rewrite score_stage_dims. }
  assert (∃ t, post_process (get_post_processing_params ctx) self c batch
                 (cfg_get (cfg_top c) "nms_pre" (PInt (-1))) boxes scores conf with_nms
               = Ok t ∧
               tail_boxes t = masked.1.1 ∧ tail_scores t = scores2 ∧
               (with_nms = false → ∃ bx sc, t = ReturnPair bx sc)) as (t & Ht & Htb & Hts & Hpair).
  { unfold post_process. rewrite Hoff, rbind_Ok. cbv zeta. cbn [fst snd].
    fold conf_thr score_thr masked scores2.
    destruct with_nms.
    - destruct (Hnms eq_refl) as [nms ->]. rewrite rbind_Ok.
      eexists. split; [done|]. by cbn.
    - eexists. split; [done|]. cbn. split; [done|]. split; [done|].
      intros _. by eexists _, _. }
  exists t.
  assert (predict_tail ctx self pred_maps cfg rescale with_nms = Ok t) as Htail.
  { rewrite (predict_tail_unfold sigmoid DeployCfg get_post_processing_params
               is_dynamic_shape grid_anchors bbox_decode ctx self pred_maps cfg
               rescale first with_nms Hcount Hfirst).
    rewrite Hcfg, rbind_Ok, Hbatch. fold anchors dec. rewrite Hlevels, rbind_Ok.
    rewrite Hboxes, rbind_Ok, Hscores, rbind_Ok, Hconf, rbind_Ok. done. }
  split; [done|]. split.
  { unfold yolov3_head__predict_by_feat. rewrite Htail, rbind_Ok. by destruct t. }
  split; [done|]. rewrite Htb, Hts.
  assert (dims2 scores2 = replicate batch N) as Hfinal
    by (by rewrite (dims3_dims2 _ _ Hd2)).
  split.
  { apply (f_equal length) in Hfinal. unfold dims2 in Hfinal.
    by rewrite length_fmap, length_replicate in Hfinal. }
  split.
  { by eapply dims2_replicate_uniform. }
  split.
  { by rewrite rows_dims3, Hd2, <- rows_dims3. }
  by rewrite (dims3_dims2 _ _ Hmb), Hdb, Hfinal.
Qed.
End Returns.

(** * The code at concrete inputs *)

Import Run.

(** C1. Two images, two anchors each, one class, nms_pre = 1, no NMS.  The
    best candidate of image 0 is its anchor 1 and that of image 1 its
    anchor 0.  Selecting item by item, as the spec words it, keeps one
    candidate per image.  The code stacks anchor indices and class indices
    into one index tensor, offsets both by the batch stride, gathers rows
    with both and regroups by batch size: the output of image 0 holds the
    box of image 1, and the output of image 1 starts with a box of
    image 0.  The last equation runs the whole rewriter on raw prediction
    maps, with the stand-in collaborators; there the box of cell n of
    image b has size 2b + n + 1. *)
Theorem topk_gather_mixes_batch_items :
  select_direct (head 1) 1 boxes2 scores2 conf2
    = Ok ([[b01]; [b10]], [[[q 9 10]]; [[q 8 10]]], [[q 1 2]; [q 1 2]]) ∧
  topk_stage (head 1) 2 (PInt 1) boxes2 scores2 conf2
    = Ok ([[b01; b10]; [b00; b10]],
          [[[q 9 10]; [q 8 10]]; [[q 2 10]; [q 8 10]]],
          [[q 1 2; q 1 2]; [q 1 2; q 1 2]]) ∧
  post_process post (head 1) (cfg_nms_pre 1) 2 (PInt 1) boxes2 scores2 conf2 false
    = Ok (ReturnPair [[b01; b10]; [b00; b10]]
                     [[[q 9 20]; [q 8 20]]; [[q 2 20]; [q 8 20]]]) ∧
  yolov3_head__predict_by_feat_tail squash unit get_post static_shape
      one_anchor_per_cell raw_boxes tt (head 1) pred_maps_two_images
      (Some (cfg_nms_pre 1)) false false
    = Ok (ReturnPair [[sized_box 2; sized_box 3]; [sized_box 1; sized_box 3]]
                     [[[q 5 12]; [q 3 8]]; [[q 1 8]; [q 3 8]]]).
Proof. repeat split; vm_compute; reflexivity. Qed.

(** C5. One image, one anchor, three classes, nms_pre = 1.  The tensors
    have one row per image, which is at least the top-k size.  The best
    flat index is 2 (anchor 0, class 2); the class index 2 is offset and
    used as a row index like the anchor index, and there is no row 2: the
    gather raises IndexError.  The last equation runs the whole rewriter on
    raw prediction maps, with the stand-in collaborators. *)
Theorem topk_gather_out_of_bounds :
  dims2 (pad_with_value_if_necessary boxes1 1 (replicate 4 zero)) = [1] ∧
  topk 1 (flatten3 scores1) = Ok [2] ∧
  topk_stage (head 3) 1 (PInt 1) boxes1 scores1 conf1 = Err IndexError ∧
  post_process post (head 3) (cfg_nms_pre 1) 1 (PInt 1) boxes1 scores1 conf1 false
    = Err IndexError ∧
  yolov3_head__predict_by_feat_tail squash unit get_post static_shape
      one_anchor_per_cell raw_boxes tt (head 3) pred_maps_three_classes
      (Some (cfg_nms_pre 1)) false false
    = Err IndexError.
Proof. repeat split; vm_compute; reflexivity. Qed.


(** C3, as stated, fails on a NaN objectness: with the threshold 0.5, a
    candidate whose objectness is NaN is not strictly below the threshold,
    and its objectness, its score row and its box are set to zero all the
    same, because [NaN >= 0.5] is false. *)
Lemma nan_objectness_is_zeroed :
  let thr : pyval fnum := PFloat (Fin (q 1 2)) in
  let boxes : T3 fnum := [[[Fin (q 1 1); Fin (q 1 1); Fin (q 2 1); Fin (q 2 1)]]] in
  let scores : T3 fnum := [[[Fin (q 9 10)]]] in
  let conf : T2 fnum := [[NaN]] in
  let out := conf_threshold_stage thr boxes scores conf in
  py_gt0 thr = true ∧
  ltb NaN (to_scalar thr) = false ∧
  out = ([[[zero; zero; zero; zero]]], [[[zero]]], [[zero]]) ∧
  ¬ (∀ b n c, at2 conf b n = Some c →
       at2 out.2 b n = Some (if ltb c (to_scalar thr) then zero else c) ∧
       at2 out.1.2 b n = masked_row (ltb c (to_scalar thr)) <$> at2 scores b n ∧
       at2 out.1.1 b n = masked_row (ltb c (to_scalar thr)) <$> at2 boxes b n).
Proof.
  intros thr boxes scores conf out.
  split; [reflexivity|]. split; [reflexivity|]. split; [reflexivity|].
  intros Hclaim. destruct (Hclaim 0 0 NaN eq_refl) as [Hconf _].
  vm_compute in Hconf. discriminate Hconf.
Qed.

(** C4, as stated, fails on a NaN score: with the threshold 0.5, a NaN score
    is not at or below the threshold, and it is set to zero all the same,
    because [NaN > 0.5] is false. *)
Lemma nan_score_is_zeroed :
  let thr : pyval fnum := PFloat (Fin (q 1 2)) in
  let scores : T3 fnum := [[[NaN; Fin (q 9 10)]]] in
  let out := score_threshold_stage thr scores in
  py_gt0 thr = true ∧
  leb NaN (to_scalar thr) = false ∧
  out = [[[zero; Fin (q 9 10)]]] ∧
  ¬ (∀ b n c s, at3 scores b n c = Some s →
       at3 out b n c = Some (if leb s (to_scalar thr) then zero else s)).
Proof.
  intros thr scores out.
  split; [reflexivity|]. split; [reflexivity|]. split; [reflexivity|].
  intros Hclaim. specialize (Hclaim 0 0 0 NaN eq_refl).
  vm_compute in Hclaim. discriminate Hclaim.
Qed.

(** C8, as stated, fails when the call supplies fewer prediction maps than
    the head has levels of base sizes, which the fused path does not check:
    for a head of three levels of three boxes and two prediction maps, the
    biases have 18 entries (three levels) and the mask is 0, ..., 5 (two
    levels), so that no single number of levels fits both. *)
Lemma two_maps_for_three_levels :
  ∃ call,
    ncnn_op_call unit get_post tt head3 [zero_map 1 1; zero_map 2 2] true None
      = Ok call ∧
    op_num_box call = 3 ∧
    length (op_biases call) = 18 ∧
    op_mask call = [0; 1; 2; 3; 4; 5] ∧
    ¬ ∃ levels,
        length (op_biases call) = levels * op_num_box call * 2 ∧
        op_mask call = seq 0 (levels * op_num_box call).
Proof.
  eexists. split; [reflexivity|].
  split; [reflexivity|]. split; [reflexivity|]. split; [reflexivity|].
  intros (levels & Hbiases & Hmask).
  apply (f_equal length) in Hmask. rewrite length_seq in Hmask.
  cbn in Hbiases, Hmask. lia.
Qed.


(** * The theorems at concrete inputs *)

Lemma conf_threshold_stage_witness :
  let boxes' := [[[0%Q; 0%Q; 0%Q; 0%Q]; b01]] in
  let scores' := [[[0%Q; 0%Q]; [q 2 10; q 8 10]]] in
  let conf' := [[0%Q; q 7 10]] in
  conf_threshold_stage (PFloat (q 1 2)) boxes12 scores12 conf12
    = (boxes', scores', conf') ∧
  at2 conf' 0 0 = Some 0%Q ∧
  at2 scores' 0 0 = Some [0%Q; 0%Q] ∧
  at2 boxes' 0 0 = Some [0%Q; 0%Q; 0%Q; 0%Q] ∧
  at2 conf' 0 1 = Some (q 7 10) ∧
  at2 scores' 0 1 = Some [q 2 10; q 8 10] ∧
  dims3 boxes' = dims3 boxes12 ∧
  at2 (conf_threshold_stage (PFloat (Fin (q 1 2)))
         [[[Fin (q 1 1); Fin (q 1 1); Fin (q 2 1); Fin (q 2 1)]]]
         [[[Fin (q 9 10)]]] [[NaN]]).2 0 0 = Some (Fin 0%Q).
Proof.
  intros boxes' scores' conf'.
  assert (conf_threshold_stage (PFloat (q 1 2)) boxes12 scores12 conf12
          = (boxes', scores', conf')) as Hrun by reflexivity.
  split; [exact Hrun|].
  destruct (conf_threshold_stage_spec (PFloat (q 1 2)) boxes12 scores12 conf12
              boxes' scores' conf' eq_refl eq_refl Hrun) as [Hpos _].
  destruct (Hpos eq_refl) as (_ & _ & Hdims & Hentry).
  destruct (Hentry 0 0 (q 3 10) eq_refl) as (Hc0 & Hs0 & Hb0 & _).
  destruct (Hentry 0 1 (q 7 10) eq_refl) as (Hc1 & Hs1 & _).
  assert (conf_threshold_stage (PFloat (Fin (q 1 2)))
            [[[Fin (q 1 1); Fin (q 1 1); Fin (q 2 1); Fin (q 2 1)]]]
            [[[Fin (q 9 10)]]] [[NaN]]
          = ([[[Fin 0%Q; Fin 0%Q; Fin 0%Q; Fin 0%Q]]], [[[Fin 0%Q]]], [[Fin 0%Q]]))
    as Hrun_nan by reflexivity.
  destruct (conf_threshold_stage_spec (PFloat (Fin (q 1 2)))
              [[[Fin (q 1 1); Fin (q 1 1); Fin (q 2 1); Fin (q 2 1)]]]
              [[[Fin (q 9 10)]]] [[NaN]] _ _ _ eq_refl eq_refl Hrun_nan)
    as [Hnan _].
  destruct (Hnan eq_refl) as (_ & _ & _ & Hnan_entry).
  exact (conj Hc0 (conj Hs0 (conj Hb0 (conj Hc1 (conj Hs1 (conj Hdims
           (proj1 (Hnan_entry 0 0 NaN eq_refl)))))))).
Defined.

Lemma score_threshold_stage_witness :
  at3 (score_threshold_stage (PFloat (q 1 2)) scores12) 0 0 0 = Some (q 9 10) ∧
  at3 (score_threshold_stage (PFloat (q 1 2)) scores12) 0 0 1 = Some 0%Q ∧
  score_threshold_stage (PInt 0) scores12 = scores12 ∧
  at3 (score_threshold_stage (PFloat (Fin (q 1 2))) [[[NaN; Fin (q 9 10)]]]) 0 0 0
    = Some (Fin 0%Q).
Proof.
  destruct (score_threshold_stage_spec (PFloat (q 1 2)) scores12) as [Hpos _].
  destruct (Hpos eq_refl) as [_ Hentry].
  destruct (score_threshold_stage_spec (PInt 0) scores12) as [_ Hoff].
  destruct (score_threshold_stage_spec (PFloat (Fin (q 1 2)))
              [[[NaN; Fin (q 9 10)]]]) as [Hnan _].
  destruct (Hnan eq_refl) as [_ Hnan_entry].
  exact (conj (proj1 (Hentry 0 0 0 (q 9 10) eq_refl))
           (conj (proj1 (Hentry 0 0 1 (q 1 10) eq_refl))
              (conj (Hoff eq_refl) (proj1 (Hnan_entry 0 0 0 NaN eq_refl))))).
Defined.


Lemma nms_score_threshold_forced_witness :
  let call :=
    {| nms_boxes := [[[q 3 4; q 1 4; q 2 1; q 3 1]]];
       nms_scores := [[[q 72 120]]];
       nms_max_output_boxes_per_class := PInt 200;
       nms_iou_threshold := PFloat (q 45 100);
       nms_score_threshold := PInt 0;
       nms_pre_top_k := PInt 5000;
       nms_keep_top_k := PInt 50 |} in
  yolov3_head__predict_by_feat squash unit get_post static_shape
    one_anchor_per_cell raw_boxes (NmsCall Q) id tt (head 1) pred_maps1 None false true
    = Ok (@Detections Q (NmsCall Q) call) ∧
  ∃ call',
    yolov3_head__predict_by_feat_tail squash unit get_post static_shape
      one_anchor_per_cell raw_boxes tt (head 1) pred_maps1 None false true
      = Ok (CallNms call') ∧
    @Detections Q (NmsCall Q) call = @Detections Q (NmsCall Q) (id call') ∧
    nms_score_threshold call' = PInt 0.
Proof.
  intros call.
  assert (yolov3_head__predict_by_feat squash unit get_post static_shape
            one_anchor_per_cell raw_boxes (NmsCall Q) id tt (head 1) pred_maps1
            None false true = Ok (@Detections Q (NmsCall Q) call)) as Hrun
    by (vm_compute; reflexivity).
  split; [exact Hrun|].
  exact (nms_score_threshold_forced squash unit get_post static_shape
           one_anchor_per_cell raw_boxes (NmsCall Q) id
           tt (head 1) pred_maps1 None false true _ Hrun).
Defined.

Lemma ncnn_parameter_marshalling_witness :
  ∃ call,
    ncnn_op_call unit get_post tt head3 pred_maps3 true None = Ok call ∧
    length (op_biases call) = 18 ∧ op_mask call = [0; 1; 2; 3; 4; 5; 6; 7; 8].
Proof.
  eexists. split; [reflexivity|].
  destruct (ncnn_parameter_marshalling unit get_post tt head3 pred_maps3 true None
              _ eq_refl) as (_ & _ & _ & Hlevels).
  destruct (Hlevels eq_refl) as (Hbiases & _ & Hmask & _).
  exact (conj Hbiases Hmask).
Defined.


(** * The further properties at concrete inputs *)

Lemma topk_stage_succeeds_witness :
  ∃ out, topk_stage (head 1) 2 (PInt 1) boxes2 scores2 conf2 = Ok out.
Proof.
  assert (1 ≤ 2 `max` 1) as Hmax by (vm_compute; lia).
  exact (topk_stage_succeeds (head 1) (PInt 1) 1 2 boxes2 scores2 conf2
           eq_refl ltac:(discriminate) eq_refl eq_refl
           ltac:(repeat constructor) ltac:(repeat constructor)
           ltac:(repeat constructor) ltac:(repeat constructor)
           ltac:(repeat constructor) ltac:(discriminate) Hmax).
Defined.


Lemma decode_level_candidates_witness :
  ∃ rows : T3 Q,
    length rows = 1 ∧
    decode_level squash raw_boxes (head 1) false 1
      (one_anchor_per_cell (head 1) [(1, 1)]) pred_maps1 0
    = Ok (raw_boxes [[ [q 0 1; q 0 1; q 32 1; q 32 1] ]]
            ((λ item : T2 Q, box_attributes squash <$> item) <$> rows) 32%Z,
          (λ item : T2 Q, class_scores squash <$> item) <$> rows,
          (λ item : T2 Q, objectness squash <$> item) <$> rows).
Proof.
  destruct (decode_level_candidates squash raw_boxes (head 1) false
              (one_anchor_per_cell (head 1) [(1, 1)]) pred_maps1 0
              [ [ [[q 1 1]]; [[q (-1) 1]]; [[q 2 1]]; [[q 3 1]]; [[q 4 1]]; [[q 1 2]] ] ]
              32%Z [ [q 0 1; q 0 1; q 32 1; q 32 1] ] 1
              eq_refl eq_refl eq_refl ltac:(discriminate) ltac:(repeat constructor)
              eq_refl ltac:(discriminate))
    as (rows & _ & Hlen & _ & _ & Hdec).
  exists rows. exact (conj Hlen Hdec).
Defined.

Lemma reshaped_rows_lookup_witness :
  let pred_map : T4 Q :=
    [ [ [[q 0 1; q 0 1]]; [[q 0 1; q 0 1]]; [[q 1 1; q 2 1]]; [[q 1 1; q 2 1]];
        [[q 0 1; q 0 1]]; [[q (-1) 1; q 2 1]] ];
      [ [[q 0 1; q 0 1]]; [[q 0 1; q 0 1]]; [[q 3 1; q 4 1]]; [[q 3 1; q 4 1]];
        [[q 0 1; q 0 1]]; [[q 1 1; q (-1) 1]] ] ] in
  let rows : T3 Q :=
    [ [ [q 0 1; q 0 1; q 1 1; q 1 1; q 0 1; q (-1) 1];
        [q 0 1; q 0 1; q 2 1; q 2 1; q 0 1; q 2 1] ];
      [ [q 0 1; q 0 1; q 3 1; q 3 1; q 0 1; q 1 1];
        [q 0 1; q 0 1; q 4 1; q 4 1; q 0 1; q (-1) 1] ] ] in
  reshape3 2 6 (flatten4 (permute_0231 pred_map)) = Ok rows ∧
  at3 rows 1 1 5 = Some (q (-1) 1).
Proof.
  intros pred_map rows.
  assert (reshape3 (length pred_map) 6 (flatten4 (permute_0231 pred_map)) = Ok rows)
    as Hrows by (vm_compute; reflexivity).
  split; [exact Hrows|].
  exact (reshaped_rows_lookup pred_map 6 1 rows 1 0 1 0 5
           ltac:(repeat constructor) Hrows
           ltac:(vm_compute; lia) ltac:(vm_compute; lia) ltac:(vm_compute; lia)
           ltac:(lia) ltac:(lia)).
Defined.

Lemma merged_candidates_aligned_witness :
  let t := ReturnPair [[[q 3 4; q 1 4; q 2 1; q 3 1]]] [[[q 72 120]]] in
  yolov3_head__predict_by_feat_tail squash unit get_post static_shape
    one_anchor_per_cell raw_boxes tt (head 1) pred_maps1 None false false = Ok t ∧
  ∃ scores conf,
    dims2 scores = dims2 conf ∧ Forall (uniform 1) scores ∧
    ∃ boxes, post_process post (head 1) cfg_plain 1 (PInt (-1)) boxes scores conf false
             = Ok t.
Proof.
  intros t.
  assert (yolov3_head__predict_by_feat_tail squash unit get_post static_shape
            one_anchor_per_cell raw_boxes tt (head 1) pred_maps1 None false false
          = Ok t) as Hrun by (vm_compute; reflexivity).
  split; [exact Hrun|].
  destruct (merged_candidates_aligned squash unit get_post static_shape
              one_anchor_per_cell raw_boxes tt (head 1) pred_maps1 None false false
              t eq_refl Hrun)
    as (first & cfg' & boxes & scores & conf & Hfirst & Hcfg & _ & Hdims & _ & Hrows & Hpp).
  injection Hfirst as <-. injection Hcfg as <-.
  exists scores, conf. split; [exact Hdims|]. split; [exact Hrows|].
  exists boxes. exact Hpp.
Defined.

Lemma post_process_without_topk_witness :
  let t :=
    CallNms
      {| nms_boxes := boxes2;
         nms_scores := [[[q 2 20]; [q 9 20]]; [[q 8 20]; [q 3 20]]];
         nms_max_output_boxes_per_class := PInt 200;
         nms_iou_threshold := PFloat (q 45 100);
         nms_score_threshold := PInt 0;
         nms_pre_top_k := PInt 5000;
         nms_keep_top_k := PInt 50 |} in
  post_process post (head 1) cfg_plain 2 (PInt (-1)) boxes2 scores2 conf2 true = Ok t ∧
  dims3 (tail_scores t) = dims3 scores2 ∧
  at3 (tail_scores t) 0 1 0
    = Some (final_score (PFloat (q 5 1000)) (PFloat (q 5 100)) (q 1 2) (q 9 10)).
Proof.
  intros t.
  assert (post_process post (head 1) cfg_plain 2 (PInt (-1)) boxes2 scores2 conf2 true
          = Ok t) as Hrun by (vm_compute; reflexivity).
  split; [exact Hrun|].
  destruct (post_process_without_topk post (head 1) cfg_plain 2 (PInt (-1))
              boxes2 scores2 conf2 true t eq_refl eq_refl eq_refl Hrun)
    as (_ & Hdims & Hentry).
  split; [exact Hdims|].
  destruct (Hentry 0 1 (q 1 2) eq_refl) as [_ Hscore].
  exact (Hscore 0 (q 9 10) eq_refl).
Defined.

Lemma post_process_with_topk_witness :
  let t := ReturnPair [[b01; b10]; [b00; b10]]
             [[[q 9 20]; [q 8 20]]; [[q 2 20]; [q 8 20]]] in
  post_process post (head 1) (cfg_nms_pre 1) 2 (PInt 1) boxes2 scores2 conf2 false
    = Ok t ∧
  ∃ k, as_size (PInt 1 : pyval Q) = Ok k ∧ uniform (2 * k) (tail_boxes t).
Proof.
  intros t.
  assert (post_process post (head 1) (cfg_nms_pre 1) 2 (PInt 1) boxes2 scores2 conf2
            false = Ok t) as Hrun by (vm_compute; reflexivity).
  split; [exact Hrun|].
  destruct (post_process_with_topk post (head 1) (cfg_nms_pre 1) 2 (PInt 1)
              boxes2 scores2 conf2 false t eq_refl Hrun)
    as (k & Hk & _ & _ & _ & Hrows & _).
  exists k. exact (conj Hk Hrows).
Defined.

Lemma post_process_errors_witness :
  post_process post (head 3) (cfg_nms_pre 1) 1 (PInt 1) boxes1 scores1 conf1 false
    = Err IndexError ∧
  (IndexError = TypeError ∨ IndexError = RuntimeError ∨ IndexError = IndexError ∨
   IndexError = AttributeError ∧ false = true ∧ cfg_nms (cfg_nms_pre 1) = None).
Proof.
  assert (post_process post (head 3) (cfg_nms_pre 1) 1 (PInt 1) boxes1 scores1 conf1
            false = Err IndexError) as Hrun by (vm_compute; reflexivity).
  split; [exact Hrun|].
  exact (proj1 (post_process_errors post (head 3) (cfg_nms_pre 1) 1 (PInt 1)
                  boxes1 scores1 conf1 false IndexError eq_refl eq_refl Hrun)).
Defined.

Lemma predict_argument_checks_witness :
  yolov3_head__predict_by_feat squash unit get_post static_shape
    one_anchor_per_cell raw_boxes (NmsCall Q) id tt (head 1) pred_maps3 None false true
    = Err LevelCountAssertion ∧
  yolov3_head__predict_by_feat squash unit get_post static_shape
    one_anchor_per_cell raw_boxes (NmsCall Q) id tt head_unconfigured pred_maps1 None
    false true
    = Err AttributeError.
Proof.
  destruct (predict_argument_checks squash unit get_post static_shape
              one_anchor_per_cell raw_boxes (NmsCall Q) id
              tt (head 1) pred_maps3 None false true) as (Hcount & _ & _).
  destruct (predict_argument_checks squash unit get_post static_shape
              one_anchor_per_cell raw_boxes (NmsCall Q) id
              tt head_unconfigured pred_maps1 None false true) as (_ & _ & Hcfg).
  exact (conj (Hcount ltac:(discriminate))
              (Hcfg eq_refl ltac:(discriminate) eq_refl eq_refl)).
Defined.

Lemma nms_receives_filtered_pair_witness :
  let boxes := [[[q 3 4; q 1 4; q 2 1; q 3 1]]] in
  let scores := [[[q 72 120]]] in
  yolov3_head__predict_by_feat squash unit get_post static_shape
    one_anchor_per_cell raw_boxes (NmsCall Q) id tt (head 1) pred_maps1 None false false
    = Ok (@Filtered Q (NmsCall Q) boxes scores) ∧
  ((∃ call,
      yolov3_head__predict_by_feat squash unit get_post static_shape
        one_anchor_per_cell raw_boxes (NmsCall Q) id tt (head 1) pred_maps1 None false
        true = Ok (@Detections Q (NmsCall Q) (id call)) ∧
      nms_boxes call = boxes ∧ nms_scores call = scores) ∨
   (yolov3_head__predict_by_feat squash unit get_post static_shape
      one_anchor_per_cell raw_boxes (NmsCall Q) id tt (head 1) pred_maps1 None false
      true = Err AttributeError ∧
    ∃ c, resolved_cfg (head 1) None = Some c ∧ cfg_nms c = None)).
Proof.
  intros boxes scores.
  assert (yolov3_head__predict_by_feat squash unit get_post static_shape
            one_anchor_per_cell raw_boxes (NmsCall Q) id tt (head 1) pred_maps1
            None false false = Ok (@Filtered Q (NmsCall Q) boxes scores)) as Hrun
    by (vm_compute; reflexivity).
  split; [exact Hrun|].
  destruct (nms_receives_filtered_pair squash unit get_post static_shape
              one_anchor_per_cell raw_boxes (NmsCall Q) id
              tt (head 1) pred_maps1 None false) as (_ & Hpair & _).
  exact (Hpair boxes scores Hrun).
Defined.

Lemma predict_success_requirements_witness :
  let out := @Filtered Q (NmsCall Q) [[[q 3 4; q 1 4; q 2 1; q 3 1]]] [[[q 72 120]]] in
  yolov3_head__predict_by_feat squash unit get_post static_shape
    one_anchor_per_cell raw_boxes (NmsCall Q) id tt (head 1) pred_maps1 None false false
    = Ok out ∧
  ∃ first c,
    pred_maps1 !! 0 = Some first ∧ first ≠ [] ∧
    resolved_cfg (head 1) None = Some c ∧
    5 ≤ num_attrib (head 1) ∧ 1 ≤ num_classes (head 1).
Proof.
  intros out.
  assert (yolov3_head__predict_by_feat squash unit get_post static_shape
            one_anchor_per_cell raw_boxes (NmsCall Q) id tt (head 1) pred_maps1
            None false false = Ok out) as Hrun by (vm_compute; reflexivity).
  split; [exact Hrun|].
  destruct (predict_success_requirements squash unit get_post static_shape
              one_anchor_per_cell raw_boxes (NmsCall Q) id
              tt (head 1) pred_maps1 None false false out Hrun)
    as (first & c & Hfirst & Hne & _ & Hcfg & _ & Hattrib & Hclasses & _).
  exists first, c.
  exact (conj Hfirst (conj Hne (conj Hcfg (conj Hattrib Hclasses)))).
Defined.

Lemma ncnn_runs_iff_witness :
  ∃ out g',
    yolov3_head__predict_by_feat__ncnn unit get_post Z lcg tt head3 pred_maps3
      true None 1%Z = (Ok out, g').
Proof.
  apply (proj2 (ncnn_runs_iff unit get_post Z lcg tt head3 pred_maps3 true None 1%Z)).
  exists cfg_plain, {[ "iou_threshold" := PFloat (q 45 100) ]},
    [(116, 90); (156, 198); (373, 326)]%Z.
  assert (Forall (λ l : list (Z * Z),
            length l = length [(116, 90); (156, 198); (373, 326)]%Z)
            (base_sizes head3)) as Hregular by (repeat constructor).
  exact (conj eq_refl (conj eq_refl (conj eq_refl Hregular))).
Defined.

Lemma ncnn_failure_modes_witness :
  yolov3_head__predict_by_feat__ncnn unit get_post Z lcg tt head_unconfigured
    pred_maps1 true None 1%Z = (Err AttributeError, 1%Z) ∧
  ∀ pred_maps2 with_nms2 g2,
    yolov3_head__predict_by_feat__ncnn unit get_post Z lcg tt head_unconfigured
      pred_maps2 with_nms2 None g2 = (Err AttributeError, g2).
Proof.
  assert (yolov3_head__predict_by_feat__ncnn unit get_post Z lcg tt head_unconfigured
            pred_maps1 true None 1%Z = (Err AttributeError, 1%Z)) as Hrun
    by reflexivity.
  split; [exact Hrun|].
  destruct (ncnn_failure_modes unit get_post Z lcg tt head_unconfigured pred_maps1
              true None 1%Z 1%Z AttributeError Hrun) as (_ & _ & _ & Hany).
  exact Hany.
Defined.

Lemma ncnn_thresholds_and_inputs_witness :
  ∃ call,
    ncnn_op_call unit get_post tt head3 pred_maps3 true None = Ok call ∧
    op_inputs call = pred_maps3 ∧ op_num_class call = 80 ∧
    op_anchors_scale call = [32; 16; 8]%Z.
Proof.
  eexists. split; [reflexivity|].
  destruct (ncnn_thresholds_and_inputs unit get_post tt head3 pred_maps3 true None
              _ eq_refl) as (Hin & Hcls & Hscale & _).
  exact (conj Hin (conj Hcls Hscale)).
Defined.

Lemma ncnn_biases_layout_witness :
  ∃ call,
    ncnn_op_call unit get_post tt head3 pred_maps3 true None = Ok call ∧
    op_biases call !! (2 * (1 * op_num_box call + 2)) = Some 59%Z ∧
    op_biases call !! (2 * (1 * op_num_box call + 2) + 1) = Some 119%Z.
Proof.
  eexists. split; [reflexivity|].
  destruct (ncnn_biases_layout unit get_post tt head3 pred_maps3 true None _
              1 2 [(30, 61); (62, 45); (59, 119)]%Z (59, 119)%Z
              eq_refl eq_refl eq_refl) as (_ & Hw & Hh & _).
  exact (conj Hw Hh).
Defined.

Lemma symbolic_splits_arguments_witness :
  let maps : list (Arg Q) := [ATensor [[[[q 1 1]]]]; ATensor [[[[q 2 1]]]]] in
  let params : list (Arg Q) :=
    [ int_arg 80; int_arg 3; ANum (PFloat (q 5 1000)); ANum (PFloat (q 45 100));
      ints_arg [116; 90]%Z; ints_arg [0; 1]%Z; ints_arg [32; 16]%Z ] in
  ∃ node,
    symbolic (maps ++ params) = inr node ∧
    maps ++ params
    = node_inputs node ++
      [ num_class_i node; num_box_i node; confidence_threshold_f node;
        nms_threshold_f node; biases_f node; mask_f node; anchors_scale_f node ].
Proof.
  intros maps params. eexists. split; [reflexivity|].
  exact (proj1 (symbolic_splits_arguments (maps ++ params) _ eq_refl)).
Defined.

Lemma symbolic_of_ncnn_call_witness :
  ∃ call,
    ncnn_op_call unit get_post tt (head 1) pred_maps1 true None = Ok call ∧
    symbolic (apply_args call)
    = inr {| node_kind := "mmdeploy::Yolov3DetectionOutput";
             node_inputs := ATensor <$> pred_maps1;
             num_class_i := int_arg 1;
             num_box_i := int_arg (op_num_box call);
             confidence_threshold_f := ANum (op_confidence_threshold call);
             nms_threshold_f := ANum (op_nms_threshold call);
             biases_f := ints_arg (op_biases call);
             mask_f := ints_arg (Z.of_nat <$> op_mask call);
             anchors_scale_f := ints_arg [32%Z];
             node_outputs := 1 |}.
Proof.
  eexists. split; [reflexivity|].
  exact (proj1 (symbolic_of_ncnn_call unit get_post tt (head 1) pred_maps1 true None
                  _ eq_refl) eq_refl).
Defined.

Lemma predict_returns_every_candidate_witness :
  ∃ t,
    yolov3_head__predict_by_feat_tail squash unit get_post static_shape
      one_anchor_per_cell raw_boxes tt (head 1) pred_maps_two_images None false false
      = Ok t ∧
    length (tail_scores t) = 2 ∧
    uniform (sum_list_with (level_candidates 1) pred_maps_two_images) (tail_scores t) ∧
    Forall (uniform 1) (tail_scores t).
Proof.
  destruct (predict_returns_every_candidate squash unit get_post static_shape
              one_anchor_per_cell raw_boxes (NmsCall Q) id
              tt (head 1) pred_maps_two_images None false false cfg_plain 2 1
              eq_refl ltac:(discriminate) ltac:(discriminate)
              ltac:(repeat constructor) eq_refl ltac:(discriminate)
              ltac:(vm_compute; lia) ltac:(vm_compute; lia)
              (λ _ _ _, eq_refl) eq_refl ltac:(vm_compute; reflexivity)
              ltac:(discriminate))
    as (t & Hrun & _ & _ & Hlen & Hrows & Hwidth & _).
  exists t. exact (conj Hrun (conj Hlen (conj Hrows Hwidth))).
Defined.
